(** * Engine wrappers of the short-video creator: a shallow embedding

    The repository wraps four external engines: the Remotion renderer
    ([Remotion.ts]), the ffmpeg transcoder ([FFmpeg.ts]), the faster-whisper
    transcription script ([Whisper.ts] and its second copy [part_002]) and
    the Kokoro ONNX text-to-speech model ([part_000], with the later sketch
    of its [init] in [part_001]).  Every wrapper method is embedded as a
    function in a state-and-exception monad over a [world]: the state of
    everything outside the program, the logger output, the trace of calls
    made to the external engines with their outcomes, and the one piece of
    program state that outlives a method call, the static flag
    [FFMpeg.gpuAccelerated].

    External functions ([execSync], [renderMedia], [session.run], ...) are
    oracles, gathered in the class [Platform]: each takes the outside state
    and returns a value or throws, together with the next outside state.
    The first part of the file holds the embedding, a scripted platform to
    run it on and the vocabulary of the properties; the second part proves
    the properties. *)

From Stdlib Require Import ZArith QArith Qround Lia Lqa String Ascii List.
From Stdlib Require SpecFloat.
From stdpp Require Import base list strings.

Set Warnings "-register-all".
Local Open Scope Z_scope.

(** ** JavaScript numbers

    A [number] is a finite value, an infinity or NaN.  Finite values are
    rationals, and the sign of zero is not represented.  [num_mul] and
    [num_div] give the exact product and quotient: they stand for [*] and
    [/] where binary64 arithmetic is exact on the values the wrappers meet
    (halving and flooring a count, scaling a float32 sample by 32767,
    rounding a millisecond stamp).  Where it is not, as in the quotient
    [audioLength] of [Kokoro.generate], [*] and [/] are [binary64_mul] and
    [binary64_div], which round the exact result to binary64. *)

Module JSNumber.

Inductive number : Type :=
| NaN
| PosInf
| NegInf
| Fin (q : Q).

Definition of_Z (z : Z) : number := Fin (inject_Z z).

(** Equality of numbers as values: rationals are compared by [Qeq]. *)
Definition num_eq (a b : number) : Prop :=
  match a, b with
  | NaN, NaN => True
  | PosInf, PosInf => True
  | NegInf, NegInf => True
  | Fin x, Fin y => (x == y)%Q
  | _, _ => False
  end.

(** [a < b] of the language: false as soon as one side is NaN. *)
Definition num_ltb (a b : number) : bool :=
  match a, b with
  | NaN, _ | _, NaN => false
  | _, NegInf => false
  | NegInf, _ => true
  | PosInf, _ => false
  | Fin _, PosInf => true
  | Fin x, Fin y => negb (Qle_bool y x)
  end.

Definition infinity (negative : bool) : number :=
  if negative then NegInf else PosInf.

(** [a * b]. *)
Definition num_mul (a b : number) : number :=
  match a, b with
  | NaN, _ | _, NaN => NaN
  | Fin x, Fin y => Fin (x * y)
  | Fin x, PosInf | PosInf, Fin x =>
      match (x ?= 0)%Q with Eq => NaN | Lt => NegInf | Gt => PosInf end
  | Fin x, NegInf | NegInf, Fin x =>
      match (x ?= 0)%Q with Eq => NaN | Lt => PosInf | Gt => NegInf end
  | PosInf, PosInf | NegInf, NegInf => PosInf
  | PosInf, NegInf | NegInf, PosInf => NegInf
  end.

(** [a / b]; a zero divisor is the positive zero. *)
Definition num_div (a b : number) : number :=
  match a, b with
  | NaN, _ | _, NaN => NaN
  | Fin x, Fin y =>
      match (y ?= 0)%Q with
      | Eq => match (x ?= 0)%Q with Eq => NaN | Lt => NegInf | Gt => PosInf end
      | _ => Fin (x / y)
      end
  | Fin _, (PosInf | NegInf) => Fin 0
  | (PosInf | NegInf), (PosInf | NegInf) => NaN
  | PosInf, Fin y => infinity (Qle_bool y 0 && negb (Qeq_bool y 0))
  | NegInf, Fin y => infinity (negb (Qle_bool y 0 && negb (Qeq_bool y 0)))
  end.

(** [m * 2^e]. *)
Definition dyadic (m e : Z) : Q :=
  match e with
  | Zneg p => m # (2 ^ p)
  | _ => inject_Z (m * 2 ^ e)
  end.

(** The value of a binary64 datum. *)
Definition of_binary64 (x : SpecFloat.spec_float) : number :=
  match x with
  | SpecFloat.S754_zero _ => Fin 0
  | SpecFloat.S754_infinity negative => infinity negative
  | SpecFloat.S754_nan => NaN
  | SpecFloat.S754_finite negative m e =>
      Fin (dyadic (if negative then Zneg m else Zpos m) e)
  end.

(** The binary64 datum nearest to a rational, a tie going to the even
    mantissa and a value past the largest finite one to the infinity: the
    quotient of the numerator by the denominator, as the standard library's
    specification of IEEE 754 division computes it at precision 53 and
    exponent bound 1024. *)
Definition nearest_binary64 (q : Q) : SpecFloat.spec_float :=
  let r := Qred q in
  match Qnum r with
  | Z0 => SpecFloat.S754_zero false
  | Zpos n =>
      SpecFloat.SFdiv 53 1024 (SpecFloat.S754_finite false n 0)
                              (SpecFloat.S754_finite false (Qden r) 0)
  | Zneg n =>
      SpecFloat.SFdiv 53 1024 (SpecFloat.S754_finite true n 0)
                              (SpecFloat.S754_finite false (Qden r) 0)
  end.

(** A rational rounded to binary64. *)
Definition to_binary64 (q : Q) : number := of_binary64 (nearest_binary64 q).

Definition round_binary64 (a : number) : number :=
  match a with
  | Fin q => to_binary64 q
  | _ => a
  end.

(** [a * b] and [a / b] on binary64 operands: the exact result, rounded. *)
Definition binary64_mul (a b : number) : number := round_binary64 (num_mul a b).

Definition binary64_div (a b : number) : number := round_binary64 (num_div a b).

(** [Math.floor]. *)
Definition math_floor (a : number) : number :=
  match a with
  | Fin q => of_Z (Qfloor q)
  | _ => a
  end.

(** [Math.round]: the nearest integer, a tie going up. *)
Definition math_round (a : number) : number :=
  match a with
  | Fin q => of_Z (Qfloor (q + (1 # 2)))
  | _ => a
  end.

(** [Math.max(a, b)] and [Math.min(a, b)]: NaN as soon as one argument is. *)
Definition math_max (a b : number) : number :=
  match a, b with
  | NaN, _ | _, NaN => NaN
  | _, _ => if num_ltb a b then b else a
  end.

Definition math_min (a b : number) : number :=
  match a, b with
  | NaN, _ | _, NaN => NaN
  | _, _ => if num_ltb b a then b else a
  end.

(** Truncation toward zero of a rational. *)
Definition Qtruncate (q : Q) : Z := Z.quot (Qnum q) (Zpos (Qden q)).

(** [ToInt16] of the language, as [DataView.setInt16] applies it to its
    value: NaN and the infinities give 0, a finite value is truncated
    toward zero and wrapped modulo 2^16 into [-32768, 32767]. *)
Definition ToUint16 (a : number) : Z :=
  match a with
  | Fin q => Qtruncate q mod 65536
  | _ => 0
  end.

Definition int16_of_uint16 (u : Z) : Z :=
  if 32768 <=? u then u - 65536 else u.

Definition ToInt16 (a : number) : Z := int16_of_uint16 (ToUint16 a).

(** Truthiness of a number: false for 0 and NaN. *)
Definition num_truthy (a : number) : bool :=
  match a with
  | NaN => false
  | Fin q => negb (Qeq_bool q 0)
  | _ => true
  end.

End JSNumber.

Import JSNumber.

(** ** Values that cross the wrapper boundaries *)

(** A thrown value: the wrappers only throw and catch [Error] objects, which
    are told apart by their class and carry a message. *)
Inductive error : Type :=
| Error (message : string)
| TypeError (message : string)
| RangeError (message : string).

Definition message (e : error) : string :=
  match e with
  | Error m | TypeError m | RangeError m => m
  end.

(** The outcome of a call that may throw. *)
Inductive result (A : Type) : Type :=
| Ok (a : A)
| Throw (e : error).
Arguments Ok {A} a.
Arguments Throw {A} e.

(** The state of a promise built with [new Promise((resolve, reject) => ...)]. *)
Inductive promise (A : Type) : Type :=
| Pending
| Resolved (a : A)
| Rejected (e : error).
Arguments Pending {A}.
Arguments Resolved {A} a.
Arguments Rejected {A} e.

(** A value parsed by [JSON.parse]. *)
Inductive json : Type :=
| JNull
| JBool (b : bool)
| JNum (q : Q)
| JStr (s : string)
| JArr (items : list json)
| JObj (fields : list (string * json)).

(** One line of the logger: level, the error object attached (if any), text. *)
Inductive level : Type := Debug | Info | Warn | Err.

Record log_entry : Type := LogEntry {
  lvl : level;
  about : option error;
  text : string
}.

(** [ArrayBuffer] contents: bytes as integers in [0, 256). *)
Abbreviation bytes := (list Z).

(** The types the external libraries own and the wrappers only pass on. *)
Class Carriers : Type := {
  Ext : Type;          (* everything outside the program: processes, files, GPU *)
  Session : Type;      (* onnxruntime InferenceSession *)
  Composition : Type;  (* Remotion composition *)
  Props : Type         (* z.infer<typeof shortVideoSchema> *)
}.

(** [Config] as the wrappers read it. *)
Record Config : Type := {
  runningInDocker : bool;
  devMode : bool;
  musicDirPath : string;
  packageDirPath : string;
  videosDirPath : string;
  whisperInstallPath : string;
  whisperModel : string;
  concurrency : number;
  videoCacheSizeInBytes : number
}.

(** The options object of [renderMedia]; an absent key is [None]/[false]. *)
Record RenderOptions `{Carriers} : Type := {
  ro_codec : string;
  ro_composition : Composition;
  ro_serveUrl : string;
  ro_outputLocation : string;
  ro_inputProps : Props;
  ro_onProgress : bool;
  ro_ffmpegExecutable : option string;
  ro_concurrency : number;
  ro_offthreadVideoCacheSizeInBytes : number;
  ro_pixelFormat : option string;
  ro_videoBitrate : option string;
  ro_audioBitrate : option string
}.

(** A fluent-ffmpeg command under construction. *)
Record Command : Type := {
  cmd_input : bytes;
  cmd_outputOptions : list string;
  cmd_audioCodec : option string;
  cmd_audioBitrate : option Z;
  cmd_audioChannels : option Z;
  cmd_audioFrequency : option Z;
  cmd_format : option string
}.

(** Events a running ffmpeg command (or its output stream) emits, in order. *)
Inductive ffmpeg_event : Type :=
| OnEnd
| OnError (err : error)
| OnStreamData (chunk : bytes)
| OnStreamEnd
| OnStreamError (err : error).

(** [@ffmpeg-installer/ffmpeg]. *)
Record Installer : Type := {
  installer_path : string;
  installer_version : string
}.

(** A word of the transcription script's JSON output. *)
Record Word : Type := {
  word_text : string;
  word_start : number;
  word_end : number
}.

Record Caption : Type := {
  caption_text : string;
  startMs : number;
  endMs : number
}.

(** onnxruntime tensors: the input tensor and the output map of [session.run]. *)
Record Tensor : Type := {
  tensor_type : string;
  tensor_data : list Z;
  tensor_dims : list Z
}.

Record OutputTensor : Type := {
  data : option (list number)
}.

Record Outputs : Type := {
  audio : option OutputTensor
}.

Record SessionOptions : Type := {
  executionProviders : list string;
  graphOptimizationLevel : string;
  enableCpuMemArena : bool;
  enableMemPattern : bool;
  logSeverityLevel : Z
}.

(** ** The external world *)

Section Interfaces.
Context `{Carriers}.

(** A call to an external function, as the trace records it. *)
Inductive call : Type :=
| ExecSync (cmd : string)
| RequireResolve (id : string)
| EnsureBrowser
| Bundle (publicDir entryPoint : string)
| SelectComposition (serveUrl id : string) (inputProps : Props)
| RenderMedia (options : RenderOptions)
| ImportFfmpegInstaller
| SetFfmpegPath (path : string)
| FfmpegSave (cmd : Command) (path : string)
| FfmpegPipe (cmd : Command)
| EnsureDir (path : string)
| WriteFile (path content : string)
| ExistsSync (path : string)
| MkdirSync (path : string)
| ReadFileSync (path : string)
| GetAvailableProviders
| SessionCreate (path : string) (options : SessionOptions)
| SessionRun (session : Session) (input_ids : Tensor) (providers : list string).

(** What a call gave back. *)
Inductive value : Type :=
| VUnit
| VBool (b : bool)
| VString (s : string)
| VStrings (l : list string)
| VInstaller (i : Installer)
| VComposition (c : Composition)
| VSession (s : Session)
| VOutputs (o : option Outputs)
| VEvents (l : list ffmpeg_event).

Record event : Type := Called {
  ev_call : call;
  ev_outcome : result value
}.

(** The state a wrapper method runs in. [gpuAccelerated] is the private
    static field of class [FFMpeg]; it lives as long as the program. *)
Record world : Type := World {
  ext : Ext;
  log : list log_entry;
  trace : list event;
  gpuAccelerated : bool
}.

(** [private static gpuAccelerated = false]: a program starts with an empty
    log and trace and the flag cleared. *)
Definition boot (e : Ext) : world :=
  {| ext := e; log := []; trace := []; gpuAccelerated := false |}.

(** The external functions.  A stateful one takes the outside state and
    returns its outcome and the next outside state. *)
Class Platform : Type := {
  (* child_process *)
  execSync : string -> Ext -> result string * Ext;
  (* module loader *)
  requireResolve : string -> Ext -> result string * Ext;
  (* the language's conversion of a string to a number *)
  StringToNumber : string -> number;
  (* path, process *)
  path_join : list string -> string;
  cwd : string;
  (* fs, fs-extra *)
  ensureDir : string -> Ext -> result unit * Ext;
  writeFile : string -> string -> Ext -> result unit * Ext;
  existsSync : string -> Ext -> bool * Ext;
  mkdirSync : string -> Ext -> result unit * Ext;
  readFileSync : string -> Ext -> result string * Ext;
  (* JSON *)
  JSON_parse : string -> result json;
  JSON_parse_words : string -> result (list Word);
  (* @remotion/renderer, @remotion/bundler *)
  ensureBrowser : Ext -> result unit * Ext;
  bundle : string -> string -> Ext -> result string * Ext;
  selectComposition : string -> string -> Props -> Ext -> result Composition * Ext;
  renderMedia : RenderOptions -> Ext -> result unit * Ext;
  (* @ffmpeg-installer/ffmpeg, fluent-ffmpeg *)
  ffmpeg_path : string;
  importFfmpegInstaller : Ext -> result Installer * Ext;
  ffmpegSave : Command -> string -> Ext -> list ffmpeg_event * Ext;
  ffmpegPipe : Command -> Ext -> list ffmpeg_event * Ext;
  base64 : bytes -> string;
  (* onnxruntime-node *)
  getAvailableProviders : Ext -> result (list string) * Ext;
  sessionCreate : string -> SessionOptions -> Ext -> result Session * Ext;
  sessionRun : Session -> Tensor -> list string -> Ext -> result (option Outputs) * Ext
}.

End Interfaces.

(** ** Strings *)

Module JSString.

Definition LF : string := String (ascii_of_nat 10) EmptyString.
Definition DQ : string := String (ascii_of_nat 34) EmptyString.
Definition BACKSLASH : ascii := ascii_of_nat 92.

(** [hay.includes(needle)]. *)
Fixpoint includes (needle hay : string) : bool :=
  String.prefix needle hay ||
  match hay with
  | EmptyString => false
  | String _ rest => includes needle rest
  end.

(** White space as [trim] sees it, on one-byte characters. *)
Definition is_space (c : ascii) : bool :=
  let n := nat_of_ascii c in
  ((9 <=? n)%nat && (n <=? 13)%nat) || (n =? 32)%nat.

Fixpoint trim_start (s : string) : string :=
  match s with
  | EmptyString => EmptyString
  | String c rest => if is_space c then trim_start rest else s
  end.

Definition reverse (s : string) : string :=
  string_of_list_ascii (List.rev (list_ascii_of_string s)).

(** [s.trim()]. *)
Definition trim (s : string) : string :=
  reverse (trim_start (reverse (trim_start s))).

(** [lines.join(sep)]. *)
Fixpoint join (sep : string) (l : list string) : string :=
  match l with
  | [] => EmptyString
  | [s] => s
  | s :: rest => s +:+ sep +:+ join sep rest
  end.

(** [s.replace(/\\/g, '\\\\')]: every backslash doubled. *)
Fixpoint double_backslashes (s : string) : string :=
  match s with
  | EmptyString => EmptyString
  | String c rest =>
      if Ascii.eqb c BACKSLASH
      then String c (String c (double_backslashes rest))
      else String c (double_backslashes rest)
  end.

(** [s.split('').map(c => BigInt(c.charCodeAt(0)))] on one-byte characters. *)
Definition char_codes (s : string) : list Z :=
  List.map (fun c => Z.of_nat (nat_of_ascii c)) (list_ascii_of_string s).

(** [s.length]. *)
Definition js_length (s : string) : Z := Z.of_nat (String.length s).

End JSString.

Import JSString.

(** ** The monad of wrapper methods *)

Section Monad.
Context `{Carriers}.

Definition M (A : Type) : Type := world -> result A * world.

Definition ret {A : Type} (a : A) : M A := fun w => (Ok a, w).

Definition throw {A : Type} (e : error) : M A := fun w => (Throw e, w).

Definition bind {A B : Type} (m : M A) (k : A -> M B) : M B :=
  fun w =>
    match m w with
    | (Ok a, w') => k a w'
    | (Throw e, w') => (Throw e, w')
    end.

(** [try { body } catch (error) { handler }]. *)
Definition try_catch {A : Type} (body : M A) (handler : error -> M A) : M A :=
  fun w =>
    match body w with
    | (Ok a, w') => (Ok a, w')
    | (Throw e, w') => handler e w'
    end.

(** [logger.debug / info / warn / error]. *)
Definition logger (l : level) (err : option error) (msg : string) : M unit :=
  fun w =>
    (Ok tt,
     {| ext := ext w;
        log := log w ++ [LogEntry l err msg];
        trace := trace w;
        gpuAccelerated := gpuAccelerated w |}).

Definition map_result {A B : Type} (f : A -> B) (r : result A) : result B :=
  match r with
  | Ok a => Ok (f a)
  | Throw e => Throw e
  end.

(** A call to an external function: run the oracle on the outside state and
    append the call and its outcome to the trace. *)
Definition invoke {A : Type} (c : call) (inj : A -> value)
    (oracle : Ext -> result A * Ext) : M A :=
  fun w =>
    let (r, e') := oracle (ext w) in
    (r,
     {| ext := e';
        log := log w;
        trace := trace w ++ [Called c (map_result inj r)];
        gpuAccelerated := gpuAccelerated w |}).

(** An external function that cannot throw. *)
Definition invoke_total {A : Type} (c : call) (inj : A -> value)
    (oracle : Ext -> A * Ext) : M A :=
  invoke c inj (fun e => let (a, e') := oracle e in (Ok a, e')).

(** [FFMpeg.gpuAccelerated = b]. *)
Definition set_gpuAccelerated (b : bool) : M unit :=
  fun w =>
    (Ok tt,
     {| ext := ext w; log := log w; trace := trace w; gpuAccelerated := b |}).

(** [if (c) { m }] with no else branch. *)
Definition when (c : bool) (m : M unit) : M unit :=
  if c then m else ret tt.

End Monad.

Declare Scope js_scope.
Delimit Scope js_scope with js.
Notation "'let*' x ':=' m 'in' k" := (bind m (fun x => k))
  (at level 10, x name, m at level 100, k at level 200) : js_scope.
Notation "m '>>' k" := (bind m (fun _ => k))
  (at level 90, right associativity) : js_scope.
Local Open Scope js_scope.
Local Open Scope string_scope.

(** The external functions as monadic calls. *)
Section Calls.
Context `{Platform}.

Definition exec (cmd : string) : M string :=
  invoke (ExecSync cmd) VString (execSync cmd).

Definition fs_ensureDir (p : string) : M unit :=
  invoke (EnsureDir p) (fun _ => VUnit) (ensureDir p).

Definition fs_writeFile (p content : string) : M unit :=
  invoke (WriteFile p content) (fun _ => VUnit) (writeFile p content).

Definition fs_existsSync (p : string) : M bool :=
  invoke_total (ExistsSync p) VBool (existsSync p).

Definition fs_mkdirSync (p : string) : M unit :=
  invoke (MkdirSync p) (fun _ => VUnit) (mkdirSync p).

Definition fs_readFileSync (p : string) : M string :=
  invoke (ReadFileSync p) VString (readFileSync p).

(** A pure function that may throw. *)
Definition lift_result {A : Type} (r : result A) : M A :=
  fun w => (r, w).

End Calls.

(** ** Remotion.ts *)

Module Remotion.
Section Remotion.
Context `{Platform}.

Definition COMPONENT_TO_RENDER : string := "ShortVideo".

(** [new Remotion(bundled, config)]. *)
Record Remotion : Type := new {
  bundled : string;
  config : Config
}.

(** The GPU set-up block of [init]: its [catch] logs and does not rethrow. *)
Definition setup_gpu : M unit :=
  try_catch
    (logger Debug None "Setting up GPU acceleration with specific versions" >>
     exec "npm install @ffmpeg-installer/ffmpeg@1.1.0 --no-save" >>
     let* remotionVersion := exec "npm list @remotion/renderer" in
     when (negb (includes "4.0.286" remotionVersion))
          (throw (Error "Incorrect @remotion version installed")) >>
     exec ("export FFMPEG_BINARY=" +:+ ffmpeg_path) >>
     logger Debug None "GPU acceleration configured with FFmpeg v1.1.0")
    (fun error => logger Warn (Some error) "GPU setup failed, falling back to CPU").

Definition entryPoint (config : Config) : string :=
  path_join [ packageDirPath config;
              (if devMode config then "src" else "dist");
              "components";
              "root";
              "index." +:+ (if devMode config then "ts" else "js") ].

(** [static async init(config)]. *)
Definition init (config : Config) : M Remotion :=
  invoke EnsureBrowser (fun _ => VUnit) ensureBrowser >>
  when (negb (runningInDocker config)) setup_gpu >>
  let* bundled :=
    invoke (Bundle (musicDirPath config) (entryPoint config)) VString
           (bundle (musicDirPath config) (entryPoint config)) in
  logger Debug None "Remotion v4.0.286 initialized with GPU support" >>
  ret (new bundled config).

Definition call_renderMedia (o : RenderOptions) : M unit :=
  invoke (RenderMedia o) (fun _ => VUnit) (renderMedia o).

(** The options of the first, GPU, [renderMedia] call of [render]. *)
Definition gpu_options (this : Remotion) (composition : Composition)
    (data : Props) (outputLocation : string) : RenderOptions :=
  {| ro_codec := "h264";
     ro_composition := composition;
     ro_serveUrl := bundled this;
     ro_outputLocation := outputLocation;
     ro_inputProps := data;
     ro_onProgress := true;
     ro_ffmpegExecutable := Some ffmpeg_path;
     ro_concurrency := concurrency (config this);
     ro_offthreadVideoCacheSizeInBytes := videoCacheSizeInBytes (config this);
     ro_pixelFormat := Some "yuv420p";
     ro_videoBitrate := Some "8000k";
     ro_audioBitrate := Some "256k" |}.

(** [Math.max(1, Math.floor(this.config.concurrency / 2))]. *)
Definition fallback_concurrency (c : number) : number :=
  math_max (of_Z 1) (math_floor (num_div c (of_Z 2))).

(** [Math.floor(this.config.videoCacheSizeInBytes / 2)]. *)
Definition fallback_cache_size (v : number) : number :=
  math_floor (num_div v (of_Z 2)).

(** The options of the [renderMedia] call of [fallbackCPURender]. *)
Definition cpu_options (this : Remotion) (composition : Composition)
    (data : Props) (outputLocation : string) : RenderOptions :=
  {| ro_codec := "h264";
     ro_composition := composition;
     ro_serveUrl := bundled this;
     ro_outputLocation := outputLocation;
     ro_inputProps := data;
     ro_onProgress := false;
     ro_ffmpegExecutable := Some ffmpeg_path;
     ro_concurrency := fallback_concurrency (concurrency (config this));
     ro_offthreadVideoCacheSizeInBytes :=
       fallback_cache_size (videoCacheSizeInBytes (config this));
     ro_pixelFormat := None;
     ro_videoBitrate := None;
     ro_audioBitrate := None |}.

(** [private async fallbackCPURender(composition, data, outputLocation, id)]. *)
Definition fallbackCPURender (this : Remotion) (composition : Composition)
    (data : Props) (outputLocation : string) (id : string) : M unit :=
  logger Debug None "Using CPU fallback render method" >>
  call_renderMedia (cpu_options this composition data outputLocation).

(** [async render(data, id)].  The debug lines of the [onProgress] callback,
    which the renderer calls at its own pace, are left out of the log. *)
Definition render (this : Remotion) (data : Props) (id : string) : M unit :=
  let* composition :=
    invoke (SelectComposition (bundled this) COMPONENT_TO_RENDER data)
           VComposition
           (selectComposition (bundled this) COMPONENT_TO_RENDER data) in
  logger Debug None "Starting GPU-accelerated rendering with Remotion v4.0.286" >>
  let outputLocation :=
    path_join [videosDirPath (config this); id +:+ ".mp4"] in
  try_catch
    (call_renderMedia (gpu_options this composition data outputLocation) >>
     logger Debug None "Video successfully rendered with GPU acceleration")
    (fun error =>
       logger Err (Some error) "GPU rendering failed, attempting CPU fallback" >>
       fallbackCPURender this composition data outputLocation id >>
       logger Debug None "Video rendered with CPU fallback").

(** The second copy of the class in [Remotion.ts] keeps only
    [fallbackCPURender], without the [ffmpegExecutable] option. *)
Definition cpu_options_2 (this : Remotion) (composition : Composition)
    (data : Props) (outputLocation : string) : RenderOptions :=
  {| ro_codec := "h264";
     ro_composition := composition;
     ro_serveUrl := bundled this;
     ro_outputLocation := outputLocation;
     ro_inputProps := data;
     ro_onProgress := false;
     ro_ffmpegExecutable := None;
     ro_concurrency := fallback_concurrency (concurrency (config this));
     ro_offthreadVideoCacheSizeInBytes :=
       fallback_cache_size (videoCacheSizeInBytes (config this));
     ro_pixelFormat := None;
     ro_videoBitrate := None;
     ro_audioBitrate := None |}.

Definition fallbackCPURender_2 (this : Remotion) (composition : Composition)
    (data : Props) (outputLocation : string) (id : string) : M unit :=
  logger Debug None "Using CPU fallback render method" >>
  call_renderMedia (cpu_options_2 this composition data outputLocation).

(** The [renderMedia] calls of a trace, in order. *)
Definition renderMedia_calls (t : list event) : list RenderOptions :=
  List.flat_map
    (fun ev => match ev_call ev with RenderMedia o => [o] | _ => [] end) t.

End Remotion.
End Remotion.

(** ** FFmpeg.ts *)

Module FFMpeg.
Section FFMpeg.
Context `{Platform}.

(** [new FFMpeg()]: the class has no instance field. *)
Inductive FFMpeg : Type := new.

(** The body of the [try] block of [init]. *)
Definition detect_gpu (ffmpegInstaller : Installer) : M unit :=
  let* out := exec "nvidia-smi --query-gpu=name --format=csv,noheader" in
  let nvidiaCheck := trim out in
  when (includes "T4" nvidiaCheck)
    (logger Info None "NVIDIA T4 GPU detected, enabling hardware acceleration" >>
     set_gpuAccelerated true >>
     let* codecs := exec (installer_path ffmpegInstaller +:+ " -codecs") in
     when (negb (includes "nvenc" codecs))
       (logger Warn None "NVENC not available in FFmpeg build" >>
        set_gpuAccelerated false)).

(** [static async init()]. *)
Definition init : M FFMpeg :=
  let* ffmpegInstaller :=
    invoke ImportFfmpegInstaller VInstaller importFfmpegInstaller in
  invoke_total (SetFfmpegPath (installer_path ffmpegInstaller)) (fun _ => VUnit)
               (fun e => (tt, e)) >>
  try_catch
    (detect_gpu ffmpegInstaller)
    (fun error => logger Warn (Some error) "GPU detection failed, using CPU") >>
  logger Info None "FFmpeg initialized" >>
  ret new.

(** [ffmpeg(input)]. *)
Definition ffmpeg (input : bytes) : Command :=
  {| cmd_input := input;
     cmd_outputOptions := [];
     cmd_audioCodec := None;
     cmd_audioBitrate := None;
     cmd_audioChannels := None;
     cmd_audioFrequency := None;
     cmd_format := None |}.

Definition outputOptions (opts : list string) (c : Command) : Command :=
  {| cmd_input := cmd_input c;
     cmd_outputOptions := cmd_outputOptions c ++ opts;
     cmd_audioCodec := cmd_audioCodec c;
     cmd_audioBitrate := cmd_audioBitrate c;
     cmd_audioChannels := cmd_audioChannels c;
     cmd_audioFrequency := cmd_audioFrequency c;
     cmd_format := cmd_format c |}.

Definition audioCodec (codec : string) (c : Command) : Command :=
  {| cmd_input := cmd_input c;
     cmd_outputOptions := cmd_outputOptions c;
     cmd_audioCodec := Some codec;
     cmd_audioBitrate := cmd_audioBitrate c;
     cmd_audioChannels := cmd_audioChannels c;
     cmd_audioFrequency := cmd_audioFrequency c;
     cmd_format := cmd_format c |}.

Definition audioBitrate (rate : Z) (c : Command) : Command :=
  {| cmd_input := cmd_input c;
     cmd_outputOptions := cmd_outputOptions c;
     cmd_audioCodec := cmd_audioCodec c;
     cmd_audioBitrate := Some rate;
     cmd_audioChannels := cmd_audioChannels c;
     cmd_audioFrequency := cmd_audioFrequency c;
     cmd_format := cmd_format c |}.

Definition audioChannels (n : Z) (c : Command) : Command :=
  {| cmd_input := cmd_input c;
     cmd_outputOptions := cmd_outputOptions c;
     cmd_audioCodec := cmd_audioCodec c;
     cmd_audioBitrate := cmd_audioBitrate c;
     cmd_audioChannels := Some n;
     cmd_audioFrequency := cmd_audioFrequency c;
     cmd_format := cmd_format c |}.

Definition audioFrequency (hz : Z) (c : Command) : Command :=
  {| cmd_input := cmd_input c;
     cmd_outputOptions := cmd_outputOptions c;
     cmd_audioCodec := cmd_audioCodec c;
     cmd_audioBitrate := cmd_audioBitrate c;
     cmd_audioChannels := cmd_audioChannels c;
     cmd_audioFrequency := Some hz;
     cmd_format := cmd_format c |}.

Definition toFormat (fmt : string) (c : Command) : Command :=
  {| cmd_input := cmd_input c;
     cmd_outputOptions := cmd_outputOptions c;
     cmd_audioCodec := cmd_audioCodec c;
     cmd_audioBitrate := cmd_audioBitrate c;
     cmd_audioChannels := cmd_audioChannels c;
     cmd_audioFrequency := cmd_audioFrequency c;
     cmd_format := Some fmt |}.

(** [private getAudioCommand(input)], reading the static flag. *)
Definition getAudioCommand (gpu : bool) (input : bytes) : Command :=
  let command := ffmpeg input in
  if gpu
  then outputOptions ["-hwaccel cuda"; "-hwaccel_output_format cuda"; "-c:a aac"]
                     command
  else command.

(** A promise under settlement: [resolve] and [reject] only act on a pending
    promise. *)
Definition resolve {A : Type} (a : A) (p : promise A) : promise A :=
  match p with Pending => Resolved a | _ => p end.

Definition reject {A : Type} (e : error) (p : promise A) : promise A :=
  match p with Pending => Rejected e | _ => p end.

(** The state of a promise executor while the engine's events arrive: the
    promise, the world, the chunks collected so far. *)
Definition settling (A : Type) : Type := promise A * world.

Definition log_line (l : level) (err : option error) (msg : string)
    (w : world) : world :=
  snd (logger l err msg w).

(** The ["end"] and ["error"] handlers of [saveNormalizedAudio]. *)
Definition on_event_normalize (outputPath : string) (s : settling string)
    (ev : ffmpeg_event) : settling string :=
  match ev with
  | OnEnd =>
      (resolve outputPath (fst s),
       log_line Debug None "Audio normalization complete" (snd s))
  | OnError err =>
      (reject err (fst s),
       log_line Err (Some err) "Error normalizing audio" (snd s))
  | _ => s
  end.

Definition run_save (c : Command) (path : string) (w : world)
    : list ffmpeg_event * world :=
  let (evs, e') := ffmpegSave c path (ext w) in
  (evs,
   {| ext := e';
      log := log w;
      trace := trace w ++ [Called (FfmpegSave c path) (Ok (VEvents evs))];
      gpuAccelerated := gpuAccelerated w |}).

Definition run_pipe (c : Command) (w : world) : list ffmpeg_event * world :=
  let (evs, e') := ffmpegPipe c (ext w) in
  (evs,
   {| ext := e';
      log := log w;
      trace := trace w ++ [Called (FfmpegPipe c) (Ok (VEvents evs))];
      gpuAccelerated := gpuAccelerated w |}).

(** The command of [saveNormalizedAudio]. *)
Definition wav_command (gpu : bool) (audio : bytes) : Command :=
  toFormat "wav"
    (audioFrequency 16000
      (audioChannels 1
        (audioCodec "pcm_s16le" (getAudioCommand gpu audio)))).

(** [async saveNormalizedAudio(audio, outputPath)]. *)
Definition saveNormalizedAudio (this : FFMpeg) (audio : bytes)
    (outputPath : string) (w : world) : promise string * world :=
  let w1 := log_line Debug None "Normalizing audio for Whisper" w in
  let (evs, w2) :=
    run_save (wav_command (gpuAccelerated w1) audio) outputPath w1 in
  fold_left (on_event_normalize outputPath) evs (Pending, w2).

(** The mp3 command of [createMp3DataUri] and [saveToMp3]. *)
Definition mp3_command (gpu : bool) (audio : bytes) : Command :=
  let command :=
    toFormat "mp3"
      (audioChannels 2
        (audioBitrate 128
          (audioCodec "libmp3lame" (getAudioCommand gpu audio)))) in
  if gpu then outputOptions ["-c:a aac"; "-b:a 128k"] command else command.

(** The handlers of [createMp3DataUri], with the chunks pushed so far. *)
Definition on_event_datauri (s : settling string * list bytes)
    (ev : ffmpeg_event) : settling string * list bytes :=
  let '((p, w), chunks) := s in
  match ev with
  | OnError err => ((reject err p, w), chunks)
  | OnStreamData chunk => ((p, w), (chunks ++ [chunk])%list)
  | OnStreamEnd =>
      ((resolve ("data:audio/mp3;base64," +:+ base64 (List.concat chunks)) p, w),
       chunks)
  | OnStreamError err => ((reject err p, w), chunks)
  | OnEnd => s
  end.

(** [async createMp3DataUri(audio)]. *)
Definition createMp3DataUri (this : FFMpeg) (audio : bytes) (w : world)
    : promise string * world :=
  let (evs, w1) := run_pipe (mp3_command (gpuAccelerated w) audio) w in
  fst (fold_left on_event_datauri evs ((Pending, w1), [])).

(** The handlers of [saveToMp3]. *)
Definition on_event_mp3 (filePath : string) (s : settling string)
    (ev : ffmpeg_event) : settling string :=
  match ev with
  | OnEnd =>
      (resolve filePath (fst s),
       log_line Debug None "MP3 conversion complete" (snd s))
  | OnError err => (reject err (fst s), snd s)
  | _ => s
  end.

(** [async saveToMp3(audio, filePath)]. *)
Definition saveToMp3 (this : FFMpeg) (audio : bytes) (filePath : string)
    (w : world) : promise string * world :=
  let (evs, w1) := run_save (mp3_command (gpuAccelerated w) audio) filePath w in
  fold_left (on_event_mp3 filePath) evs (Pending, w1).

End FFMpeg.
End FFMpeg.

(** ** Whisper.ts *)

Module Whisper.
Section Whisper.
Context `{Platform}.

(** [new Whisper(config)]. *)
Record Whisper : Type := new {
  config : Config
}.

Definition quoted (s : string) : string := DQ +:+ s +:+ DQ.

(** [static async init(config)]: the [catch] logs and rethrows. *)
Definition init (config : Config) : M Whisper :=
  when (negb (runningInDocker config))
    (logger Debug None "Setting up Whisper for T4 GPU" >>
     try_catch
       (exec "pip install faster-whisper torch torchaudio --upgrade" >>
        let* out :=
          exec ("python -c " +:+
                quoted "import torch; print(torch.cuda.is_available())") in
        let cudaCheck := trim out in
        when (negb (String.eqb cudaCheck "True"))
          (throw (Error "CUDA is not available. Please ensure you are using a GPU runtime in Colab.")) >>
        logger Debug None "Whisper GPU setup complete")
       (fun error =>
          logger Err (Some error) "Failed to setup Whisper with GPU support" >>
          throw error)) >>
  ret (new config).

(** The body of the embedded Python script after its two parameters. *)
Definition script_tail (last_comment_gap : string) : list string :=
  [ EmptyString;
    "# Run on GPU with FP16";
    "model = WhisperModel(model_size, device=" +:+ quoted "cuda" +:+
      ", compute_type=" +:+ quoted "float16" +:+ ")";
    EmptyString;
    "segments, info = model.transcribe(audio_path, word_timestamps=True)";
    EmptyString;
    "output = []";
    "for segment in segments:";
    "    for word in segment.words:";
    "        output.append({";
    "            " +:+ quoted "text" +:+ ": word.word,";
    "            " +:+ quoted "start" +:+ ": word.start * 1000,  # convert to ms";
    "            " +:+ quoted "end" +:+ ": word.end * 1000" +:+ last_comment_gap +:+
      "# convert to ms";
    "        })";
    EmptyString;
    "print(json.dumps(output))";
    "      " ].

(** The template literal [pythonScript] of [Whisper.ts]. *)
Definition pythonScript (this : Whisper) (audioPath : string) : string :=
  join LF
    ([ EmptyString;
       "from faster_whisper import WhisperModel";
       "import json";
       "import sys";
       EmptyString;
       "model_size = " +:+ quoted (whisperModel (config this));
       "audio_path = " +:+ quoted audioPath ]
     ++ script_tail "      ").

(** [words.map(word => ({text, startMs, endMs}))]. *)
Definition caption_of_word (word : Word) : Caption :=
  {| caption_text := word_text word;
     startMs := math_round (word_start word);
     endMs := math_round (word_end word) |}.

(** [async CreateCaption(audioPath)] of [Whisper.ts]. *)
Definition CreateCaption (this : Whisper) (audioPath : string)
    : M (list Caption) :=
  logger Debug None "Starting to transcribe audio with GPU acceleration" >>
  try_catch
    (let scriptPath :=
       path_join [whisperInstallPath (config this); "transcribe_gpu.py"] in
     fs_writeFile scriptPath (pythonScript this audioPath) >>
     let* output := exec ("python " +:+ scriptPath) in
     let* words := lift_result (JSON_parse_words output) in
     logger Debug None "Transcription finished, creating captions" >>
     let captions := List.map caption_of_word words in
     logger Debug None "Captions created" >>
     ret captions)
    (fun error =>
       logger Err (Some error) "Failed to transcribe audio" >>
       throw error).

(** The template literal of the second copy of the class ([part_002]). *)
Definition pythonScript_2 (this : Whisper) (audioPath : string) : string :=
  join LF
    ([ EmptyString;
       "from faster_whisper import WhisperModel";
       "import json";
       "import sys";
       "import os";
       EmptyString;
       "model_size = " +:+ quoted (whisperModel (config this));
       "audio_path = " +:+ quoted (double_backslashes audioPath) +:+
         "  # Handle path escaping";
       EmptyString;
       "# Verify audio file exists";
       "if not os.path.exists(audio_path):";
       "    raise FileNotFoundError(f" +:+
         quoted "Audio file not found at {audio_path}" +:+ ")" ]
     ++ script_tail "       ").

(** [async CreateCaption(audioPath)] of the second copy ([part_002]). *)
Definition CreateCaption_2 (this : Whisper) (audioPath : string)
    : M (list Caption) :=
  logger Debug None "Starting to transcribe audio with GPU acceleration" >>
  try_catch
    (fs_ensureDir (whisperInstallPath (config this)) >>
     let scriptPath :=
       path_join [whisperInstallPath (config this); "transcribe_gpu.py"] in
     fs_writeFile scriptPath (pythonScript_2 this audioPath) >>
     let* created := fs_existsSync scriptPath in
     when (negb created)
       (throw (Error ("Failed to create transcription script at " +:+ scriptPath))) >>
     let* output := exec ("python " +:+ scriptPath) in
     let* words := lift_result (JSON_parse_words output) in
     logger Debug None "Transcription finished, creating captions" >>
     let captions := List.map caption_of_word words in
     logger Debug None "Captions created" >>
     ret captions)
    (fun error =>
       logger Err (Some error) "Failed to transcribe audio" >>
       throw error).

End Whisper.
End Whisper.

(** ** Kokoro ([part_000], [part_001]) *)

Module Kokoro.
Section Kokoro.
Context `{Platform}.

(** *** Values of type [any]: the parsed [config.json] *)

(** [o.name] on a parsed value: reading a property of [null] throws, a
    value without the property gives [undefined] ([None]).  The keys of an
    object are distinct. *)
Fixpoint assoc (name : string) (fields : list (string * json)) : option json :=
  match fields with
  | [] => None
  | (k, v) :: rest => if String.eqb k name then Some v else assoc name rest
  end.

Definition get_property (name : string) (o : json) : result (option json) :=
  match o with
  | JNull =>
      Throw (TypeError ("Cannot read properties of null (reading '" +:+ name +:+ "')"))
  | JObj fields => Ok (assoc name fields)
  | _ => Ok None
  end.

(** Truthiness, as [!v] reads it. *)
Definition truthy (v : option json) : bool :=
  match v with
  | None => false
  | Some JNull => false
  | Some (JBool b) => b
  | Some (JNum q) => negb (Qeq_bool q 0)
  | Some (JStr s) => negb (String.eqb s EmptyString)
  | Some (JArr _) => true
  | Some (JObj _) => true
  end.

(** [ToNumber] of an array goes through its string form: the empty array
    and a [null] item give the empty string, hence 0; one item gives the
    number its string reads as; more items contain a comma, hence NaN. *)
Fixpoint item_to_number (j : json) : number :=
  match j with
  | JNull => of_Z 0
  | JBool _ => NaN
  | JNum q => Fin q
  | JStr s => StringToNumber s
  | JArr [] => of_Z 0
  | JArr [x] => item_to_number x
  | JArr _ => NaN
  | JObj _ => NaN
  end.

(** [ToNumber], as [v * 2] applies it. *)
Definition ToNumber (v : option json) : number :=
  match v with
  | None => NaN
  | Some JNull => of_Z 0
  | Some (JBool b) => of_Z (if b then 1 else 0)
  | Some (JNum q) => Fin q
  | Some (JStr s) => StringToNumber s
  | Some (JArr items) => item_to_number (JArr items)
  | Some (JObj _) => NaN
  end.

(** *** The class *)

Definition MODEL_NAME : string := "Kokoro-82M-v1.0".
Definition MODEL_DIR : string := path_join [cwd; "models"].
Definition MODEL_PATH : string := path_join [MODEL_DIR; MODEL_NAME].
Definition MODEL_FILE : string := path_join [MODEL_PATH; "model.onnx"].
Definition CONFIG_FILE : string := path_join [MODEL_PATH; "config.json"].

(** [new Kokoro(session, config)]; a session that was never set is [None]. *)
Record Kokoro : Type := new {
  session : option Session;
  config : json
}.

(** [private preprocessText(text, voice)]; an absent [text] is [None]. *)
Definition preprocessText (text : option string) (voice : string)
    : result (list Z) :=
  match text with
  | None => Throw (Error "Input text cannot be empty")
  | Some t =>
      if (js_length t =? 0)%Z
      then Throw (Error "Input text cannot be empty")
      else Ok (char_codes t)
  end.

(** [view.setInt16(byteOffset, value, true)]: the two bytes of [ToInt16]
    of the value, low byte first; a write past the end throws. *)
Definition setInt16_le (buffer : bytes) (byteOffset : nat) (value : number)
    : result bytes :=
  if (byteOffset + 2 <=? length buffer)%nat
  then
    let u := ToUint16 value in
    Ok (<[byteOffset := u mod 256]> (<[S byteOffset := u / 256]> buffer))
  else Throw (RangeError "Offset is outside the bounds of the DataView").

(** [Math.min(32767, Math.max(-32768, value * 32767))]. *)
Definition scale_and_clamp (value : number) : number :=
  math_min (of_Z 32767) (math_max (of_Z (-32768)) (num_mul value (of_Z 32767))).

(** [audioData.forEach((value, index) => view.setInt16(index * 2, ..., true))],
    from [index] on. *)
Fixpoint write_samples (audioData : list number) (index : nat) (buffer : bytes)
    : result bytes :=
  match audioData with
  | [] => Ok buffer
  | value :: rest =>
      match setInt16_le buffer (index * 2) (scale_and_clamp value) with
      | Ok buffer' => write_samples rest (S index) buffer'
      | Throw e => Throw e
      end
  end.

(** [new ArrayBuffer(n)]: [n] zero bytes. *)
Definition ArrayBuffer (n : nat) : bytes := replicate n 0.

Definition byteLength (b : bytes) : Z := Z.of_nat (length b).

(** The [try] block of [postprocessAudio]. *)
Definition postprocess (outputs : option Outputs) : result bytes :=
  match outputs with
  | None =>
      Throw (TypeError "Cannot read properties of undefined (reading 'audio')")
  | Some o =>
      match audio o with
      | None =>
          Throw (TypeError "Cannot read properties of undefined (reading 'data')")
      | Some t =>
          match data t with
          | None => Throw (Error "Empty audio data received")
          | Some [] => Throw (Error "Empty audio data received")
          | Some audioData =>
              write_samples audioData 0 (ArrayBuffer (length audioData * 2))
          end
      end
  end.

(** [private postprocessAudio(outputs)]: the [catch] logs and rethrows. *)
Definition postprocessAudio (outputs : option Outputs) : M bytes :=
  try_catch
    (lift_result (postprocess outputs))
    (fun error =>
       logger Err (Some error) "Audio postprocessing failed" >>
       throw error).

(** [if (!outputs || !outputs.audio) throw ...]. *)
Definition validate_outputs (outputs : option Outputs) : M unit :=
  match outputs with
  | None => throw (Error "Invalid model outputs")
  | Some o =>
      match audio o with
      | None => throw (Error "Invalid model outputs")
      | Some _ => ret tt
      end
  end.

Definition call_run (s : Session) (input_ids : Tensor) : M (option Outputs) :=
  invoke (SessionRun s input_ids ["cuda"]) VOutputs
         (sessionRun s input_ids ["cuda"]).

(** [text.length] inside an object literal: reading it of an absent text
    throws. *)
Definition text_length (text : option string) : M Z :=
  match text with
  | None =>
      throw (TypeError "Cannot read properties of undefined (reading 'length')")
  | Some t => ret (js_length t)
  end.

(** [audioData.byteLength / (this.config.sample_rate * 2)], in binary64. *)
Definition audio_length (audioData : bytes) (sample_rate : option json) : number :=
  binary64_div (of_Z (byteLength audioData))
               (binary64_mul (ToNumber sample_rate) (of_Z 2)).

(** [async generate(text, voice)]. *)
Definition generate (this : Kokoro) (text : option string) (voice : string)
    : M (bytes * number) :=
  logger Debug None "Generating audio with Kokoro on GPU" >>
  try_catch
    (let* s :=
       match session this with
       | None => throw (Error "Inference session not initialized")
       | Some s => ret s
       end in
     let* inputIds := lift_result (preprocessText text voice) in
     let inputTensor :=
       {| tensor_type := "int64";
          tensor_data := inputIds;
          tensor_dims := [1; Z.of_nat (length inputIds)] |} in
     let* outputs := call_run s inputTensor in
     validate_outputs outputs >>
     let* audioData := postprocessAudio outputs in
     text_length text >>
     logger Debug None "Audio generated successfully" >>
     let* sample_rate := lift_result (get_property "sample_rate" (config this)) in
     ret (audioData, audio_length audioData sample_rate))
    (fun error =>
       text_length text >>
       logger Err (Some error) "Failed to generate audio" >>
       throw error).

(** [verifyFile] of [init]. *)
Definition verifyFile (path : string) : M unit :=
  let* found := fs_existsSync path in
  if negb found
  then throw (Error ("Model file not found: " +:+ path))
  else logger Debug None ("Found model file: " +:+ path).

Definition CUDA_NOT_AVAILABLE : string :=
  "CUDA not available. Check:" +:+ LF +:+
  "1. NVIDIA drivers are installed" +:+ LF +:+
  "2. CUDA toolkit is installed" +:+ LF +:+
  "3. You have a compatible GPU" +:+ LF +:+
  "4. onnxruntime-node-gpu package is installed".

Definition session_options : SessionOptions :=
  {| executionProviders := ["cuda"];
     graphOptimizationLevel := "all";
     enableCpuMemArena := true;
     enableMemPattern := true;
     logSeverityLevel := 1 |}.

(** [providers.includes('cuda')]. *)
Definition includes_item (x : string) (l : list string) : bool :=
  existsb (String.eqb x) l.

(** Step 1 of [init]: the local install, then the global one. *)
Definition install_runtime : M unit :=
  logger Debug None "Checking/installing onnxruntime-node..." >>
  try_catch
    (exec "npm install onnxruntime-node@latest --save" >> ret tt)
    (fun installError =>
       logger Warn (Some installError) "Fallback to global installation" >>
       exec "npm install -g onnxruntime-node@latest" >>
       ret tt) >>
  logger Debug None "onnxruntime-node installation verified".

(** Steps 2 to 4 of [init], up to the parsed and checked configuration. *)
Definition load_config : M json :=
  let* dir := fs_existsSync MODEL_DIR in
  when (negb dir)
    (logger Debug None ("Creating models directory at " +:+ MODEL_DIR) >>
     fs_mkdirSync MODEL_DIR) >>
  verifyFile MODEL_FILE >>
  verifyFile CONFIG_FILE >>
  let* content := fs_readFileSync CONFIG_FILE in
  let* config := lift_result (JSON_parse content) in
  let* sample_rate := lift_result (get_property "sample_rate" config) in
  when (negb (truthy sample_rate))
    (throw (Error "Invalid config file: missing sample_rate")) >>
  ret config.

(** Steps 5 and 6 of [init]. *)
Definition open_session : M Session :=
  let* providers := invoke GetAvailableProviders VStrings getAvailableProviders in
  logger Debug None ("Available ONNX providers: " +:+ join ", " providers) >>
  when (negb (includes_item "cuda" providers))
    (throw (Error CUDA_NOT_AVAILABLE)) >>
  logger Debug None "Initializing ONNX session with CUDA..." >>
  invoke (SessionCreate MODEL_FILE session_options) VSession
         (sessionCreate MODEL_FILE session_options).

Definition INIT_FAILED : string := "Failed to initialize Kokoro: ".

(** [static async init()] of [part_000]. *)
Definition init : M Kokoro :=
  try_catch
    (install_runtime >>
     let* config := load_config in
     let* s := open_session in
     logger Debug None "Kokoro TTS successfully initialized with GPU support" >>
     ret (new (Some s) config))
    (fun error =>
       logger Err (Some error) "Kokoro initialization failed" >>
       throw (Error (INIT_FAILED +:+ message error))).

(** [static async init()] of [part_001], whose body is elided in the file
    ("rest of your init code"): [rest] stands for it. *)
Definition init_2 (rest : M Kokoro) : M Kokoro :=
  try_catch
    (let* resolved :=
       invoke (RequireResolve "onnxruntime-node") VString
              (requireResolve "onnxruntime-node") in
     when (String.eqb resolved EmptyString)
       (logger Debug None "Installing onnxruntime-node..." >>
        exec "npm install onnxruntime-node@1.15.1" >>
        ret tt) >>
     rest)
    (fun error =>
       let errMsg := message error in
       logger Err (Some error) "Failed to initialize Kokoro" >>
       throw (Error (INIT_FAILED +:+ errMsg))).

(** Reading a buffer back: [view.getInt16(index * 2, true)]. *)
Definition getInt16_le (buffer : bytes) (byteOffset : nat) : option Z :=
  match buffer !! byteOffset, buffer !! S byteOffset with
  | Some lo, Some hi => Some (int16_of_uint16 (lo + 256 * hi))
  | _, _ => None
  end.

End Kokoro.
End Kokoro.

(** ** A scripted platform to run the wrappers on

    The outside state is a clock that counts the external calls made so far;
    a [scenario] says what each external function gives back. *)

Module Scripted.

#[export] Instance carriers : Carriers :=
  {| Ext := nat; Session := nat; Composition := string; Props := string |}.

Record scenario : Type := {
  sc_exec : string -> result string;
  sc_exists : string -> bool;
  sc_read : result string;
  sc_parse : result json;
  sc_words : result (list Word);
  sc_select : result string;
  sc_render : nat -> result unit;
  sc_installer : result Installer;
  sc_events : list ffmpeg_event;
  sc_providers : result (list string);
  sc_create : result nat;
  sc_run : result (option Outputs)
}.

Definition tick {A : Type} (a : A) (clock : nat) : A * nat := (a, S clock).

Definition platform (sc : scenario) : Platform :=
  {| execSync := fun cmd => tick (sc_exec sc cmd);
     requireResolve := fun id => tick (Ok ("node_modules/" +:+ id));
     StringToNumber := fun _ => NaN;
     path_join := join "/";
     cwd := "/app";
     ensureDir := fun _ => tick (Ok tt);
     writeFile := fun _ _ => tick (Ok tt);
     existsSync := fun p => tick (sc_exists sc p);
     mkdirSync := fun _ => tick (Ok tt);
     readFileSync := fun _ => tick (sc_read sc);
     JSON_parse := fun _ => sc_parse sc;
     JSON_parse_words := fun _ => sc_words sc;
     ensureBrowser := tick (Ok tt);
     bundle := fun _ _ => tick (Ok "/tmp/bundle");
     selectComposition := fun _ _ _ => tick (sc_select sc);
     renderMedia := fun _ clock => tick (sc_render sc clock) clock;
     ffmpeg_path := "/usr/bin/ffmpeg";
     importFfmpegInstaller := tick (sc_installer sc);
     ffmpegSave := fun _ _ => tick (sc_events sc);
     ffmpegPipe := fun _ => tick (sc_events sc);
     base64 := fun _ => "AAAA";
     getAvailableProviders := tick (sc_providers sc);
     sessionCreate := fun _ _ => tick (sc_create sc);
     sessionRun := fun _ _ _ => tick (sc_run sc) |}.

(** A machine with a T4, an nvenc build of ffmpeg and the Kokoro model. *)
Definition exec_gpu (cmd : string) : result string :=
  if includes "nvidia-smi" cmd then Ok ("Tesla T4" +:+ LF)
  else if includes "-codecs" cmd then Ok " V..... h264_nvenc  NVIDIA NVENC H.264 encoder"
  else if includes "torch.cuda" cmd then Ok ("True" +:+ LF)
  else if includes "npm list" cmd then Ok "@remotion/renderer@4.0.286"
  else Ok "ok".

Definition one_word : Word :=
  {| word_text := " hello"; word_start := Fin (5 # 2); word_end := Fin (1234 # 10) |}.

Definition two_samples : option Outputs :=
  Some {| audio := Some {| data := Some [Fin (1 # 2); Fin (-2)] |} |}.

Definition all_good : scenario :=
  {| sc_exec := exec_gpu;
     sc_exists := fun _ => true;
     sc_read := Ok ("{" +:+ DQ +:+ "sample_rate" +:+ DQ +:+ ": 24000}");
     sc_parse := Ok (JObj [("sample_rate", JNum 24000)]);
     sc_words := Ok [one_word];
     sc_select := Ok "ShortVideo";
     sc_render := fun _ => Ok tt;
     sc_installer :=
       Ok {| installer_path := "/usr/bin/ffmpeg"; installer_version := "1.1.0" |};
     sc_events := [OnEnd];
     sc_providers := Ok ["cuda"; "cpu"];
     sc_create := Ok 1%nat;
     sc_run := Ok two_samples |}.

Definition with_exec (f : string -> result string) (sc : scenario) : scenario :=
  {| sc_exec := f;
     sc_exists := sc_exists sc; sc_read := sc_read sc; sc_parse := sc_parse sc;
     sc_words := sc_words sc; sc_select := sc_select sc; sc_render := sc_render sc;
     sc_installer := sc_installer sc; sc_events := sc_events sc;
     sc_providers := sc_providers sc; sc_create := sc_create sc;
     sc_run := sc_run sc |}.

Definition with_render (f : nat -> result unit) (sc : scenario) : scenario :=
  {| sc_exec := sc_exec sc;
     sc_exists := sc_exists sc; sc_read := sc_read sc; sc_parse := sc_parse sc;
     sc_words := sc_words sc; sc_select := sc_select sc; sc_render := f;
     sc_installer := sc_installer sc; sc_events := sc_events sc;
     sc_providers := sc_providers sc; sc_create := sc_create sc;
     sc_run := sc_run sc |}.

Definition with_events (evs : list ffmpeg_event) (sc : scenario) : scenario :=
  {| sc_exec := sc_exec sc;
     sc_exists := sc_exists sc; sc_read := sc_read sc; sc_parse := sc_parse sc;
     sc_words := sc_words sc; sc_select := sc_select sc; sc_render := sc_render sc;
     sc_installer := sc_installer sc; sc_events := evs;
     sc_providers := sc_providers sc; sc_create := sc_create sc;
     sc_run := sc_run sc |}.


(** The GPU render fails (the clock shows the first external calls), the
    CPU render that follows succeeds. *)
Definition gpu_render_fails : scenario :=
  with_render
    (fun clock => if (clock <=? 1)%nat then Throw (Error "GPU render crashed") else Ok tt)
    all_good.

(** [nvidia-smi] reports a T4 and listing the codecs of ffmpeg fails. *)
Definition codecs_probe_fails : scenario :=
  with_exec
    (fun cmd =>
       if includes "-codecs" cmd then Throw (Error "Command failed: ffmpeg -codecs")
       else exec_gpu cmd)
    all_good.

(** No NVIDIA driver: [nvidia-smi] is not found. *)
Definition no_gpu : scenario :=
  with_exec
    (fun cmd =>
       if includes "nvidia-smi" cmd then Throw (Error "nvidia-smi: not found")
       else exec_gpu cmd)
    all_good.

(** The transcription script crashes. *)
Definition python_fails : scenario :=
  with_exec
    (fun cmd =>
       if String.prefix "python " cmd then Throw (Error "Command failed: python")
       else exec_gpu cmd)
    all_good.

(** ffmpeg exits with an error. *)
Definition ffmpeg_fails : scenario :=
  with_events [OnError (Error "ffmpeg exited with code 1")] all_good.


(** A Kokoro instance as [init] builds it on [all_good]. *)
Definition a_kokoro : Kokoro.Kokoro :=
  Kokoro.new (Some 1%nat) (JObj [("sample_rate", JNum 24000)]).

Definition an_installer : Installer :=
  {| installer_path := "/usr/bin/ffmpeg"; installer_version := "1.1.0" |}.

Definition a_config : Config :=
  {| runningInDocker := false;
     devMode := false;
     musicDirPath := "/app/music";
     packageDirPath := "/app";
     videosDirPath := "/data/videos";
     whisperInstallPath := "/data/whisper";
     whisperModel := "medium.en";
     concurrency := of_Z 1;
     videoCacheSizeInBytes := of_Z 2097152001 |}.

(** The world a program starts in. *)
Definition start : world := boot 0%nat.

Definition config_of_concurrency (c : number) : Config :=
  {| runningInDocker := false;
     devMode := false;
     musicDirPath := "/app/music";
     packageDirPath := "/app";
     videosDirPath := "/data/videos";
     whisperInstallPath := "/data/whisper";
     whisperModel := "medium.en";
     concurrency := c;
     videoCacheSizeInBytes := of_Z 2097152001 |}.

End Scripted.

(** ** Vocabulary of the properties *)

Local Open Scope list_scope.

Section Vocabulary.
Context `{Carriers}.

(** The external calls a method makes from [w] on threw [e] at some point. *)
Definition raised_inside {A : Type} (m : M A) (w : world) (e : error) : Prop :=
  exists evs c,
    trace (snd (m w)) = trace w ++ evs /\ In (Called c (Throw e)) evs.

(** Every error raised inside the method comes out of it. *)
Definition propagates_errors {A : Type} (m : M A) : Prop :=
  forall w e, raised_inside m w e -> exists e', fst (m w) = Throw e'.

(** The method ends by logging [e] at error level under [msg]. *)
Definition logged_last (e : error) (msg : string) (w : world) : Prop :=
  exists earlier, log w = earlier ++ [LogEntry Err (Some e) msg].

(** A method that keeps no failure of an external call to itself: the calls
    of a run that returns all returned, and the calls of a run that throws
    [e] threw nothing but [e]. *)
Definition strict {A : Type} (m : M A) : Prop :=
  forall w, exists evs,
    trace (snd (m w)) = trace w ++ evs /\
    match fst (m w) with
    | Ok _ => forall c e, ~ In (Called c (Throw e)) evs
    | Throw e => forall c e', In (Called c (Throw e')) evs -> e' = e
    end.

(** A [catch] handler that logs the error it caught at error level under
    [msg] and throws it again, without calling anything external. *)
Definition rethrows_with {A : Type} (msg : string) (h : error -> M A) : Prop :=
  forall e w,
    fst (h e w) = Throw e /\
    trace (snd (h e w)) = trace w /\
    logged_last e msg (snd (h e w)).

(** Whatever the method throws, it has just logged under [msg]. *)
Definition throws_logged {A : Type} (msg : string) (m : M A) : Prop :=
  forall w e, fst (m w) = Throw e -> logged_last e msg (snd (m w)).

(** The method logs and rethrows: an error raised inside comes out of it
    unchanged, and what comes out has been logged under [msg]. *)
Definition logs_and_rethrows {A : Type} (msg : string) (m : M A) : Prop :=
  (forall w e, raised_inside m w e -> fst (m w) = Throw e) /\
  throws_logged msg m.

(** The first ["end"] or ["error"] event of a command, if it emits one. *)
Fixpoint first_end_or_error (evs : list ffmpeg_event) : option (result unit) :=
  match evs with
  | [] => None
  | OnEnd :: _ => Some (Ok tt)
  | OnError err :: _ => Some (Throw err)
  | _ :: rest => first_end_or_error rest
  end.

(** The promise that settles on that event. *)
Definition settled_with (path : string) (o : option (result unit)) : promise string :=
  match o with
  | None => Pending
  | Some (Ok _) => Resolved path
  | Some (Throw err) => Rejected err
  end.

End Vocabulary.

(** The vocabulary of [Kokoro.init]. *)

Section KokoroVocabulary.
Context `{Platform}.
Import Kokoro.

(** What a run of [init] that returns has seen. *)
Definition probes_passed (k : Kokoro) (evs : list event) : Prop :=
  In (Called (ExistsSync MODEL_FILE) (Ok (VBool true))) evs
  /\ In (Called (ExistsSync CONFIG_FILE) (Ok (VBool true))) evs
  /\ (exists sample_rate,
        get_property "sample_rate" (config k) = Ok (Some sample_rate)
        /\ truthy (Some sample_rate) = true)
  /\ (exists providers,
        In (Called GetAvailableProviders (Ok (VStrings providers))) evs
        /\ In "cuda" providers).

(** How the last external call [last_call] of a run of [init] that failed
    accounts for the error [cause] thrown inside [init]. *)
Definition failure_explained (last_call : event) (cause : error) : Prop :=
  (forall p,
     last_call = Called (ExistsSync p) (Ok (VBool false)) ->
     (p = MODEL_FILE \/ p = CONFIG_FILE)
     /\ cause = Error ("Model file not found: " +:+ p))
  /\ (forall content config v,
        last_call = Called (ReadFileSync CONFIG_FILE) (Ok (VString content)) ->
        JSON_parse content = Ok config ->
        get_property "sample_rate" config = Ok v ->
        truthy v = false
        /\ cause = Error "Invalid config file: missing sample_rate")
  /\ (forall providers,
        last_call = Called GetAvailableProviders (Ok (VStrings providers)) ->
        ~ In "cuda" providers /\ cause = Error CUDA_NOT_AVAILABLE)
  /\ (forall c e, last_call = Called c (Throw e) -> cause = e).

(** A step of [init]: its calls extend the trace; when it returns, [post]
    holds of what it returns and of its calls; when it throws, it has made a
    call and the last one explains the error. *)
Definition init_step {A : Type} (m : M A) (post : A -> list event -> Prop) : Prop :=
  forall w, exists evs,
    trace (snd (m w)) = trace w ++ evs /\
    match fst (m w) with
    | Ok a => post a evs
    | Throw e => exists before last_call,
        evs = before ++ [last_call] /\ failure_explained last_call e
    end.

End KokoroVocabulary.

(** ** More vocabulary: the calls of a run *)

Section CallVocabulary.
Context `{Carriers}.

(** The calls a run of [m] adds to the trace, together with its outcome,
    satisfy [R]. *)
Definition traced {A : Type} (m : M A) (R : result A -> list event -> Prop)
    : Prop :=
  forall w, exists evs,
    trace (snd (m w)) = trace w ++ evs /\ R (fst (m w)) evs.

(** Every external call of a run of [m] is one that [P] allows. *)
Definition calls_only {A : Type} (P : call -> Prop) (m : M A) : Prop :=
  traced m (fun _ evs => Forall (fun ev => P (ev_call ev)) evs).

(** A run of [m] only adds lines to the log. *)
Definition log_grows {A : Type} (m : M A) : Prop :=
  forall w, exists lines, log (snd (m w)) = log w ++ lines.

(** The [session.run] calls of a trace, in order. *)
Definition sessionRun_calls (t : list event) : list (Tensor * list string) :=
  List.flat_map
    (fun ev =>
       match ev_call ev with
       | SessionRun _ input_ids providers => [(input_ids, providers)]
       | _ => []
       end) t.

(** The shell commands of a trace, in order. *)
Definition execSync_calls (t : list event) : list string :=
  List.flat_map
    (fun ev => match ev_call ev with ExecSync cmd => [cmd] | _ => [] end) t.

(** The data chunks of a stream, as events. *)
Definition stream_chunks (chunks : list bytes) : list ffmpeg_event :=
  List.map OnStreamData chunks.

End CallVocabulary.

(** ** More vocabulary: every error raised inside a method *)

Section ErrorVocabulary.
Context `{Platform}.

(** The external call [c] made in the run of [m] from [w] threw [e]. *)
Definition thrown_by {A : Type} (m : M A) (w : world) (c : call) (e : error)
    : Prop :=
  exists evs,
    trace (snd (m w)) = trace w ++ evs /\ In (Called c (Throw e)) evs.

(** Every error an external call of [m] throws comes out of [m] unchanged,
    unless the call is one of [caught]. *)
Definition propagates_but {A : Type} (caught : call -> Prop) (m : M A) : Prop :=
  forall w c e, thrown_by m w c e -> caught c \/ fst (m w) = Throw e.

(** [strict], the calls of [caught] apart: of the calls of a run that
    returns, only those of [caught] threw; of the calls of a run that throws
    [e], those that are not of [caught] threw nothing but [e]. *)
Definition strict_but {A : Type} (caught : call -> Prop) (m : M A) : Prop :=
  forall w, exists evs,
    trace (snd (m w)) = trace w ++ evs /\
    match fst (m w) with
    | Ok _ => forall c e, In (Called c (Throw e)) evs -> caught c
    | Throw e => forall c e', In (Called c (Throw e')) evs -> caught c \/ e' = e
    end.

(** The run of [m] from [w] made external calls, [last_call] being the last
    of them. *)
Definition ends_on {A : Type} (m : M A) (w : world) (last_call : event) : Prop :=
  exists before, trace (snd (m w)) = trace w ++ before ++ [last_call].

(** The errors [Kokoro.init] raises by itself, each after an external call
    that returned: a model file that is not there, a configuration that
    does not parse, that is [null] or that has no sample rate, and providers
    without CUDA. *)
Definition init_raises (last_call : event) (cause : error) : Prop :=
  (exists p,
     last_call = Called (ExistsSync p) (Ok (VBool false))
     /\ cause = Error ("Model file not found: " +:+ p))
  \/ (exists p content,
        last_call = Called (ReadFileSync p) (Ok (VString content))
        /\ match JSON_parse content with
           | Throw e => cause = e
           | Ok config =>
               match Kokoro.get_property "sample_rate" config with
               | Throw e => cause = e
               | Ok sample_rate =>
                   Kokoro.truthy sample_rate = false
                   /\ cause = Error "Invalid config file: missing sample_rate"
               end
           end)
  \/ (exists providers,
        last_call = Called GetAvailableProviders (Ok (VStrings providers))
        /\ ~ In "cuda" providers
        /\ cause = Error Kokoro.CUDA_NOT_AVAILABLE).

(** The error a run of [Kokoro.init] that ends on [last_call] fails with:
    the error of the call, if it threw, or the one [init] raises after it. *)
Definition init_failure (last_call : event) (cause : error) : Prop :=
  (exists c, last_call = Called c (Throw cause))
  \/ init_raises last_call cause.

(** A step of [Kokoro.init] with its failures accounted for: when it
    returns, [post] holds of what it returns and of its calls; when it
    throws, it has made a call and the error is the failure of the last
    one. *)
Definition failing_step {A : Type} (m : M A) (post : A -> list event -> Prop)
    : Prop :=
  traced m
    (fun r evs =>
       match r with
       | Ok a => post a evs
       | Throw e => exists before last_call,
           evs = before ++ [last_call] /\ init_failure last_call e
       end).

End ErrorVocabulary.

(** ** More scripted platforms *)

Module Scenarios.
Import Scripted.

(** [platform sc] with another [writeFile] and [requireResolve]. *)
Definition platform_with
    (write : string -> string -> nat -> result unit * nat)
    (resolve : string -> nat -> result string * nat)
    (sc : scenario) : Platform :=
  {| execSync := @execSync _ (platform sc);
     requireResolve := resolve;
     StringToNumber := @StringToNumber _ (platform sc);
     path_join := @path_join _ (platform sc);
     cwd := @cwd _ (platform sc);
     ensureDir := @ensureDir _ (platform sc);
     writeFile := write;
     existsSync := @existsSync _ (platform sc);
     mkdirSync := @mkdirSync _ (platform sc);
     readFileSync := @readFileSync _ (platform sc);
     JSON_parse := @JSON_parse _ (platform sc);
     JSON_parse_words := @JSON_parse_words _ (platform sc);
     ensureBrowser := @ensureBrowser _ (platform sc);
     bundle := @bundle _ (platform sc);
     selectComposition := @selectComposition _ (platform sc);
     renderMedia := @renderMedia _ (platform sc);
     ffmpeg_path := @ffmpeg_path _ (platform sc);
     importFfmpegInstaller := @importFfmpegInstaller _ (platform sc);
     ffmpegSave := @ffmpegSave _ (platform sc);
     ffmpegPipe := @ffmpegPipe _ (platform sc);
     base64 := @base64 _ (platform sc);
     getAvailableProviders := @getAvailableProviders _ (platform sc);
     sessionCreate := @sessionCreate _ (platform sc);
     sessionRun := @sessionRun _ (platform sc) |}.

(** The disk is full: the script cannot be written. *)
Definition disk_full : Platform :=
  platform_with (fun _ _ => tick (Throw (Error "ENOSPC: no space left on device")))
                (@requireResolve _ (platform all_good))
                all_good.

(** [onnxruntime-node] is not installed: [require.resolve] throws. *)
Definition module_missing : Platform :=
  platform_with (@writeFile _ (platform all_good))
                (fun _ => tick (Throw (Error "Cannot find module 'onnxruntime-node'")))
                all_good.

(** Another @remotion/renderer is installed. *)
Definition wrong_remotion : scenario :=
  with_exec
    (fun cmd =>
       if includes "npm list" cmd then Ok "@remotion/renderer@4.0.100"
       else exec_gpu cmd)
    all_good.

(** A GPU that is not a T4. *)
Definition other_gpu : scenario :=
  with_exec
    (fun cmd =>
       if includes "nvidia-smi" cmd then Ok ("NVIDIA A100" +:+ LF)
       else exec_gpu cmd)
    all_good.

(** A T4 with an ffmpeg build without nvenc. *)
Definition no_nvenc : scenario :=
  with_exec
    (fun cmd =>
       if includes "-codecs" cmd then Ok " DEV.LS h264  H.264 / AVC"
       else exec_gpu cmd)
    all_good.

(** A CPU-only torch. *)
Definition no_cuda_torch : scenario :=
  with_exec
    (fun cmd =>
       if includes "torch.cuda" cmd then Ok ("False" +:+ LF)
       else exec_gpu cmd)
    all_good.

(** The local npm install fails, the global one works. *)
Definition local_install_fails : scenario :=
  with_exec
    (fun cmd =>
       if includes "--save" cmd then Throw (Error "EACCES: permission denied")
       else exec_gpu cmd)
    all_good.

Definition scenario_with
    (select : result string) (providers : result (list string))
    (run : result (option Outputs)) (sc : scenario) : scenario :=
  {| sc_exec := sc_exec sc;
     sc_exists := sc_exists sc; sc_read := sc_read sc; sc_parse := sc_parse sc;
     sc_words := sc_words sc; sc_select := select; sc_render := sc_render sc;
     sc_installer := sc_installer sc; sc_events := sc_events sc;
     sc_providers := providers; sc_create := sc_create sc;
     sc_run := run |}.

(** The composition is not in the bundle. *)
Definition no_composition : scenario :=
  scenario_with (Throw (Error "No composition with the ID ShortVideo found"))
                (sc_providers all_good) (sc_run all_good) all_good.

(** Both renders fail. *)
Definition renders_fail : scenario :=
  with_render (fun _ => Throw (Error "render crashed")) all_good.

(** onnxruntime without the CUDA provider. *)
Definition cpu_only_onnx : scenario :=
  scenario_with (sc_select all_good) (Ok ["cpu"]) (sc_run all_good) all_good.

(** The model returns no audio. *)
Definition no_audio : scenario :=
  scenario_with (sc_select all_good) (sc_providers all_good)
                (Ok (Some {| audio := None |})) all_good.

(** The output stream of ffmpeg delivers two chunks and ends. *)
Definition two_chunks : scenario :=
  with_events [OnStreamData [73; 68]; OnStreamData [51]; OnStreamEnd; OnEnd]
              all_good.

(** The ffmpeg installer package cannot be loaded. *)
Definition no_installer : scenario :=
  {| sc_exec := sc_exec all_good;
     sc_exists := sc_exists all_good; sc_read := sc_read all_good;
     sc_parse := sc_parse all_good; sc_words := sc_words all_good;
     sc_select := sc_select all_good; sc_render := sc_render all_good;
     sc_installer := Throw (Error "Cannot find package '@ffmpeg-installer/ffmpeg'");
     sc_events := sc_events all_good; sc_providers := sc_providers all_good;
     sc_create := sc_create all_good; sc_run := sc_run all_good |}.

(** A Kokoro instance whose session was never set. *)
Definition a_kokoro_without_session : Kokoro.Kokoro :=
  Kokoro.new None (JObj [("sample_rate", JNum 24000)]).

(** The tensor of the text "hi". *)
Definition tensor_hi : Tensor :=
  {| tensor_type := "int64"; tensor_data := [104; 105]; tensor_dims := [1; 2] |}.

(** The transcription script prints something that is not JSON. *)
Definition unparsable_output : scenario :=
  {| sc_exec := sc_exec all_good;
     sc_exists := sc_exists all_good; sc_read := sc_read all_good;
     sc_parse := sc_parse all_good;
     sc_words := Throw (Error "Unexpected token o in JSON at position 0");
     sc_select := sc_select all_good; sc_render := sc_render all_good;
     sc_installer := sc_installer all_good;
     sc_events := sc_events all_good; sc_providers := sc_providers all_good;
     sc_create := sc_create all_good; sc_run := sc_run all_good |}.

Definition docker_config : Config :=
  {| runningInDocker := true;
     devMode := true;
     musicDirPath := "/app/music";
     packageDirPath := "/app";
     videosDirPath := "/data/videos";
     whisperInstallPath := "/data/whisper";
     whisperModel := "medium.en";
     concurrency := of_Z 4;
     videoCacheSizeInBytes := of_Z 2097152000 |}.

End Scenarios.

(** * Properties *)

Local Open Scope js_scope.

(** ** Numbers *)

Lemma num_ltb_Fin (x y : Q) : num_ltb (Fin x) (Fin y) = true <-> (x < y)%Q.
Proof.
  unfold num_ltb. rewrite negb_true_iff. split.
  - intros Hb. apply Qnot_le_lt. intros Hle.
    apply Qle_bool_iff in Hle. congruence.
  - intros Hlt. destruct (Qle_bool y x) eqn:E; [|reflexivity].
    apply Qle_bool_iff in E. lra.
Qed.

Lemma Qle_bool_false (x y : Q) : Qle_bool x y = false <-> (y < x)%Q.
Proof.
  split.
  - intros Hb. apply Qnot_le_lt. intros Hle.
    apply Qle_bool_iff in Hle. congruence.
  - intros Hlt. destruct (Qle_bool x y) eqn:E; [|reflexivity].
    apply Qle_bool_iff in E. lra.
Qed.

Lemma half_floor_le (q : Q) : (inject_Z (Qfloor (q / 2)) <= q * (1 # 2))%Q.
Proof.
  assert (Hh : (q * (1 # 2) == q / 2)%Q) by (unfold Qdiv; reflexivity).
  rewrite Hh. apply Qfloor_le.
Qed.

(** Rounding to binary64 on values whose binary64 datum is well known: 0.1
    and 1/3, the tie 2^53 + 1 that goes to the even mantissa, the smallest
    value that overflows and the half of the smallest subnormal. *)
Lemma to_binary64_examples :
  to_binary64 (1 # 10) = Fin (7205759403792794 # 72057594037927936)
  /\ to_binary64 (1 # 3) = Fin (6004799503160661 # 18014398509481984)
  /\ to_binary64 (inject_Z (2 ^ 53 + 1)) = of_Z (2 ^ 53)
  /\ to_binary64 (inject_Z (2 ^ 1024 - 2 ^ 970)) = PosInf
  /\ to_binary64 (inject_Z (2 ^ 1024 - 2 ^ 970 - 1))
     = of_Z ((2 ^ 53 - 1) * 2 ^ 971)
  /\ to_binary64 (- (1 # 2 ^ 1074)) = Fin (-1 # 2 ^ 1074)
  /\ to_binary64 (1 # 2 ^ 1075) = Fin 0.
Proof. repeat split; vm_compute; reflexivity. Qed.

(** ** The monad *)

Ltac run_monad :=
  unfold bind, try_catch, when, ret, throw, logger, invoke_total, invoke,
         lift_result, set_gpuAccelerated; simpl.

(** ** Methods that keep no failure to themselves *)

Section Strict.
Context `{Carriers}.

Lemma strict_ret {A : Type} (a : A) : strict (ret a).
Proof.
  intros w. exists []. simpl. rewrite app_nil_r.
  split; [reflexivity|]. intros c e [].
Qed.

Lemma strict_throw {A : Type} (e : error) : strict (@throw _ A e).
Proof.
  intros w. exists []. simpl. rewrite app_nil_r.
  split; [reflexivity|]. intros c e' [].
Qed.

Lemma strict_lift_result {A : Type} (r : result A) : strict (lift_result r).
Proof.
  intros w. exists []. simpl. rewrite app_nil_r. split; [reflexivity|].
  destruct r; intros c e' [].
Qed.

Lemma strict_logger (l : level) (err : option error) (msg : string) :
  strict (logger l err msg).
Proof.
  intros w. exists []. simpl. rewrite app_nil_r.
  split; [reflexivity|]. intros c e [].
Qed.

Lemma strict_invoke {A : Type} (c : call) (inj : A -> value)
    (oracle : Ext -> result A * Ext) : strict (invoke c inj oracle).
Proof.
  intros w. unfold invoke.
  destruct (oracle (ext w)) as [[a|e] e'] eqn:E; simpl.
  - eexists. split; [reflexivity|]. intros c' e0 [Hin|[]]. discriminate Hin.
  - eexists. split; [reflexivity|]. intros c' e0 [Hin|[]]. congruence.
Qed.

Lemma strict_invoke_total {A : Type} (c : call) (inj : A -> value)
    (oracle : Ext -> A * Ext) : strict (invoke_total c inj oracle).
Proof. apply strict_invoke. Qed.

Lemma strict_bind {A B : Type} (m : M A) (k : A -> M B) :
  strict m -> (forall a, strict (k a)) -> strict (bind m k).
Proof.
  intros Hm Hk w. unfold bind.
  destruct (Hm w) as [evs1 [Ht1 Hr1]].
  destruct (m w) as [[a|e] w1]; simpl in *.
  - destruct (Hk a w1) as [evs2 [Ht2 Hr2]].
    exists (evs1 ++ evs2). rewrite Ht2, Ht1, app_assoc.
    split; [reflexivity|].
    destruct (fst (k a w1)).
    + intros c e Hin. apply in_app_or in Hin as [Hin|Hin].
      * exact (Hr1 c e Hin).
      * exact (Hr2 c e Hin).
    + intros c e' Hin. apply in_app_or in Hin as [Hin|Hin].
      * destruct (Hr1 c e' Hin).
      * exact (Hr2 c e' Hin).
  - exists evs1. split; assumption.
Qed.

Lemma strict_when (c : bool) (m : M unit) : strict m -> strict (when c m).
Proof. intros Hm. destruct c; [exact Hm | apply strict_ret]. Qed.

Lemma strict_try_catch {A : Type} (msg : string) (body : M A)
    (h : error -> M A) :
  strict body -> rethrows_with msg h -> strict (try_catch body h).
Proof.
  intros Hb Hh w. unfold try_catch.
  destruct (Hb w) as [evs [Ht Hr]].
  destruct (body w) as [[a|e] w1]; simpl in *.
  - exists evs. split; assumption.
  - destruct (Hh e w1) as (Hthrow & Hsame & _).
    exists evs. rewrite Hsame, Hthrow. split; assumption.
Qed.

Lemma rethrows_with_logger {A : Type} (msg : string) :
  rethrows_with msg
    (fun error => logger Err (Some error) msg >> @throw _ A error).
Proof.
  intros e w. repeat split. eexists. reflexivity.
Qed.

Lemma strict_rethrows {A : Type} (m : M A) (w : world) (e : error) :
  strict m -> raised_inside m w e -> fst (m w) = Throw e.
Proof.
  intros Hm (evs & c & Ht & Hin).
  destruct (Hm w) as [evs' [Ht' Hr]].
  rewrite Ht in Ht'. apply app_inv_head in Ht'. subst evs'.
  destruct (fst (m w)) as [a|e0].
  - destruct (Hr c e Hin).
  - f_equal. symmetry. exact (Hr c e Hin).
Qed.

Lemma throws_logged_try_catch {A : Type} (msg : string) (body : M A)
    (h : error -> M A) :
  rethrows_with msg h -> throws_logged msg (try_catch body h).
Proof.
  intros Hh w e. unfold try_catch.
  destruct (body w) as [[a|e0] w1]; simpl; [discriminate|].
  destruct (Hh e0 w1) as (Hthrow & _ & Hlog).
  rewrite Hthrow. intros Heq. injection Heq as <-. exact Hlog.
Qed.

Lemma throws_logged_after_logger {A : Type} (msg : string) (l : level)
    (err : option error) (line : string) (m : M A) :
  throws_logged msg m -> throws_logged msg (logger l err line >> m).
Proof. intros Hm w e. unfold bind, logger. apply Hm. Qed.

Lemma throws_logged_then_ret {A : Type} (msg : string) (m : M unit) (a : A) :
  throws_logged msg m -> throws_logged msg (m >> ret a).
Proof.
  intros Hm w e. unfold bind. specialize (Hm w).
  destruct (m w) as [[[]|e0] w1]; simpl in *; [discriminate|].
  intros Heq. injection Heq as <-. exact (Hm e0 eq_refl).
Qed.

Lemma throws_logged_when (msg : string) (c : bool) (m : M unit) :
  throws_logged msg m -> throws_logged msg (when c m).
Proof.
  intros Hm. destruct c; [exact Hm|]. intros w e Hthrow. discriminate Hthrow.
Qed.

End Strict.

Ltac strictness :=
  repeat lazymatch goal with
  | |- strict (ret _) => apply strict_ret
  | |- strict (throw _) => apply strict_throw
  | |- strict (logger _ _ _) => apply strict_logger
  | |- strict (lift_result _) => apply strict_lift_result
  | |- strict (invoke_total _ _ _) => apply strict_invoke_total
  | |- strict (invoke _ _ _) => apply strict_invoke
  | |- strict (when _ _) => apply strict_when
  | |- strict (try_catch _ (fun error => logger Err (Some error) ?msg >> throw error)) =>
      apply (strict_try_catch msg); [|apply rethrows_with_logger]
  | |- strict (bind _ _) => apply strict_bind; [|intros ?]
  | |- strict (let _ := _ in _) => cbv zeta
  | |- strict (match ?x with _ => _ end) => destruct x
  end.

(** ** Remotion: the CPU fallback of [render] *)

Section RemotionFacts.
Context `{Platform}.
Import Remotion.

Lemma renderMedia_calls_app (t1 t2 : list event) :
  renderMedia_calls (t1 ++ t2) = renderMedia_calls t1 ++ renderMedia_calls t2.
Proof. unfold renderMedia_calls. apply flat_map_app. Qed.

Lemma fallback_concurrency_Fin (q : Q) :
  fallback_concurrency (Fin q) =
  if Qle_bool (inject_Z (Qfloor (q / 2))) 1
  then of_Z 1
  else of_Z (Qfloor (q / 2)).
Proof.
  unfold fallback_concurrency, of_Z. simpl.
  destruct (Qle_bool _ _); reflexivity.
Qed.

Lemma fallback_concurrency_lt (q : Q) :
  (1 < q)%Q -> num_ltb (fallback_concurrency (Fin q)) (Fin q) = true.
Proof.
  intros Hq. rewrite fallback_concurrency_Fin.
  destruct (Qle_bool _ _) eqn:E; apply num_ltb_Fin.
  - exact Hq.
  - pose proof (half_floor_le q) as Hf. revert Hf.
    generalize (inject_Z (Qfloor (q / 2))). intros f Hf. lra.
Qed.

Lemma fallback_concurrency_floor_one (q : Q) :
  (q <= 1)%Q -> fallback_concurrency (Fin q) = of_Z 1.
Proof.
  intros Hq. rewrite fallback_concurrency_Fin.
  destruct (Qle_bool _ _) eqn:E; [reflexivity|].
  apply Qle_bool_false in E. exfalso.
  pose proof (half_floor_le q) as Hf. revert E Hf.
  generalize (inject_Z (Qfloor (q / 2))). intros f E Hf. lra.
Qed.

(** C1. A render whose first (GPU) [renderMedia] call throws calls
    [renderMedia] a second time, on the same composition and output
    location, with concurrency [max(1, floor(concurrency / 2))] and cache
    size [floor(videoCacheSizeInBytes / 2)], and ends as that second call
    ends; a render whose first call returns makes no second call. *)
Theorem render_falls_back_to_cpu (this : Remotion) (data : Props) (id : string)
    (w : world) (composition : Composition) (e1 : Ext) :
  selectComposition (bundled this) COMPONENT_TO_RENDER data (ext w)
    = (Ok composition, e1) ->
  let out := path_join [videosDirPath (config this); id +:+ ".mp4"] in
  let gpu := gpu_options this composition data out in
  let cpu := cpu_options this composition data out in
  (forall err e2, renderMedia gpu e1 = (Throw err, e2) ->
     renderMedia_calls (trace (snd (render this data id w)))
       = renderMedia_calls (trace w) ++ [gpu; cpu]
     /\ fst (render this data id w) = fst (renderMedia cpu e2))
  /\ (forall e2, renderMedia gpu e1 = (Ok tt, e2) ->
     renderMedia_calls (trace (snd (render this data id w)))
       = renderMedia_calls (trace w) ++ [gpu]
     /\ fst (render this data id w) = Ok tt)
  /\ ro_composition cpu = ro_composition gpu
  /\ ro_outputLocation cpu = ro_outputLocation gpu
  /\ ro_concurrency gpu = concurrency (config this)
  /\ ro_concurrency cpu
       = math_max (of_Z 1) (math_floor (num_div (concurrency (config this)) (of_Z 2)))
  /\ ro_offthreadVideoCacheSizeInBytes cpu
       = math_floor (num_div (videoCacheSizeInBytes (config this)) (of_Z 2)).
Proof.
  intros Hsel out gpu cpu.
  split; [|split; [|repeat split]].
  - intros err e2 Hgpu.
    unfold render, fallbackCPURender, call_renderMedia. run_monad.
    rewrite Hsel. simpl. fold out. fold gpu. rewrite Hgpu. simpl.
    fold cpu. destruct (renderMedia cpu e2) as [[[]|e] e3]; simpl;
      rewrite !renderMedia_calls_app; simpl;
      rewrite ?app_nil_r, <- ?app_assoc; auto.
  - intros e2 Hgpu.
    unfold render, fallbackCPURender, call_renderMedia. run_monad.
    rewrite Hsel. simpl. fold out. fold gpu. rewrite Hgpu. simpl.
    rewrite !renderMedia_calls_app; simpl;
      rewrite ?app_nil_r, <- ?app_assoc; auto.
Qed.

(** C4, as the code has it. The concurrency of the CPU fallback is strictly
    less than the configured one when that one is a finite number above 1;
    for a configured concurrency of 1 or less the fallback runs with
    concurrency 1, which is not less.  The second copy of
    [fallbackCPURender] passes the same concurrency. *)
Theorem fallback_concurrency_reduced (this : Remotion)
    (composition : Composition) (data : Props) (out : string) (q : Q) :
  concurrency (config this) = Fin q ->
  let gpu := gpu_options this composition data out in
  let cpu := cpu_options this composition data out in
  ((1 < q)%Q -> num_ltb (ro_concurrency cpu) (ro_concurrency gpu) = true)
  /\ ((q <= 1)%Q ->
        ro_concurrency cpu = of_Z 1
        /\ num_ltb (ro_concurrency cpu) (ro_concurrency gpu) = false)
  /\ ro_concurrency (cpu_options_2 this composition data out)
     = ro_concurrency cpu.
Proof.
  intros Hc gpu cpu. subst gpu cpu. simpl. rewrite Hc.
  split; [|split; [|reflexivity]].
  - apply fallback_concurrency_lt.
  - intros Hq. rewrite (fallback_concurrency_floor_one q Hq).
    split; [reflexivity|].
    destruct (num_ltb (of_Z 1) (Fin q)) eqn:E; [|reflexivity].
    apply num_ltb_Fin in E. change (inject_Z 1) with 1%Q in E. lra.
Qed.

End RemotionFacts.

(** ** Which errors come out of the wrappers *)

Section ErrorPolicy.
Context `{Platform}.

Lemma strict_Whisper_init (config : Config) : strict (Whisper.init config).
Proof. unfold Whisper.init, exec. strictness. Qed.

Lemma strict_CreateCaption (this : Whisper.Whisper) (audioPath : string) :
  strict (Whisper.CreateCaption this audioPath).
Proof. unfold Whisper.CreateCaption, exec, fs_writeFile. strictness. Qed.

Lemma strict_CreateCaption_2 (this : Whisper.Whisper) (audioPath : string) :
  strict (Whisper.CreateCaption_2 this audioPath).
Proof.
  unfold Whisper.CreateCaption_2, exec, fs_writeFile, fs_ensureDir, fs_existsSync.
  strictness.
Qed.

Lemma generate_handler_rethrows (t : string) :
  rethrows_with "Failed to generate audio"
    (fun error =>
       Kokoro.text_length (Some t) >>
       logger Err (Some error) "Failed to generate audio" >>
       @throw _ (bytes * number) error).
Proof. intros e w. repeat split. eexists. reflexivity. Qed.

Lemma strict_generate (this : Kokoro.Kokoro) (t voice : string) :
  strict (Kokoro.generate this (Some t) voice).
Proof.
  unfold Kokoro.generate. apply strict_bind; [apply strict_logger|intros _].
  apply (strict_try_catch "Failed to generate audio");
    [|apply generate_handler_rethrows].
  unfold Kokoro.call_run, Kokoro.validate_outputs, Kokoro.postprocessAudio,
         Kokoro.text_length.
  strictness.
Qed.

Lemma Whisper_init_logs_and_rethrows (config : Config) :
  logs_and_rethrows "Failed to setup Whisper with GPU support" (Whisper.init config).
Proof.
  split.
  - intros w e. apply strict_rethrows, strict_Whisper_init.
  - unfold Whisper.init. apply throws_logged_then_ret, throws_logged_when,
      throws_logged_after_logger, throws_logged_try_catch, rethrows_with_logger.
Qed.

Lemma CreateCaption_logs_and_rethrows (this : Whisper.Whisper) (audioPath : string) :
  logs_and_rethrows "Failed to transcribe audio" (Whisper.CreateCaption this audioPath).
Proof.
  split.
  - intros w e. apply strict_rethrows, strict_CreateCaption.
  - unfold Whisper.CreateCaption.
    apply throws_logged_after_logger, throws_logged_try_catch, rethrows_with_logger.
Qed.

Lemma CreateCaption_2_logs_and_rethrows (this : Whisper.Whisper) (audioPath : string) :
  logs_and_rethrows "Failed to transcribe audio" (Whisper.CreateCaption_2 this audioPath).
Proof.
  split.
  - intros w e. apply strict_rethrows, strict_CreateCaption_2.
  - unfold Whisper.CreateCaption_2.
    apply throws_logged_after_logger, throws_logged_try_catch, rethrows_with_logger.
Qed.

Lemma generate_logs_and_rethrows (this : Kokoro.Kokoro) (t voice : string) :
  logs_and_rethrows "Failed to generate audio" (Kokoro.generate this (Some t) voice).
Proof.
  split.
  - intros w e. apply strict_rethrows, strict_generate.
  - unfold Kokoro.generate.
    apply throws_logged_after_logger, throws_logged_try_catch, generate_handler_rethrows.
Qed.

(** [Kokoro.init] throws nothing but a wrapped error, whose cause it logged. *)
Lemma Kokoro_init_wraps (w : world) (e : error) :
  fst (Kokoro.init w) = Throw e ->
  exists cause,
    e = Error (Kokoro.INIT_FAILED +:+ message cause) /\
    logged_last cause "Kokoro initialization failed" (snd (Kokoro.init w)).
Proof.
  unfold Kokoro.init, try_catch.
  match goal with |- context [match ?b w with _ => _ end] => destruct (b w) as [[k|cause] w1] end;
    simpl; [discriminate|].
  intros Heq. injection Heq as <-. exists cause. split; [reflexivity|].
  eexists. reflexivity.
Qed.


(** The GPU probe of [FFMpeg.init] never makes [init] fail. *)
Lemma FFMpeg_init_survives_probe (w : world) (installer : Installer) (e1 : Ext) :
  importFfmpegInstaller (ext w) = (Ok installer, e1) ->
  fst (FFMpeg.init w) = Ok FFMpeg.new.
Proof.
  intros Himp. unfold FFMpeg.init, FFMpeg.detect_gpu, exec. run_monad.
  rewrite Himp. simpl.
  destruct (execSync _ e1) as [[out|err] e2]; simpl; [|reflexivity].
  destruct (includes "T4" (trim out)); simpl; [|reflexivity].
  destruct (execSync _ e2) as [[codecs|err] e3]; simpl; [|reflexivity].
  destruct (includes "nvenc" codecs); reflexivity.
Qed.

Lemma FFMpeg_init_probe_failure_logged (w : world) (installer : Installer)
    (e1 e2 : Ext) (err : error) :
  importFfmpegInstaller (ext w) = (Ok installer, e1) ->
  execSync "nvidia-smi --query-gpu=name --format=csv,noheader" e1 = (Throw err, e2) ->
  In (LogEntry Warn (Some err) "GPU detection failed, using CPU")
     (log (snd (FFMpeg.init w))).
Proof.
  intros Himp Hsmi. unfold FFMpeg.init, FFMpeg.detect_gpu, exec. run_monad.
  rewrite Himp. simpl. rewrite Hsmi. simpl.
  apply in_or_app. left. apply in_or_app. right. left. reflexivity.
Qed.

Lemma FFMpeg_init_import_failure (w : world) (err : error) (e1 : Ext) :
  importFfmpegInstaller (ext w) = (Throw err, e1) ->
  fst (FFMpeg.init w) = Throw err.
Proof.
  intros Himp. unfold FFMpeg.init. run_monad. rewrite Himp. reflexivity.
Qed.


(** The GPU set-up of [Remotion.init] never makes [init] fail: once the
    browser is there, [init] ends as [bundle] ends. *)
Lemma Remotion_init_survives_setup (config : Config) (w : world) (e1 : Ext) :
  ensureBrowser (ext w) = (Ok tt, e1) ->
  exists e2,
    fst (Remotion.init config w)
    = map_result (fun b => Remotion.new b config)
        (fst (bundle (musicDirPath config) (Remotion.entryPoint config) e2)).
Proof.
  intros Hbrowser. unfold Remotion.init, Remotion.setup_gpu, exec. run_monad.
  rewrite Hbrowser. simpl.
  destruct (runningInDocker config); simpl.
  { exists e1. destruct (bundle _ _ e1) as [[b|err] e']; reflexivity. }
  destruct (execSync _ e1) as [[out1|err1] e2]; simpl.
  2: { exists e2. destruct (bundle _ _ e2) as [[b|err] e']; reflexivity. }
  destruct (execSync _ e2) as [[out2|err2] e3]; simpl.
  2: { exists e3. destruct (bundle _ _ e3) as [[b|err] e']; reflexivity. }
  destruct (includes "4.0.286" out2); simpl.
  2: { exists e3. destruct (bundle _ _ e3) as [[b|err] e']; reflexivity. }
  destruct (execSync _ e3) as [[out3|err3] e4]; simpl;
    exists e4; destruct (bundle _ _ e4) as [[b|err] e']; reflexivity.
Qed.

Lemma Remotion_init_setup_failure_logged (config : Config) (w : world)
    (e1 e2 : Ext) (err : error) :
  runningInDocker config = false ->
  ensureBrowser (ext w) = (Ok tt, e1) ->
  execSync "npm install @ffmpeg-installer/ffmpeg@1.1.0 --no-save" e1
    = (Throw err, e2) ->
  In (LogEntry Warn (Some err) "GPU setup failed, falling back to CPU")
     (log (snd (Remotion.init config w))).
Proof.
  intros Hdocker Hbrowser Hnpm.
  unfold Remotion.init, Remotion.setup_gpu, exec. run_monad.
  rewrite Hbrowser, Hdocker. simpl. rewrite Hnpm. simpl.
  destruct (bundle _ _ e2) as [[b|err'] e']; simpl.
  - apply in_or_app. left. apply in_or_app. right. left. reflexivity.
  - apply in_or_app. right. left. reflexivity.
Qed.

(** The failure of the GPU render is caught by [render]: it is logged and
    the CPU render decides how [render] ends. *)
Lemma render_gpu_failure_caught (this : Remotion.Remotion) (data : Props)
    (id : string) (w : world) (composition : Composition) (e1 e2 : Ext)
    (err : error) :
  selectComposition (Remotion.bundled this) Remotion.COMPONENT_TO_RENDER data (ext w)
    = (Ok composition, e1) ->
  renderMedia
    (Remotion.gpu_options this composition data
       (path_join [videosDirPath (Remotion.config this); id +:+ ".mp4"])) e1
    = (Throw err, e2) ->
  fst (Remotion.render this data id w)
  = fst (renderMedia
           (Remotion.cpu_options this composition data
              (path_join [videosDirPath (Remotion.config this); id +:+ ".mp4"])) e2)
  /\ In (LogEntry Err (Some err) "GPU rendering failed, attempting CPU fallback")
        (log (snd (Remotion.render this data id w))).
Proof.
  intros Hsel Hgpu.
  unfold Remotion.render, Remotion.fallbackCPURender, Remotion.call_renderMedia.
  run_monad. rewrite Hsel. simpl. rewrite Hgpu. simpl.
  destruct (renderMedia _ e2) as [[[]|err'] e3]; simpl; split;
    try reflexivity; rewrite <- ?app_assoc; apply in_or_app; right;
    right; left; reflexivity.
Qed.

End ErrorPolicy.

(** C2 as stated fails on [FFMpeg.init]: where [nvidia-smi] is missing, the
    error of the probe is raised inside [init] and [init] returns. *)
Lemma FFMpeg_init_swallows_probe_error :
  ~ propagates_errors (@FFMpeg.init _ (Scripted.platform Scripted.no_gpu)).
Proof.
  intros Hall.
  destruct (Hall Scripted.start (Error "nvidia-smi: not found")) as [e' He'].
  - eexists. eexists. split; [vm_compute; reflexivity|].
    right. right. left. reflexivity.
  - vm_compute in He'. discriminate He'.
Qed.

Lemma render_falls_back_to_cpu_witness :
  @selectComposition _ (Scripted.platform Scripted.gpu_render_fails)
      "/tmp/bundle" Remotion.COMPONENT_TO_RENDER "props" 0%nat
    = (Ok "ShortVideo", 1%nat)
  /\ @renderMedia _ (Scripted.platform Scripted.gpu_render_fails)
       (@Remotion.gpu_options _ (Scripted.platform Scripted.gpu_render_fails)
          (Remotion.new "/tmp/bundle" Scripted.a_config)
          "ShortVideo" "props" "/data/videos/vid1.mp4") 1%nat
     = (Throw (Error "GPU render crashed"), 2%nat)
  /\ Remotion.renderMedia_calls
       (trace (snd (@Remotion.render _ (Scripted.platform Scripted.gpu_render_fails)
                      (Remotion.new "/tmp/bundle" Scripted.a_config)
                      "props" "vid1" Scripted.start)))
     = [ @Remotion.gpu_options _ (Scripted.platform Scripted.gpu_render_fails)
           (Remotion.new "/tmp/bundle" Scripted.a_config)
           "ShortVideo" "props" "/data/videos/vid1.mp4";
         @Remotion.cpu_options _ (Scripted.platform Scripted.gpu_render_fails)
           (Remotion.new "/tmp/bundle" Scripted.a_config)
           "ShortVideo" "props" "/data/videos/vid1.mp4" ]
  /\ Remotion.renderMedia_calls
       (trace (snd (@Remotion.render _ (Scripted.platform Scripted.all_good)
                      (Remotion.new "/tmp/bundle" Scripted.a_config)
                      "props" "vid1" Scripted.start)))
     = [ @Remotion.gpu_options _ (Scripted.platform Scripted.all_good)
           (Remotion.new "/tmp/bundle" Scripted.a_config)
           "ShortVideo" "props" "/data/videos/vid1.mp4" ].
Proof.
  split; [reflexivity|]. split; [reflexivity|]. split.
  - destruct (@render_falls_back_to_cpu _
                (Scripted.platform Scripted.gpu_render_fails)
                (Remotion.new "/tmp/bundle" Scripted.a_config)
                "props" "vid1" Scripted.start "ShortVideo" 1%nat eq_refl)
      as [Hfail _].
    destruct (Hfail (Error "GPU render crashed") 2%nat eq_refl) as [Hcalls _].
    exact Hcalls.
  - destruct (@render_falls_back_to_cpu _
                (Scripted.platform Scripted.all_good)
                (Remotion.new "/tmp/bundle" Scripted.a_config)
                "props" "vid1" Scripted.start "ShortVideo" 1%nat eq_refl)
      as [_ [Hgood _]].
    destruct (Hgood 2%nat eq_refl) as [Hcalls _].
    exact Hcalls.
Defined.

Lemma fallback_concurrency_reduced_witness :
  (1 < 8)%Q /\ (1 <= 1)%Q
  /\ num_ltb
       (ro_concurrency
          (@Remotion.cpu_options _ (Scripted.platform Scripted.all_good)
             (Remotion.new "/tmp/bundle" (Scripted.config_of_concurrency (Fin 8)))
             "ShortVideo" "props" "/data/videos/vid1.mp4"))
       (ro_concurrency
          (@Remotion.gpu_options _ (Scripted.platform Scripted.all_good)
             (Remotion.new "/tmp/bundle" (Scripted.config_of_concurrency (Fin 8)))
             "ShortVideo" "props" "/data/videos/vid1.mp4")) = true
  /\ ro_concurrency
       (@Remotion.cpu_options _ (Scripted.platform Scripted.all_good)
          (Remotion.new "/tmp/bundle" (Scripted.config_of_concurrency (Fin 1)))
          "ShortVideo" "props" "/data/videos/vid1.mp4") = of_Z 1.
Proof.
  assert (H8 : (1 < 8)%Q) by reflexivity.
  assert (H1 : (1 <= 1)%Q) by (intro Hc; discriminate Hc).
  split; [exact H8|]. split; [exact H1|]. split.
  - exact (proj1 (@fallback_concurrency_reduced _
                    (Scripted.platform Scripted.all_good)
                    (Remotion.new "/tmp/bundle" (Scripted.config_of_concurrency (Fin 8)))
                    "ShortVideo" "props" "/data/videos/vid1.mp4" 8%Q eq_refl) H8).
  - exact (proj1 (proj1 (proj2 (@fallback_concurrency_reduced _
                    (Scripted.platform Scripted.all_good)
                    (Remotion.new "/tmp/bundle" (Scripted.config_of_concurrency (Fin 1)))
                    "ShortVideo" "props" "/data/videos/vid1.mp4" 1%Q eq_refl)) H1)).
Defined.

(** C4 as stated fails for a configured concurrency of 1: the fallback also
    renders with concurrency 1. *)
Lemma fallback_concurrency_not_always_less :
  concurrency Scripted.a_config = of_Z 1
  /\ ro_concurrency
       (@Remotion.cpu_options _ (Scripted.platform Scripted.all_good)
          (Remotion.new "/tmp/bundle" Scripted.a_config)
          "ShortVideo" "props" "/data/videos/vid1.mp4") = of_Z 1
  /\ num_ltb
       (ro_concurrency
          (@Remotion.cpu_options _ (Scripted.platform Scripted.all_good)
             (Remotion.new "/tmp/bundle" Scripted.a_config)
             "ShortVideo" "props" "/data/videos/vid1.mp4"))
       (ro_concurrency
          (@Remotion.gpu_options _ (Scripted.platform Scripted.all_good)
             (Remotion.new "/tmp/bundle" Scripted.a_config)
             "ShortVideo" "props" "/data/videos/vid1.mp4")) = false.
Proof. repeat split. Qed.

(** ** Whisper: captions from words *)

Lemma math_round_nearest (q : Q) :
  exists z : Z,
    math_round (Fin q) = of_Z z /\
    (inject_Z z - (1 # 2) <= q)%Q /\ (q < inject_Z z + (1 # 2))%Q.
Proof.
  exists (Qfloor (q + (1 # 2))). split; [reflexivity|].
  pose proof (Qfloor_le (q + (1 # 2))) as Hle.
  pose proof (Qlt_floor (q + (1 # 2))) as Hlt.
  rewrite inject_Z_plus in Hlt. change (inject_Z 1) with 1%Q in Hlt.
  revert Hle Hlt. generalize (inject_Z (Qfloor (q + (1 # 2)))). intros f Hle Hlt.
  split; lra.
Qed.

Section WhisperFacts.
Context `{Platform}.
Import Whisper.

Lemma captions_pointwise (words : list Word) (i : nat) (word : Word) :
  words !! i = Some word ->
  List.map caption_of_word words !! i = Some (caption_of_word word).
Proof.
  revert i. induction words as [|first rest IH]; intros [|i] Hi;
    simpl in *; try discriminate.
  - injection Hi as ->. reflexivity.
  - apply IH. exact Hi.
Qed.

(** C3. Once the script has run and its output parses to [words],
    [CreateCaption] (either copy) returns one caption per word, in order; the
    caption of a word keeps its text and carries [Math.round] of its start
    and end, which for a finite stamp is the nearest integer (a tie going
    up). *)
Theorem CreateCaption_maps_words (this : Whisper) (audioPath : string)
    (w : world) (words : list Word) :
  let scriptPath :=
    path_join [whisperInstallPath (config this); "transcribe_gpu.py"] in
  let captions := List.map caption_of_word words in
  (forall e1 e2 output,
     writeFile scriptPath (pythonScript this audioPath) (ext w) = (Ok tt, e1) ->
     execSync ("python " +:+ scriptPath) e1 = (Ok output, e2) ->
     JSON_parse_words output = Ok words ->
     fst (CreateCaption this audioPath w) = Ok captions)
  /\ (forall e0 e1 e2 e3 output,
     ensureDir (whisperInstallPath (config this)) (ext w) = (Ok tt, e0) ->
     writeFile scriptPath (pythonScript_2 this audioPath) e0 = (Ok tt, e1) ->
     existsSync scriptPath e1 = (true, e2) ->
     execSync ("python " +:+ scriptPath) e2 = (Ok output, e3) ->
     JSON_parse_words output = Ok words ->
     fst (CreateCaption_2 this audioPath w) = Ok captions)
  /\ length captions = length words
  /\ (forall i word,
        words !! i = Some word ->
        captions !! i
        = Some {| caption_text := word_text word;
                  startMs := math_round (word_start word);
                  endMs := math_round (word_end word) |})
  /\ (forall q : Q,
        exists z : Z,
          math_round (Fin q) = of_Z z /\
          (inject_Z z - (1 # 2) <= q)%Q /\ (q < inject_Z z + (1 # 2))%Q).
Proof.
  intros scriptPath captions. split; [|split; [|split; [|split]]].
  - intros e1 e2 output Hwrite Hexec Hparse.
    unfold CreateCaption, fs_writeFile, exec. run_monad.
    fold scriptPath. rewrite Hwrite. simpl. rewrite Hexec. simpl.
    rewrite Hparse. reflexivity.
  - intros e0 e1 e2 e3 output Hdir Hwrite Hexists Hexec Hparse.
    unfold CreateCaption_2, fs_ensureDir, fs_writeFile, fs_existsSync, exec.
    run_monad. rewrite Hdir. simpl. fold scriptPath. rewrite Hwrite. simpl.
    rewrite Hexists. simpl. rewrite Hexec. simpl. rewrite Hparse. reflexivity.
  - apply length_map.
  - intros i word Hi. exact (captions_pointwise words i word Hi).
  - exact math_round_nearest.
Qed.

End WhisperFacts.

Lemma CreateCaption_maps_words_witness :
  @writeFile _ (Scripted.platform Scripted.all_good)
     "/data/whisper/transcribe_gpu.py"
     (@Whisper.pythonScript (Whisper.new Scripted.a_config) "/tmp/speech.wav")
     (ext Scripted.start) = (Ok tt, 1%nat)
  /\ @execSync _ (Scripted.platform Scripted.all_good)
       "python /data/whisper/transcribe_gpu.py" 1%nat = (Ok "ok", 2%nat)
  /\ @JSON_parse_words _ (Scripted.platform Scripted.all_good) "ok"
     = Ok [Scripted.one_word]
  /\ fst (@Whisper.CreateCaption _ (Scripted.platform Scripted.all_good)
            (Whisper.new Scripted.a_config) "/tmp/speech.wav" Scripted.start)
     = Ok [ {| caption_text := " hello"; startMs := of_Z 3; endMs := of_Z 123 |} ].
Proof.
  split; [reflexivity|]. split; [reflexivity|]. split; [reflexivity|].
  exact (proj1 (@CreateCaption_maps_words _ (Scripted.platform Scripted.all_good)
                  (Whisper.new Scripted.a_config) "/tmp/speech.wav"
                  Scripted.start [Scripted.one_word])
               1%nat 2%nat "ok" eq_refl eq_refl eq_refl).
Defined.

(** ** FFMpeg: the GPU flag and the promises *)

Section FFMpegFacts.
Context `{Platform}.
Import FFMpeg.

(** With the flag cleared on entry and no probe throwing, [init] sets the
    flag exactly when the GPU is a T4 and the ffmpeg build lists nvenc. *)
Lemma init_flag_when_probes_return (w : world) (installer : Installer)
    (e1 e2 e3 : Ext) (out codecs : string) :
  gpuAccelerated w = false ->
  importFfmpegInstaller (ext w) = (Ok installer, e1) ->
  execSync "nvidia-smi --query-gpu=name --format=csv,noheader" e1
    = (Ok out, e2) ->
  execSync (installer_path installer +:+ " -codecs") e2 = (Ok codecs, e3) ->
  gpuAccelerated (snd (init w))
  = includes "T4" (trim out) && includes "nvenc" codecs.
Proof.
  intros Hflag Himp Hsmi Hcodecs.
  unfold init, detect_gpu, exec. run_monad.
  rewrite Himp. simpl. rewrite Hsmi. simpl.
  destruct (includes "T4" (trim out)); simpl; [|exact Hflag].
  rewrite Hcodecs. simpl.
  destruct (includes "nvenc" codecs); reflexivity.
Qed.

(** With the flag cleared on entry, a failing [nvidia-smi] leaves it so. *)
Lemma init_flag_when_smi_throws (w : world) (installer : Installer)
    (e1 e2 : Ext) (err : error) :
  gpuAccelerated w = false ->
  importFfmpegInstaller (ext w) = (Ok installer, e1) ->
  execSync "nvidia-smi --query-gpu=name --format=csv,noheader" e1
    = (Throw err, e2) ->
  gpuAccelerated (snd (init w)) = false.
Proof.
  intros Hflag Himp Hsmi.
  unfold init, detect_gpu, exec. run_monad.
  rewrite Himp. simpl. rewrite Hsmi. simpl. exact Hflag.
Qed.

(** The handlers of the three operations leave the flag alone. *)
Lemma normalize_keeps_flag (outputPath : string) (evs : list ffmpeg_event)
    (s : settling string) :
  gpuAccelerated (snd (fold_left (on_event_normalize outputPath) evs s))
  = gpuAccelerated (snd s).
Proof.
  revert s. induction evs as [|ev rest IH]; intros s; [reflexivity|].
  simpl. rewrite IH. destruct ev; reflexivity.
Qed.

Lemma mp3_keeps_flag (filePath : string) (evs : list ffmpeg_event)
    (s : settling string) :
  gpuAccelerated (snd (fold_left (on_event_mp3 filePath) evs s))
  = gpuAccelerated (snd s).
Proof.
  revert s. induction evs as [|ev rest IH]; intros s; [reflexivity|].
  simpl. rewrite IH. destruct ev; reflexivity.
Qed.

Lemma datauri_keeps_flag (evs : list ffmpeg_event)
    (s : settling string * list bytes) :
  gpuAccelerated (snd (fst (fold_left on_event_datauri evs s)))
  = gpuAccelerated (snd (fst s)).
Proof.
  revert s. induction evs as [|ev rest IH]; intros s; [reflexivity|].
  simpl. rewrite IH. destruct s as [[p w] chunks]. destruct ev; reflexivity.
Qed.

Lemma operations_keep_flag (this : FFMpeg) (audio : bytes) (path : string)
    (w : world) :
  gpuAccelerated (snd (saveNormalizedAudio this audio path w)) = gpuAccelerated w
  /\ gpuAccelerated (snd (createMp3DataUri this audio w)) = gpuAccelerated w
  /\ gpuAccelerated (snd (saveToMp3 this audio path w)) = gpuAccelerated w.
Proof.
  repeat split.
  - unfold saveNormalizedAudio, run_save, log_line. simpl.
    destruct (ffmpegSave _ _ _) as [evs e']. apply normalize_keeps_flag.
  - unfold createMp3DataUri, run_pipe.
    destruct (ffmpegPipe _ _) as [evs e']. apply datauri_keeps_flag.
  - unfold saveToMp3, run_save.
    destruct (ffmpegSave _ _ _) as [evs e']. apply mp3_keeps_flag.
Qed.

(** C5, where the code departs from it. When [nvidia-smi] reports a T4 and
    listing the codecs of ffmpeg throws, [init] returns with the flag set:
    the [catch] logs "GPU detection failed, using CPU" and does not clear
    the flag raised before the nvenc check, so the commands built afterwards
    carry the CUDA options. *)
Theorem init_keeps_flag_when_codec_probe_throws (w : world)
    (installer : Installer) (e1 e2 e3 : Ext) (out : string) (err : error) :
  importFfmpegInstaller (ext w) = (Ok installer, e1) ->
  execSync "nvidia-smi --query-gpu=name --format=csv,noheader" e1
    = (Ok out, e2) ->
  includes "T4" (trim out) = true ->
  execSync (installer_path installer +:+ " -codecs") e2 = (Throw err, e3) ->
  fst (init w) = Ok new
  /\ gpuAccelerated (snd (init w)) = true
  /\ In (LogEntry Warn (Some err) "GPU detection failed, using CPU")
        (log (snd (init w)))
  /\ forall audio,
       getAudioCommand (gpuAccelerated (snd (init w))) audio
       = outputOptions
           ["-hwaccel cuda"; "-hwaccel_output_format cuda"; "-c:a aac"]
           (ffmpeg audio).
Proof.
  intros Himp Hsmi Ht4 Hcodecs.
  unfold init, detect_gpu, exec. run_monad.
  rewrite Himp. simpl. rewrite Hsmi. simpl. rewrite Ht4. simpl.
  rewrite Hcodecs. simpl. repeat split.
  apply in_or_app. left. apply in_or_app. right. left. reflexivity.
Qed.

Lemma settle_normalize (outputPath : string) (evs : list ffmpeg_event)
    (p : promise string) (w : world) :
  fst (fold_left (on_event_normalize outputPath) evs (p, w))
  = match p with
    | Pending => settled_with outputPath (first_end_or_error evs)
    | _ => p
    end.
Proof.
  revert p w. induction evs as [|ev rest IH]; intros p w.
  - destruct p; reflexivity.
  - simpl. destruct ev; simpl; rewrite IH; destruct p; reflexivity.
Qed.

Lemma settle_mp3 (filePath : string) (evs : list ffmpeg_event)
    (p : promise string) (w : world) :
  fst (fold_left (on_event_mp3 filePath) evs (p, w))
  = match p with
    | Pending => settled_with filePath (first_end_or_error evs)
    | _ => p
    end.
Proof.
  revert p w. induction evs as [|ev rest IH]; intros p w.
  - destruct p; reflexivity.
  - simpl. destruct ev; simpl; rewrite IH; destruct p; reflexivity.
Qed.

Lemma saveNormalizedAudio_settles (this : FFMpeg) (audio : bytes)
    (path : string) (w : world) :
  fst (saveNormalizedAudio this audio path w)
  = settled_with path
      (first_end_or_error
         (fst (ffmpegSave (wav_command (gpuAccelerated w) audio) path (ext w)))).
Proof.
  unfold saveNormalizedAudio, run_save, log_line. simpl.
  destruct (ffmpegSave _ _ _) as [evs e']. simpl. apply settle_normalize.
Qed.

Lemma saveToMp3_settles (this : FFMpeg) (audio : bytes) (path : string)
    (w : world) :
  fst (saveToMp3 this audio path w)
  = settled_with path
      (first_end_or_error
         (fst (ffmpegSave (mp3_command (gpuAccelerated w) audio) path (ext w)))).
Proof.
  unfold saveToMp3, run_save.
  destruct (ffmpegSave _ _ _) as [evs e']. simpl. apply settle_mp3.
Qed.

(** C6. The promise of [saveNormalizedAudio] and of [saveToMp3] settles on
    the first ["end"] or ["error"] event of the command: on ["end"] it
    resolves with the very path it was given, on ["error"] it rejects with
    the error of the engine. *)
Theorem save_settles_with_path_or_error (this : FFMpeg) (audio : bytes)
    (path : string) (w : world) :
  let normalize :=
    fst (ffmpegSave (wav_command (gpuAccelerated w) audio) path (ext w)) in
  let convert :=
    fst (ffmpegSave (mp3_command (gpuAccelerated w) audio) path (ext w)) in
  (fst (saveNormalizedAudio this audio path w)
     = settled_with path (first_end_or_error normalize)
   /\ fst (saveToMp3 this audio path w)
     = settled_with path (first_end_or_error convert))
  /\ (first_end_or_error normalize = Some (Ok tt) ->
      fst (saveNormalizedAudio this audio path w) = Resolved path)
  /\ (first_end_or_error convert = Some (Ok tt) ->
      fst (saveToMp3 this audio path w) = Resolved path)
  /\ (forall err, first_end_or_error normalize = Some (Throw err) ->
      fst (saveNormalizedAudio this audio path w) = Rejected err)
  /\ (forall err, first_end_or_error convert = Some (Throw err) ->
      fst (saveToMp3 this audio path w) = Rejected err).
Proof.
  intros normalize convert.
  pose proof (saveNormalizedAudio_settles this audio path w) as Hn.
  pose proof (saveToMp3_settles this audio path w) as Hc.
  fold normalize in Hn. fold convert in Hc.
  split; [split; assumption|].
  split; [intros Hev; rewrite Hn, Hev; reflexivity|].
  split; [intros Hev; rewrite Hc, Hev; reflexivity|].
  split; intros err Hev; [rewrite Hn, Hev | rewrite Hc, Hev]; reflexivity.
Qed.

End FFMpegFacts.

Lemma init_keeps_flag_when_codec_probe_throws_witness :
  @importFfmpegInstaller _ (Scripted.platform Scripted.codecs_probe_fails)
     (ext Scripted.start) = (Ok Scripted.an_installer, 1%nat)
  /\ @execSync _ (Scripted.platform Scripted.codecs_probe_fails)
       "nvidia-smi --query-gpu=name --format=csv,noheader" 1%nat
     = (Ok ("Tesla T4" +:+ LF), 2%nat)
  /\ includes "T4" (trim ("Tesla T4" +:+ LF)) = true
  /\ @execSync _ (Scripted.platform Scripted.codecs_probe_fails)
       "/usr/bin/ffmpeg -codecs" 2%nat
     = (Throw (Error "Command failed: ffmpeg -codecs"), 3%nat)
  /\ fst (@FFMpeg.init _ (Scripted.platform Scripted.codecs_probe_fails)
            Scripted.start) = Ok FFMpeg.new
  /\ gpuAccelerated
       (snd (@FFMpeg.init _ (Scripted.platform Scripted.codecs_probe_fails)
               Scripted.start)) = true.
Proof.
  split; [reflexivity|]. split; [reflexivity|]. split; [reflexivity|].
  split; [reflexivity|].
  destruct (@init_keeps_flag_when_codec_probe_throws _
              (Scripted.platform Scripted.codecs_probe_fails)
              Scripted.start Scripted.an_installer 1%nat 2%nat 3%nat
              ("Tesla T4" +:+ LF) (Error "Command failed: ffmpeg -codecs")
              eq_refl eq_refl eq_refl eq_refl)
    as (Hok & Hflag & _).
  split; [exact Hok | exact Hflag].
Defined.

Lemma save_settles_with_path_or_error_witness :
  (first_end_or_error
     (fst (@ffmpegSave _ (Scripted.platform Scripted.all_good)
             (FFMpeg.wav_command false [82; 73; 70; 70]) "/tmp/speech.wav"
             (ext Scripted.start))) = Some (Ok tt)
   /\ fst (@FFMpeg.saveNormalizedAudio _ (Scripted.platform Scripted.all_good)
             FFMpeg.new [82; 73; 70; 70] "/tmp/speech.wav" Scripted.start)
      = Resolved "/tmp/speech.wav")
  /\ (first_end_or_error
        (fst (@ffmpegSave _ (Scripted.platform Scripted.ffmpeg_fails)
                (FFMpeg.mp3_command false [82; 73; 70; 70]) "/tmp/speech.mp3"
                (ext Scripted.start)))
      = Some (Throw (Error "ffmpeg exited with code 1"))
      /\ fst (@FFMpeg.saveToMp3 _ (Scripted.platform Scripted.ffmpeg_fails)
                FFMpeg.new [82; 73; 70; 70] "/tmp/speech.mp3" Scripted.start)
         = Rejected (Error "ffmpeg exited with code 1")).
Proof.
  split.
  - split; [reflexivity|].
    destruct (@save_settles_with_path_or_error _
                (Scripted.platform Scripted.all_good)
                FFMpeg.new [82; 73; 70; 70] "/tmp/speech.wav" Scripted.start)
      as (_ & Hend & _).
    exact (Hend eq_refl).
  - split; [reflexivity|].
    destruct (@save_settles_with_path_or_error _
                (Scripted.platform Scripted.ffmpeg_fails)
                FFMpeg.new [82; 73; 70; 70] "/tmp/speech.mp3" Scripted.start)
      as (_ & _ & _ & _ & Herr).
    exact (Herr (Error "ffmpeg exited with code 1") eq_refl).
Defined.

(** ** Kokoro: samples to 16-bit PCM *)

Lemma Qtruncate_nonneg (x : Q) : (0 <= x)%Q -> Qtruncate x = Qfloor x.
Proof.
  destruct x as [n d]. unfold Qle, Qtruncate, Qfloor. simpl. intros Hn.
  apply Z.quot_div_nonneg; lia.
Qed.

Lemma Qtruncate_nonpos (x : Q) : (x <= 0)%Q -> Qtruncate x = Qceiling x.
Proof.
  destruct x as [n d]. unfold Qle, Qtruncate, Qceiling, Qfloor. simpl. intros Hn.
  rewrite <- (Z.opp_involutive n) at 1. rewrite Z.quot_opp_l by lia.
  f_equal. apply Z.quot_div_nonneg; lia.
Qed.

Lemma Qtruncate_bounds (x : Q) (lo hi : Z) :
  lo <= 0 <= hi -> (inject_Z lo <= x)%Q -> (x <= inject_Z hi)%Q ->
  lo <= Qtruncate x <= hi.
Proof.
  intros Hz Hlo Hhi.
  destruct (Qlt_le_dec x 0) as [Hneg|Hpos].
  - rewrite Qtruncate_nonpos by lra. split.
    + rewrite <- (Qceiling_Z lo). apply Qceiling_resp_le. exact Hlo.
    + assert (Hc : Qceiling x <= Qceiling 0) by (apply Qceiling_resp_le; lra).
      change (Qceiling 0) with 0 in Hc. lia.
  - rewrite Qtruncate_nonneg by exact Hpos. split.
    + assert (Hc : Qfloor 0 <= Qfloor x) by (apply Qfloor_resp_le; exact Hpos).
      change (Qfloor 0) with 0 in Hc. lia.
    + rewrite <- (Qfloor_Z hi). apply Qfloor_resp_le. exact Hhi.
Qed.

Lemma int16_roundtrip (z : Z) :
  -32768 <= z <= 32767 -> int16_of_uint16 (z mod 65536) = z.
Proof.
  intros Hz. unfold int16_of_uint16.
  destruct (Z_lt_le_dec z 0) as [Hneg|Hpos].
  - assert (Hm : z mod 65536 = z + 65536).
    { symmetry. apply (Z.mod_unique_pos _ _ (-1)); lia. }
    rewrite Hm. destruct (32768 <=? z + 65536)%Z eqn:E; [lia|].
    apply Z.leb_gt in E. lia.
  - rewrite Z.mod_small by lia.
    destruct (32768 <=? z)%Z eqn:E; [|reflexivity].
    apply Z.leb_le in E. lia.
Qed.

Lemma ToUint16_range (v : number) : 0 <= ToUint16 v < 65536.
Proof.
  destruct v; simpl; try lia. apply Z.mod_pos_bound. lia.
Qed.

Lemma bytes_of_uint16 (u : Z) :
  0 <= u < 65536 -> u mod 256 + 256 * (u / 256) = u.
Proof. intros Hu. pose proof (Z.div_mod u 256). lia. Qed.

Section KokoroSamples.
Import Kokoro.

(** The value [setInt16] stores for a finite sample. *)
Lemma scale_and_clamp_Fin (q : Q) :
  scale_and_clamp (Fin q) =
  if Qle_bool (q * inject_Z 32767) (inject_Z (-32768)) then of_Z (-32768)
  else if Qle_bool (inject_Z 32767) (q * inject_Z 32767) then of_Z 32767
  else Fin (q * inject_Z 32767).
Proof.
  unfold scale_and_clamp, of_Z. simpl.
  destruct (Qle_bool (q * inject_Z 32767) (inject_Z (-32768))) eqn:E1; simpl.
  - reflexivity.
  - destruct (Qle_bool (inject_Z 32767) (q * inject_Z 32767)); reflexivity.
Qed.

Lemma stored_sample_Fin (q : Q) :
  ((q * 32767 <= -32768)%Q -> ToInt16 (scale_and_clamp (Fin q)) = -32768)
  /\ ((32767 <= q * 32767)%Q -> ToInt16 (scale_and_clamp (Fin q)) = 32767)
  /\ ((-32768 < q * 32767)%Q -> (q * 32767 < 32767)%Q ->
      ToInt16 (scale_and_clamp (Fin q)) = Qtruncate (q * 32767)).
Proof.
  rewrite scale_and_clamp_Fin.
  change (inject_Z 32767) with 32767%Q. change (inject_Z (-32768)) with (-32768)%Q.
  split; [|split].
  - intros Hlo. apply Qle_bool_iff in Hlo. rewrite Hlo. reflexivity.
  - intros Hhi.
    destruct (Qle_bool (q * 32767) (-32768)) eqn:E1.
    + apply Qle_bool_iff in E1. lra.
    + apply Qle_bool_iff in Hhi. rewrite Hhi. reflexivity.
  - intros Hlo Hhi.
    apply Qle_bool_false in Hlo. rewrite Hlo.
    assert (Hhi' := Hhi). apply Qle_bool_false in Hhi'. rewrite Hhi'.
    unfold ToInt16, ToUint16. apply int16_roundtrip.
    apply Qtruncate_bounds; [lia| |].
    + change (inject_Z (-32768)) with (-32768)%Q.
      apply Qle_bool_false in Hlo. lra.
    + change (inject_Z 32767) with 32767%Q. lra.
Qed.

Lemma setInt16_le_ok (buffer : bytes) (byteOffset : nat) (value : number) :
  (byteOffset + 2 <= length buffer)%nat ->
  exists buffer',
    setInt16_le buffer byteOffset value = Ok buffer'
    /\ length buffer' = length buffer
    /\ getInt16_le buffer' byteOffset = Some (ToInt16 value)
    /\ (forall j, (j < byteOffset)%nat -> buffer' !! j = buffer !! j).
Proof.
  intros Hlen. unfold setInt16_le.
  destruct (byteOffset + 2 <=? length buffer)%nat eqn:E;
    [|apply Nat.leb_gt in E; lia].
  eexists. split; [reflexivity|]. split; [|split].
  - rewrite !length_insert. reflexivity.
  - unfold getInt16_le.
    rewrite list_lookup_insert_eq by (rewrite length_insert; lia).
    rewrite list_lookup_insert_ne by lia.
    rewrite list_lookup_insert_eq by lia.
    unfold ToInt16. rewrite bytes_of_uint16 by apply ToUint16_range.
    reflexivity.
  - intros j Hj. rewrite !list_lookup_insert_ne by lia. reflexivity.
Qed.

Lemma getInt16_le_ext (b1 b2 : bytes) (off : nat) :
  b1 !! off = b2 !! off -> b1 !! S off = b2 !! S off ->
  getInt16_le b1 off = getInt16_le b2 off.
Proof. intros H0 H1. unfold getInt16_le. rewrite H0, H1. reflexivity. Qed.

Lemma write_samples_ok (audioData : list number) (index : nat) (buffer : bytes) :
  ((index + length audioData) * 2 <= length buffer)%nat ->
  exists buffer',
    write_samples audioData index buffer = Ok buffer'
    /\ length buffer' = length buffer
    /\ (forall j, (j < index * 2)%nat -> buffer' !! j = buffer !! j)
    /\ (forall i value,
          audioData !! i = Some value ->
          getInt16_le buffer' ((index + i) * 2)
          = Some (ToInt16 (scale_and_clamp value))).
Proof.
  revert index buffer.
  induction audioData as [|value rest IH]; intros index buffer Hlen.
  - exists buffer. repeat split; auto. intros i value Hi. discriminate Hi.
  - simpl in Hlen. simpl.
    destruct (setInt16_le_ok buffer (index * 2) (scale_and_clamp value))
      as (b1 & Hset & Hlen1 & Hget1 & Hold1); [lia|].
    rewrite Hset.
    destruct (IH (S index) b1) as (b2 & Hrest & Hlen2 & Hold2 & Hget2);
      [rewrite Hlen1; lia|].
    exists b2. split; [exact Hrest|]. split; [congruence|]. split.
    + intros j Hj. rewrite Hold2 by lia. apply Hold1. exact Hj.
    + intros [|i] v Hi; simpl in Hi.
      * injection Hi as <-. rewrite Nat.add_0_r.
        rewrite <- Hget1. apply getInt16_le_ext; apply Hold2; lia.
      * replace ((index + S i) * 2)%nat with ((S index + i) * 2)%nat by lia.
        apply Hget2. exact Hi.
Qed.

End KokoroSamples.

Section KokoroAudio.
Context `{Platform}.
Import Kokoro.

Lemma postprocess_ok (audioData : list number) :
  audioData <> [] ->
  exists buffer,
    postprocess (Some {| audio := Some {| data := Some audioData |} |}) = Ok buffer
    /\ length buffer = (2 * length audioData)%nat
    /\ (forall i value,
          audioData !! i = Some value ->
          getInt16_le buffer (i * 2) = Some (ToInt16 (scale_and_clamp value))).
Proof.
  intros Hne. unfold postprocess. simpl.
  destruct audioData as [|first rest]; [congruence|].
  destruct (write_samples_ok (first :: rest) 0
              (ArrayBuffer (length (first :: rest) * 2)))
    as (buffer & Hw & Hlen & _ & Hget).
  { unfold ArrayBuffer. rewrite length_replicate. lia. }
  exists buffer. split; [exact Hw|]. split.
  - rewrite Hlen. unfold ArrayBuffer. rewrite length_replicate. lia.
  - intros i value Hi. exact (Hget i value Hi).
Qed.

Lemma postprocessAudio_run (outputs : option Outputs) (w : world) :
  fst (postprocessAudio outputs w) = postprocess outputs.
Proof.
  unfold postprocessAudio. run_monad. destruct (postprocess outputs); reflexivity.
Qed.

(** C9, as the code has it. For a non-empty sample array [postprocessAudio]
    returns a buffer of 2 bytes per sample whose i-th little-endian 16-bit
    value is [ToInt16] of the i-th sample scaled by 32767 and clamped into
    [-32768, 32767]: the clamped value truncated toward zero (NaN is stored
    as 0).  For an empty or missing sample array it throws. *)
Theorem postprocessAudio_stores_truncated_samples (audioData : list number)
    (w : world) :
  (audioData <> [] ->
   exists buffer,
     fst (postprocessAudio
            (Some {| audio := Some {| data := Some audioData |} |}) w) = Ok buffer
     /\ length buffer = (2 * length audioData)%nat
     /\ (forall i value,
           audioData !! i = Some value ->
           getInt16_le buffer (i * 2) = Some (ToInt16 (scale_and_clamp value))))
  /\ (forall q : Q,
        ((q * 32767 <= -32768)%Q -> ToInt16 (scale_and_clamp (Fin q)) = -32768)
        /\ ((32767 <= q * 32767)%Q -> ToInt16 (scale_and_clamp (Fin q)) = 32767)
        /\ ((-32768 < q * 32767)%Q -> (q * 32767 < 32767)%Q ->
            ToInt16 (scale_and_clamp (Fin q)) = Qtruncate (q * 32767)))
  /\ (forall x : Q,
        ((0 <= x)%Q -> Qtruncate x = Qfloor x)
        /\ ((x <= 0)%Q -> Qtruncate x = Qceiling x))
  /\ ToInt16 (scale_and_clamp NaN) = 0
  /\ ToInt16 (scale_and_clamp PosInf) = 32767
  /\ ToInt16 (scale_and_clamp NegInf) = -32768
  /\ fst (postprocessAudio (Some {| audio := Some {| data := Some [] |} |}) w)
     = Throw (Error "Empty audio data received")
  /\ fst (postprocessAudio (Some {| audio := Some {| data := None |} |}) w)
     = Throw (Error "Empty audio data received").
Proof.
  split.
  { intros Hne. destruct (postprocess_ok audioData Hne) as (buffer & Hp & Hrest).
    exists buffer. rewrite postprocessAudio_run. split; assumption. }
  split; [exact stored_sample_Fin|].
  split; [intros x; split; [apply Qtruncate_nonneg | apply Qtruncate_nonpos]|].
  repeat split.
Qed.

End KokoroAudio.

(** ** Kokoro: [generate] *)

Section MonadInversion.
Context `{Carriers}.

Lemma bind_ok_inv {A B : Type} (m : M A) (k : A -> M B) (w : world) (b : B) :
  fst (bind m k w) = Ok b ->
  exists a w1, m w = (Ok a, w1) /\ fst (k a w1) = Ok b.
Proof.
  unfold bind. destruct (m w) as [[a|e] w1]; simpl; [|discriminate].
  intros Hk. exists a, w1. split; [reflexivity | exact Hk].
Qed.

Lemma try_catch_ok_inv {A : Type} (body : M A) (h : error -> M A)
    (w : world) (a : A) :
  (forall e w', exists e', fst (h e w') = Throw e') ->
  fst (try_catch body h w) = Ok a -> fst (body w) = Ok a.
Proof.
  intros Hh. unfold try_catch. destruct (body w) as [[a'|e] w1]; simpl.
  - trivial.
  - destruct (Hh e w1) as [e' He']. rewrite He'. discriminate.
Qed.

End MonadInversion.

Section KokoroGenerate.
Context `{Platform}.
Import Kokoro.

Lemma generate_handler_throws (text : option string) (e : error) (w : world) :
  exists e',
    fst ((text_length text >>
          logger Err (Some e) "Failed to generate audio" >>
          @throw _ (bytes * number) e) w) = Throw e'.
Proof. destruct text; eexists; reflexivity. Qed.

Lemma postprocess_ok_inv (outputs : option Outputs) (buffer : bytes) :
  postprocess outputs = Ok buffer ->
  exists samples,
    outputs = Some {| audio := Some {| data := Some samples |} |}
    /\ byteLength buffer = 2 * Z.of_nat (length samples).
Proof.
  intros Hpost.
  destruct outputs as [[audio]|]; [|discriminate Hpost].
  destruct audio as [[data]|]; [|discriminate Hpost].
  destruct data as [[|first rest]|]; try discriminate Hpost.
  exists (first :: rest). split; [reflexivity|].
  destruct (postprocess_ok (first :: rest)) as (buffer' & Hbuffer & Hlen & _);
    [discriminate|].
  rewrite Hbuffer in Hpost. injection Hpost as <-.
  unfold byteLength. rewrite Hlen. lia.
Qed.

(** Rounding to binary64 depends on the value of the rational only. *)
Lemma to_binary64_Qeq (q q' : Q) :
  (q == q')%Q -> to_binary64 q = to_binary64 q'.
Proof.
  intros Heq. unfold to_binary64, nearest_binary64.
  rewrite (Qred_complete q q' Heq). reflexivity.
Qed.

(** Where doubling the rate is exact, the length of [n] samples of two
    bytes is the quotient of [n] by the rate, rounded once. *)
Lemma audio_length_of_samples (audioData : bytes) (n : Z) (r : Q) :
  byteLength audioData = 2 * n ->
  ~ (r == 0)%Q ->
  num_eq (to_binary64 (r * 2)) (Fin (r * 2)) ->
  audio_length audioData (Some (JNum r)) = to_binary64 (inject_Z n / r).
Proof.
  intros Hlen Hr Hexact.
  unfold audio_length, binary64_div, binary64_mul, ToNumber, of_Z, num_mul,
         round_binary64.
  change (inject_Z 2) with 2%Q.
  destruct (to_binary64 (r * 2)) as [| | |y]; simpl in Hexact;
    try contradiction.
  assert (Hy : ~ (y == 0)%Q) by (rewrite Hexact; intros Hz; apply Hr; lra).
  unfold num_div.
  destruct (y ?= 0)%Q eqn:E; [apply Qeq_alt in E; contradiction| |];
    apply to_binary64_Qeq; rewrite Hlen, inject_Z_mult, Hexact;
    change (inject_Z 2) with 2%Q; field; exact Hr.
Qed.

(** The quotient is rounded: four bytes at 24000 Hz last the binary64
    value next to 1/12000 second, which is not 1/12000; and it overflows for
    a sample rate that is tiny. *)
Lemma audio_length_is_rounded :
  audio_length [255; 63; 0; 128] (Some (JNum 24000))
  = Fin (6148914691236517 # 73786976294838206464)
  /\ ~ num_eq (audio_length [255; 63; 0; 128] (Some (JNum 24000)))
             (Fin (1 # 12000))
  /\ audio_length [255; 63; 0; 128] (Some (JNum (1 # 2 ^ 1040))) = PosInf.
Proof.
  split; [vm_compute; reflexivity|]. split; [|vm_compute; reflexivity].
  intros Heq. vm_compute in Heq. discriminate Heq.
Qed.

(** C10. A call of [generate] that returns gives back, as [audioLength],
    the byte length of the audio divided by twice [config.sample_rate], the
    product and the quotient being those of binary64 arithmetic.  The audio
    has two bytes per sample the session produced, so that for a numeric,
    non-zero sample rate that is doubled without rounding [audioLength] is
    the number of samples over the rate, rounded to binary64: the duration
    in seconds. *)
Theorem generate_audioLength (this : Kokoro) (text : option string)
    (voice : string) (w : world) (audioData : bytes) (audioLength : number) :
  fst (generate this text voice w) = Ok (audioData, audioLength) ->
  exists sample_rate,
    get_property "sample_rate" (config this) = Ok sample_rate
    /\ audioLength
       = binary64_div (of_Z (byteLength audioData))
                      (binary64_mul (ToNumber sample_rate) (of_Z 2))
    /\ exists s input_ids e e' samples,
         sessionRun s input_ids ["cuda"] e
           = (Ok (Some {| audio := Some {| data := Some samples |} |}), e')
         /\ byteLength audioData = 2 * Z.of_nat (length samples)
         /\ (forall r : Q,
               sample_rate = Some (JNum r) -> ~ (r == 0)%Q ->
               num_eq (to_binary64 (r * 2)) (Fin (r * 2)) ->
               audioLength
               = to_binary64 (inject_Z (Z.of_nat (length samples)) / r)).
Proof.
  unfold generate. intros Hgen.
  apply bind_ok_inv in Hgen as (_ & w0 & _ & Hgen).
  apply try_catch_ok_inv in Hgen; [|intros e w'; apply generate_handler_throws].
  apply bind_ok_inv in Hgen as (s & w1 & _ & Hgen).
  apply bind_ok_inv in Hgen as (inputIds & w2 & _ & Hgen).
  apply bind_ok_inv in Hgen as (outputs & w3 & Hrun & Hgen).
  apply bind_ok_inv in Hgen as (_ & w4 & _ & Hgen).
  apply bind_ok_inv in Hgen as (audio' & w5 & Hpost & Hgen).
  apply bind_ok_inv in Hgen as (_ & w6 & _ & Hgen).
  apply bind_ok_inv in Hgen as (_ & w7 & _ & Hgen).
  apply bind_ok_inv in Hgen as (sample_rate & w8 & Hrate & Hgen).
  unfold lift_result in Hrate. injection Hrate as Hrate _.
  unfold ret in Hgen. cbn [fst] in Hgen. injection Hgen as -> <-.
  exists sample_rate. split; [exact Hrate|]. split; [reflexivity|].
  apply (f_equal fst) in Hpost. cbn [fst] in Hpost.
  rewrite postprocessAudio_run in Hpost.
  destruct (postprocess_ok_inv outputs audioData Hpost) as (samples & -> & Hlen).
  unfold call_run, invoke in Hrun.
  destruct (sessionRun s _ ["cuda"] (ext w2)) as [r e'] eqn:Hsession.
  injection Hrun as -> _.
  eexists s, _, (ext w2), e', samples. split; [exact Hsession|].
  split; [exact Hlen|].
  intros r -> Hr Hexact.
  exact (audio_length_of_samples audioData _ r Hlen Hr Hexact).
Qed.

(** C8. For an absent or empty text [generate] throws, and the world it
    leaves has the trace and the outside state it found: no call to the
    inference session (or to anything external) was made.  The text is
    rejected by [preprocessText]; with a session in place and an empty
    string, the error that comes out is that of [preprocessText]. *)
Theorem generate_rejects_empty_text (this : Kokoro) (text : option string)
    (voice : string) (w : world) :
  (text = None \/ exists t, text = Some t /\ js_length t = 0) ->
  (exists e, fst (generate this text voice w) = Throw e)
  /\ trace (snd (generate this text voice w)) = trace w
  /\ ext (snd (generate this text voice w)) = ext w
  /\ gpuAccelerated (snd (generate this text voice w)) = gpuAccelerated w
  /\ preprocessText text voice = Throw (Error "Input text cannot be empty")
  /\ (forall s t,
        session this = Some s -> text = Some t ->
        fst (generate this text voice w)
        = Throw (Error "Input text cannot be empty")).
Proof.
  intros Hempty.
  assert (Hpre : preprocessText text voice
                 = Throw (Error "Input text cannot be empty")).
  { destruct Hempty as [->|(t & -> & Hlen)]; [reflexivity|].
    unfold preprocessText. rewrite Hlen. reflexivity. }
  unfold generate. run_monad. rewrite Hpre.
  destruct (session this) as [s|]; simpl;
    destruct text as [t|]; simpl; repeat split; eauto; intros; discriminate.
Qed.

End KokoroGenerate.

(** ** Kokoro: [init] *)

Section KokoroInit.
Context `{Platform}.
Import Kokoro.

Lemma includes_item_In (x : string) (l : list string) :
  includes_item x l = true <-> In x l.
Proof.
  unfold includes_item. rewrite existsb_exists. split.
  - intros (y & Hin & Heq). apply String.eqb_eq in Heq. subst y. exact Hin.
  - intros Hin. exists x. split; [exact Hin | apply String.eqb_refl].
Qed.

Lemma init_step_bind {A B : Type} (m : M A) (k : A -> M B)
    (P : A -> list event -> Prop) (Q : A -> B -> list event -> Prop) :
  init_step m P -> (forall a, init_step (k a) (Q a)) ->
  init_step (bind m k)
    (fun b evs => exists a evs1 evs2, evs = evs1 ++ evs2 /\ P a evs1 /\ Q a b evs2).
Proof.
  intros Hm Hk w. unfold bind.
  destruct (Hm w) as [evs1 [Ht1 Hr1]].
  destruct (m w) as [[a|e] w1]; simpl in *.
  - destruct (Hk a w1) as [evs2 [Ht2 Hr2]].
    exists (evs1 ++ evs2). rewrite Ht2, Ht1, app_assoc. split; [reflexivity|].
    destruct (fst (k a w1)) as [b|e].
    + exists a, evs1, evs2. auto.
    + destruct Hr2 as (before & last_call & -> & Hexp).
      exists (evs1 ++ before), last_call. rewrite app_assoc. auto.
  - exists evs1. split; assumption.
Qed.

Ltac explain_failure :=
  unfold failure_explained;
  repeat split; intros; try discriminate; try congruence.

Ltac close_step :=
  rewrite <- ?app_assoc; simpl; eexists; (split; [reflexivity|]).

Ltac failed_after l :=
  exists l; eexists; split; [reflexivity|explain_failure].

Lemma install_runtime_step : init_step install_runtime (fun _ _ => True).
Proof.
  intros w. unfold install_runtime, exec. run_monad.
  destruct (execSync "npm install onnxruntime-node@latest --save" (ext w))
    as [[o1|x1] e1]; simpl.
  - close_step. exact I.
  - destruct (execSync "npm install -g onnxruntime-node@latest" e1)
      as [[o2|x2] e2]; simpl; close_step; [exact I|].
    failed_after [Called (ExecSync "npm install onnxruntime-node@latest --save") (Throw x1)].
Qed.

Lemma init_step_weaken {A : Type} (m : M A) (P Q : A -> list event -> Prop) :
  init_step m P -> (forall a evs, P a evs -> Q a evs) -> init_step m Q.
Proof.
  intros Hm HPQ w. destruct (Hm w) as [evs [Ht Hr]].
  exists evs. split; [exact Ht|].
  destruct (fst (m w)); [apply HPQ|]; exact Hr.
Qed.

Lemma existsSync_step (p : string) :
  init_step (fs_existsSync p) (fun _ _ => True).
Proof.
  intros w. unfold fs_existsSync. run_monad.
  destruct (existsSync p (ext w)) as [found e1]; simpl. close_step. exact I.
Qed.

Lemma create_model_dir_step (dir : bool) :
  init_step
    (when (negb dir)
       (logger Debug None ("Creating models directory at " +:+ MODEL_DIR) >>
        fs_mkdirSync MODEL_DIR))
    (fun _ _ => True).
Proof.
  intros w. unfold fs_mkdirSync. run_monad. destruct dir; simpl.
  - exists []. rewrite app_nil_r. split; [reflexivity | exact I].
  - destruct (mkdirSync MODEL_DIR (ext w)) as [[[]|x] e2]; simpl; close_step;
      [exact I|].
    exists []. eexists. split; [reflexivity|]. explain_failure.
Qed.

Lemma verifyFile_step (p : string) :
  p = MODEL_FILE \/ p = CONFIG_FILE ->
  init_step (verifyFile p)
    (fun _ evs => In (Called (ExistsSync p) (Ok (VBool true))) evs).
Proof.
  intros Hp w. unfold verifyFile, fs_existsSync. run_monad.
  destruct (existsSync p (ext w)) as [[|] e1]; simpl; close_step.
  - left. reflexivity.
  - exists []. eexists. split; [reflexivity|]. explain_failure.
Qed.

Lemma read_config_step :
  init_step
    (let* content := fs_readFileSync CONFIG_FILE in
     let* config := lift_result (JSON_parse content) in
     let* sample_rate := lift_result (get_property "sample_rate" config) in
     when (negb (truthy sample_rate))
       (throw (Error "Invalid config file: missing sample_rate")) >>
     ret config)
    (fun config _ =>
       exists sample_rate,
         get_property "sample_rate" config = Ok (Some sample_rate)
         /\ truthy (Some sample_rate) = true).
Proof.
  intros w. unfold fs_readFileSync. run_monad.
  destruct (readFileSync CONFIG_FILE (ext w)) as [[content|x] e1]; simpl.
  2: { close_step. exists []. eexists. split; [reflexivity|]. explain_failure. }
  destruct (JSON_parse content) as [cfg|x] eqn:Hparse; simpl.
  2: { close_step. exists []. eexists. split; [reflexivity|]. explain_failure. }
  destruct (get_property "sample_rate" cfg) as [sr|x] eqn:Hsr; simpl.
  2: { close_step. exists []. eexists. split; [reflexivity|]. explain_failure. }
  destruct (truthy sr) eqn:Htr; simpl; close_step.
  - destruct sr as [v|]; [|discriminate]. exists v. split; [exact Hsr|exact Htr].
  - exists []. eexists. split; [reflexivity|]. explain_failure.
Qed.

Lemma load_config_step :
  init_step load_config
    (fun config evs =>
       In (Called (ExistsSync MODEL_FILE) (Ok (VBool true))) evs
       /\ In (Called (ExistsSync CONFIG_FILE) (Ok (VBool true))) evs
       /\ exists sample_rate,
            get_property "sample_rate" config = Ok (Some sample_rate)
            /\ truthy (Some sample_rate) = true).
Proof.
  unfold load_config.
  eapply init_step_weaken.
  - apply init_step_bind; [apply existsSync_step|intros dir].
    apply init_step_bind; [apply create_model_dir_step|intros ?].
    apply init_step_bind; [apply verifyFile_step; left; reflexivity|intros ?].
    apply init_step_bind; [apply verifyFile_step; right; reflexivity|intros ?].
    apply read_config_step.
  - simpl. intros config evs (dir & evs1 & evs2 & -> & _ & ? & evs3 & evs4 & -> & _
                              & ? & evs5 & evs6 & -> & Hm
                              & ? & evs7 & evs8 & -> & Hc & Hsr).
    split; [|split; [|exact Hsr]].
    + apply in_or_app. right. apply in_or_app. right. apply in_or_app. left.
      exact Hm.
    + apply in_or_app. right. apply in_or_app. right. apply in_or_app. right.
      apply in_or_app. left. exact Hc.
Qed.

Lemma open_session_step :
  init_step open_session
    (fun _ evs =>
       exists providers,
         In (Called GetAvailableProviders (Ok (VStrings providers))) evs
         /\ In "cuda" providers).
Proof.
  intros w. unfold open_session. run_monad.
  destruct (getAvailableProviders (ext w)) as [[ps|x] e1]; simpl.
  2: { close_step. exists []. eexists. split; [reflexivity|]. explain_failure. }
  destruct (includes_item "cuda" ps) eqn:Hcuda; simpl.
  - destruct (sessionCreate MODEL_FILE session_options e1) as [[s|x] e2]; simpl;
      close_step.
    + exists ps. split; [left; reflexivity|]. apply includes_item_In. exact Hcuda.
    + failed_after [Called GetAvailableProviders (Ok (VStrings ps))].
  - close_step. exists []. eexists. split; [reflexivity|]. explain_failure.
    intros Hin. apply includes_item_In in Hin. congruence.
Qed.

Lemma init_body_step :
  init_step
    (install_runtime >>
     let* config := load_config in
     let* s := open_session in
     logger Debug None "Kokoro TTS successfully initialized with GPU support" >>
     ret (new (Some s) config))
    probes_passed.
Proof.
  eapply init_step_weaken.
  - apply init_step_bind; [apply install_runtime_step|intros ?].
    apply init_step_bind; [apply load_config_step|intros config].
    apply init_step_bind; [apply open_session_step|intros s].
    instantiate (1 := fun s k evs => k = new (Some s) config /\ evs = []).
    intros w. exists []. simpl. rewrite app_nil_r. auto.
  - simpl. intros k evs (? & evs1 & evs2 & -> & _ & config & evs3 & evs4 & ->
                         & (Hm & Hc & Hsr) & s & evs5 & evs6 & -> & Hp & -> & ->).
    unfold probes_passed. simpl. rewrite app_nil_r.
    split; [|split; [|split; [exact Hsr|]]].
    + apply in_or_app. right. apply in_or_app. left. exact Hm.
    + apply in_or_app. right. apply in_or_app. left. exact Hc.
    + destruct Hp as (ps & Hin & Hcuda). exists ps. split; [|exact Hcuda].
      apply in_or_app. right. apply in_or_app. right. exact Hin.
Qed.


End KokoroInit.


Lemma generate_rejects_empty_text_witness :
  (Some EmptyString = None
   \/ exists t, Some EmptyString = Some t /\ js_length t = 0)
  /\ fst (@Kokoro.generate _ (Scripted.platform Scripted.all_good)
            Scripted.a_kokoro (Some EmptyString) "af_heart" Scripted.start)
     = Throw (Error "Input text cannot be empty")
  /\ trace (snd (@Kokoro.generate _ (Scripted.platform Scripted.all_good)
                   Scripted.a_kokoro (Some EmptyString) "af_heart" Scripted.start))
     = trace Scripted.start
  /\ (exists e,
        fst (@Kokoro.generate _ (Scripted.platform Scripted.all_good)
               Scripted.a_kokoro None "af_heart" Scripted.start) = Throw e).
Proof.
  assert (Hempty : Some EmptyString = None
                   \/ exists t, Some EmptyString = Some t /\ js_length t = 0).
  { right. exists EmptyString. split; reflexivity. }
  split; [exact Hempty|].
  destruct (@generate_rejects_empty_text _ (Scripted.platform Scripted.all_good)
              Scripted.a_kokoro (Some EmptyString) "af_heart" Scripted.start Hempty)
    as (_ & Htrace & _ & _ & _ & Hmsg).
  split; [exact (Hmsg 1%nat EmptyString eq_refl eq_refl)|].
  split; [exact Htrace|].
  exact (proj1 (@generate_rejects_empty_text _
                  (Scripted.platform Scripted.all_good)
                  Scripted.a_kokoro None "af_heart" Scripted.start
                  (or_introl eq_refl))).
Defined.

Lemma postprocessAudio_stores_truncated_samples_witness :
  [Fin (1 # 2); Fin (-2)] <> []
  /\ exists buffer,
       fst (@Kokoro.postprocessAudio Scripted.carriers Scripted.two_samples
              Scripted.start) = Ok buffer
       /\ length buffer = 4%nat
       /\ Kokoro.getInt16_le buffer 0 = Some 16383
       /\ Kokoro.getInt16_le buffer 2 = Some (-32768).
Proof.
  assert (Hne : [Fin (1 # 2); Fin (-2)] <> []) by (intros Hnil; discriminate Hnil).
  split; [exact Hne|].
  destruct (proj1 (@postprocessAudio_stores_truncated_samples Scripted.carriers
                     [Fin (1 # 2); Fin (-2)] Scripted.start) Hne)
    as (buffer & Hbuffer & Hlen & Hget).
  exists buffer. split; [exact Hbuffer|]. split; [exact Hlen|]. split.
  - exact (Hget 0%nat (Fin (1 # 2)) eq_refl).
  - exact (Hget 1%nat (Fin (-2)) eq_refl).
Defined.

(** C9 as stated fails on the sample 1/2: scaled by 32767 it is 16383.5,
    which the clamp leaves alone, and the buffer holds 16383. *)
Lemma stored_sample_is_not_the_clamped_value :
  fst (@Kokoro.postprocessAudio Scripted.carriers
         (Some {| audio := Some {| data := Some [Fin (1 # 2)] |} |})
         Scripted.start) = Ok [255; 63]
  /\ Kokoro.getInt16_le [255; 63] 0 = Some 16383
  /\ num_eq (Kokoro.scale_and_clamp (Fin (1 # 2))) (Fin (32767 # 2))
  /\ ~ num_eq (of_Z 16383) (Kokoro.scale_and_clamp (Fin (1 # 2))).
Proof.
  split; [reflexivity|]. split; [reflexivity|]. split; [reflexivity|].
  intros Heq. vm_compute in Heq. discriminate Heq.
Qed.

Lemma generate_audioLength_witness :
  fst (@Kokoro.generate _ (Scripted.platform Scripted.all_good)
         Scripted.a_kokoro (Some "hi") "af_heart" Scripted.start)
  = Ok ([255; 63; 0; 128], Fin (6148914691236517 # 73786976294838206464))
  /\ num_eq (to_binary64 (24000 * 2)) (Fin (24000 * 2))
  /\ to_binary64 (2 / 24000) = Fin (6148914691236517 # 73786976294838206464).
Proof.
  assert (Hrun :
    fst (@Kokoro.generate _ (Scripted.platform Scripted.all_good)
           Scripted.a_kokoro (Some "hi") "af_heart" Scripted.start)
    = Ok ([255; 63; 0; 128], Fin (6148914691236517 # 73786976294838206464)))
    by (vm_compute; reflexivity).
  assert (Hexact : num_eq (to_binary64 (24000 * 2)) (Fin (24000 * 2)))
    by (vm_compute; reflexivity).
  split; [exact Hrun|]. split; [exact Hexact|].
  destruct (@generate_audioLength _ (Scripted.platform Scripted.all_good)
              Scripted.a_kokoro (Some "hi") "af_heart" Scripted.start
              [255; 63; 0; 128]
              (Fin (6148914691236517 # 73786976294838206464)) Hrun)
    as (sample_rate & Hrate & _ & s & input_ids & e & e' & samples
        & _ & Hlen & Hduration).
  injection Hrate as <-.
  assert (Hcount : Z.of_nat (length samples) = 2)
    by (unfold Kokoro.byteLength in Hlen; simpl in Hlen; lia).
  rewrite Hcount in Hduration. symmetry.
  apply (Hduration 24000%Q eq_refl); [|exact Hexact].
  intros Hzero. discriminate Hzero.
Defined.

(** * Further properties of the wrappers *)

(** ** The calls of a run *)

Section CallsOnly.
Context `{Carriers}.

Lemma traced_weaken {A : Type} (m : M A) (R R' : result A -> list event -> Prop) :
  traced m R -> (forall r evs, R r evs -> R' r evs) -> traced m R'.
Proof.
  intros Hm HR w. destruct (Hm w) as (evs & Ht & Hr).
  exists evs. split; [exact Ht | apply HR; exact Hr].
Qed.

Lemma calls_only_silent {A : Type} (P : call -> Prop) (m : M A) :
  (forall w, trace (snd (m w)) = trace w) -> calls_only P m.
Proof.
  intros Hm w. exists []. rewrite app_nil_r. split; [apply Hm | constructor].
Qed.

Lemma calls_only_ret {A : Type} (P : call -> Prop) (a : A) :
  calls_only P (ret a).
Proof. apply calls_only_silent. reflexivity. Qed.

Lemma calls_only_throw {A : Type} (P : call -> Prop) (e : error) :
  calls_only P (@throw _ A e).
Proof. apply calls_only_silent. reflexivity. Qed.

Lemma calls_only_logger (P : call -> Prop) (l : level) (err : option error)
    (msg : string) : calls_only P (logger l err msg).
Proof. apply calls_only_silent. reflexivity. Qed.

Lemma calls_only_lift_result {A : Type} (P : call -> Prop) (r : result A) :
  calls_only P (lift_result r).
Proof. apply calls_only_silent. reflexivity. Qed.

Lemma calls_only_set_flag (P : call -> Prop) (b : bool) :
  calls_only P (set_gpuAccelerated b).
Proof. apply calls_only_silent. reflexivity. Qed.

Lemma calls_only_invoke {A : Type} (P : call -> Prop) (c : call)
    (inj : A -> value) (oracle : Ext -> result A * Ext) :
  P c -> calls_only P (invoke c inj oracle).
Proof.
  intros Hc w. unfold invoke. destruct (oracle (ext w)) as [r e']. simpl.
  eexists. split; [reflexivity|]. constructor; [exact Hc | constructor].
Qed.

Lemma calls_only_invoke_total {A : Type} (P : call -> Prop) (c : call)
    (inj : A -> value) (oracle : Ext -> A * Ext) :
  P c -> calls_only P (invoke_total c inj oracle).
Proof. apply calls_only_invoke. Qed.

Lemma calls_only_bind {A B : Type} (P : call -> Prop) (m : M A) (k : A -> M B) :
  calls_only P m -> (forall a, calls_only P (k a)) -> calls_only P (bind m k).
Proof.
  intros Hm Hk w. unfold bind.
  destruct (Hm w) as (evs1 & Ht1 & Hr1).
  destruct (m w) as [[a|e] w1]; simpl in *.
  - destruct (Hk a w1) as (evs2 & Ht2 & Hr2).
    exists (evs1 ++ evs2). rewrite Ht2, Ht1, app_assoc.
    split; [reflexivity|]. apply Forall_app. split; assumption.
  - exists evs1. split; assumption.
Qed.

Lemma calls_only_try_catch {A : Type} (P : call -> Prop) (body : M A)
    (h : error -> M A) :
  calls_only P body -> (forall e, calls_only P (h e)) ->
  calls_only P (try_catch body h).
Proof.
  intros Hb Hh w. unfold try_catch.
  destruct (Hb w) as (evs1 & Ht1 & Hr1).
  destruct (body w) as [[a|e] w1]; simpl in *.
  - exists evs1. split; assumption.
  - destruct (Hh e w1) as (evs2 & Ht2 & Hr2).
    exists (evs1 ++ evs2). rewrite Ht2, Ht1, app_assoc.
    split; [reflexivity|]. apply Forall_app. split; assumption.
Qed.

Lemma calls_only_when (P : call -> Prop) (c : bool) (m : M unit) :
  calls_only P m -> calls_only P (when c m).
Proof. intros Hm. destruct c; [exact Hm | apply calls_only_ret]. Qed.

End CallsOnly.

Ltac calls_only_steps :=
  repeat lazymatch goal with
  | |- calls_only _ (ret _) => apply calls_only_ret
  | |- calls_only _ (throw _) => apply calls_only_throw
  | |- calls_only _ (logger _ _ _) => apply calls_only_logger
  | |- calls_only _ (lift_result _) => apply calls_only_lift_result
  | |- calls_only _ (set_gpuAccelerated _) => apply calls_only_set_flag
  | |- calls_only _ (when _ _) => apply calls_only_when
  | |- calls_only _ (try_catch _ _) => apply calls_only_try_catch; [|intros ?]
  | |- calls_only _ (bind _ _) => apply calls_only_bind; [|intros ?]
  | |- calls_only _ (let _ := _ in _) => cbv zeta
  | |- calls_only _ (match ?x with _ => _ end) => destruct x
  | |- calls_only _ (invoke_total _ _ _) => apply calls_only_invoke_total
  | |- calls_only _ (invoke _ _ _) => apply calls_only_invoke
  end.

(** ** Remotion, further *)

Section RemotionMore.
Context `{Platform}.
Import Remotion.

(** X1. [init] calls nothing but [ensureBrowser], [bundle] on the music
    directory and the entry point, and, outside Docker only, the three shell
    commands of the GPU set-up. *)
Theorem Remotion_init_calls (config : Config) :
  calls_only
    (fun c =>
       c = EnsureBrowser
       \/ c = Bundle (musicDirPath config) (entryPoint config)
       \/ (runningInDocker config = false
           /\ (c = ExecSync "npm install @ffmpeg-installer/ffmpeg@1.1.0 --no-save"
               \/ c = ExecSync "npm list @remotion/renderer"
               \/ c = ExecSync ("export FFMPEG_BINARY=" +:+ ffmpeg_path))))
    (init config).
Proof.
  unfold init, setup_gpu, exec.
  destruct (runningInDocker config) eqn:Hdocker; simpl;
    calls_only_steps; tauto.
Qed.

(** X2. With another version of the renderer installed, the GPU set-up stops at
    the version check: the [export] command is not run, the mismatch is
    logged as a warning, and [init] goes on to [bundle]. *)
Theorem Remotion_init_version_mismatch (config : Config) (w : world)
    (e1 e2 e3 : Ext) (installed version : string) :
  runningInDocker config = false ->
  ensureBrowser (ext w) = (Ok tt, e1) ->
  execSync "npm install @ffmpeg-installer/ffmpeg@1.1.0 --no-save" e1
    = (Ok installed, e2) ->
  execSync "npm list @remotion/renderer" e2 = (Ok version, e3) ->
  includes "4.0.286" version = false ->
  execSync_calls (trace (snd (init config w)))
    = execSync_calls (trace w)
      ++ ["npm install @ffmpeg-installer/ffmpeg@1.1.0 --no-save";
          "npm list @remotion/renderer"]
  /\ In (LogEntry Warn (Some (Error "Incorrect @remotion version installed"))
                  "GPU setup failed, falling back to CPU")
        (log (snd (init config w)))
  /\ fst (init config w)
     = map_result (fun b => new b config)
         (fst (bundle (musicDirPath config) (entryPoint config) e3)).
Proof.
  intros Hdocker Hbrowser Hinstall Hlist Hversion.
  unfold init, setup_gpu, exec. run_monad.
  rewrite Hbrowser, Hdocker. simpl. rewrite Hinstall. simpl.
  rewrite Hlist. simpl. rewrite Hversion. simpl.
  destruct (bundle _ _ e3) as [[b|err] e4]; simpl;
    (split; [|split; [|reflexivity]]).
  - unfold execSync_calls. rewrite !flat_map_app. simpl.
    rewrite app_nil_r, <- !app_assoc. reflexivity.
  - apply in_or_app. left. apply in_or_app. right. left. reflexivity.
  - unfold execSync_calls. rewrite !flat_map_app. simpl.
    rewrite app_nil_r, <- !app_assoc. reflexivity.
  - apply in_or_app. right. left. reflexivity.
Qed.

(** X3. When [selectComposition] throws, [render] throws the same error and
    stops there: nothing is rendered and nothing is logged. *)
Theorem render_without_composition (this : Remotion) (data : Props)
    (id : string) (w : world) (err : error) (e1 : Ext) :
  selectComposition (bundled this) COMPONENT_TO_RENDER data (ext w)
    = (Throw err, e1) ->
  fst (render this data id w) = Throw err
  /\ renderMedia_calls (trace (snd (render this data id w)))
     = renderMedia_calls (trace w)
  /\ log (snd (render this data id w)) = log w.
Proof.
  intros Hsel. unfold render. run_monad. rewrite Hsel. simpl.
  split; [reflexivity|]. split; [|reflexivity].
  unfold renderMedia_calls. rewrite flat_map_app. simpl. apply app_nil_r.
Qed.

(** X4. A run of [render] calls [renderMedia] at most twice, and returns only
    if one of its [renderMedia] calls returned. *)
Theorem render_renders_at_most_twice (this : Remotion) (data : Props)
    (id : string) :
  traced (render this data id)
    (fun r evs =>
       (length (renderMedia_calls evs) <= 2)%nat
       /\ (r = Ok tt ->
           exists options, In (Called (RenderMedia options) (Ok VUnit)) evs)).
Proof.
  intros w. unfold render, fallbackCPURender, call_renderMedia. run_monad.
  destruct (selectComposition _ _ _ (ext w)) as [[composition|err] e1]; simpl.
  2: { eexists. split; [reflexivity|]. simpl. split; [lia | discriminate]. }
  destruct (renderMedia _ e1) as [[[]|err] e2]; simpl.
  { rewrite <- !app_assoc. eexists. split; [reflexivity|]. simpl.
    split; [lia|]. intros _. eexists. right. left. reflexivity. }
  destruct (renderMedia _ e2) as [[[]|err'] e3]; simpl;
    rewrite <- !app_assoc; eexists; (split; [reflexivity|]); simpl;
    (split; [lia|]); [|discriminate].
  intros _. eexists. right. right. left. reflexivity.
Qed.

(** X5. The concurrency of the CPU fallback is a whole number, at least 1 and,
    above 1, at most half the configured concurrency. *)
Theorem fallback_concurrency_whole (q : Q) :
  exists z : Z,
    fallback_concurrency (Fin q) = of_Z z
    /\ 1 <= z
    /\ (z = 1 \/ (inject_Z z <= q * (1 # 2))%Q).
Proof.
  rewrite fallback_concurrency_Fin.
  destruct (Qle_bool (inject_Z (Qfloor (q / 2))) 1) eqn:E.
  - exists 1. split; [reflexivity|]. split; [lia | left; reflexivity].
  - exists (Qfloor (q / 2)). split; [reflexivity|].
    apply Qle_bool_false in E. split.
    + change 1%Q with (inject_Z 1) in E. rewrite <- Zlt_Qlt in E. lia.
    + right. apply half_floor_le.
Qed.

End RemotionMore.

(** ** FFMpeg, further *)

Section FFMpegMore.
Context `{Platform}.
Import FFMpeg.

(** X7. [init] touches the flag only when [nvidia-smi] reports a T4: when the
    probe throws or reports another GPU the flag keeps the value it had
    before [init], set or not. *)
Theorem init_leaves_flag_without_T4 (w : world) (installer : Installer)
    (e1 : Ext) :
  importFfmpegInstaller (ext w) = (Ok installer, e1) ->
  (forall err e2,
     execSync "nvidia-smi --query-gpu=name --format=csv,noheader" e1
       = (Throw err, e2) ->
     gpuAccelerated (snd (init w)) = gpuAccelerated w)
  /\ (forall out e2,
        execSync "nvidia-smi --query-gpu=name --format=csv,noheader" e1
          = (Ok out, e2) ->
        includes "T4" (trim out) = false ->
        gpuAccelerated (snd (init w)) = gpuAccelerated w
        /\ execSync_calls (trace (snd (init w)))
           = execSync_calls (trace w)
             ++ ["nvidia-smi --query-gpu=name --format=csv,noheader"]).
Proof.
  intros Himp. split.
  - intros err e2 Hsmi. unfold init, detect_gpu, exec. run_monad.
    rewrite Himp. simpl. rewrite Hsmi. reflexivity.
  - intros out e2 Hsmi Ht4. unfold init, detect_gpu, exec. run_monad.
    rewrite Himp. simpl. rewrite Hsmi. simpl. rewrite Ht4. simpl.
    split; [reflexivity|].
    unfold execSync_calls. rewrite !flat_map_app. simpl.
    rewrite !app_nil_r. reflexivity.
Qed.

(** X9. When the ffmpeg installer cannot be imported, [init] rejects with that
    error before anything else happens: no path is set, no probe is run,
    nothing is logged and the flag is as it was. *)
Theorem init_without_installer (w : world) (err : error) (e1 : Ext) :
  importFfmpegInstaller (ext w) = (Throw err, e1) ->
  init w
  = (Throw err,
     {| ext := e1;
        log := log w;
        trace := trace w ++ [Called ImportFfmpegInstaller (Throw err)];
        gpuAccelerated := gpuAccelerated w |}).
Proof.
  intros Himp. unfold init. run_monad. rewrite Himp. reflexivity.
Qed.

Lemma datauri_settled (evs : list ffmpeg_event) (p : promise string)
    (w : world) (chunks : list bytes) :
  p <> Pending ->
  fst (fst (fold_left on_event_datauri evs ((p, w), chunks))) = p.
Proof.
  revert chunks. induction evs as [|ev rest IH]; intros chunks Hp;
    [reflexivity|].
  simpl. destruct ev; simpl; try (apply IH; exact Hp);
    destruct p; try congruence; apply IH; discriminate.
Qed.

Lemma datauri_collects (chunks : list bytes) (evs : list ffmpeg_event)
    (w : world) (collected : list bytes) :
  fold_left on_event_datauri (stream_chunks chunks ++ evs)
            ((Pending, w), collected)
  = fold_left on_event_datauri evs ((Pending, w), collected ++ chunks).
Proof.
  revert collected. induction chunks as [|chunk rest IH]; intros collected.
  - simpl. rewrite app_nil_r. reflexivity.
  - simpl. rewrite IH, <- app_assoc. reflexivity.
Qed.

(** X10. The promise of [createMp3DataUri] resolves, at the end of the output
    stream, with the data URI of the chunks received so far, in order, and
    rejects with the first error of the command or of the stream; what the
    engine emits afterwards changes nothing, and without an end or an error
    the promise stays pending. *)
Theorem createMp3DataUri_settles (this : FFMpeg) (audio : bytes) (w : world)
    (chunks : list bytes) (rest : list ffmpeg_event) :
  let emitted :=
    fst (ffmpegPipe (mp3_command (gpuAccelerated w) audio) (ext w)) in
  (emitted = stream_chunks chunks ++ OnStreamEnd :: rest ->
   fst (createMp3DataUri this audio w)
   = Resolved ("data:audio/mp3;base64," +:+ base64 (List.concat chunks)))
  /\ (forall err,
        emitted = stream_chunks chunks ++ OnError err :: rest
        \/ emitted = stream_chunks chunks ++ OnStreamError err :: rest ->
        fst (createMp3DataUri this audio w) = Rejected err)
  /\ (emitted = stream_chunks chunks ->
      fst (createMp3DataUri this audio w) = Pending).
Proof.
  intros emitted. subst emitted. unfold createMp3DataUri, run_pipe.
  destruct (ffmpegPipe _ _) as [evs e']. simpl.
  split; [|split].
  - intros ->. rewrite datauri_collects. simpl.
    apply datauri_settled. discriminate.
  - intros err [-> | ->]; rewrite datauri_collects; simpl;
      apply datauri_settled; discriminate.
  - intros ->. rewrite <- (app_nil_r (stream_chunks chunks)).
    rewrite datauri_collects. reflexivity.
Qed.

End FFMpegMore.

(** ** Whisper, further *)

Lemma Qfloor_monotone_round (x y : Q) :
  (x <= y)%Q -> Qfloor (x + (1 # 2)) <= Qfloor (y + (1 # 2)).
Proof. intros Hxy. apply Qfloor_resp_le. lra. Qed.

Lemma double_backslashes_plain (s : string) :
  (forall c, In c (list_ascii_of_string s) -> c <> BACKSLASH) ->
  double_backslashes s = s.
Proof.
  induction s as [|c rest IH]; intros Hplain; [reflexivity|].
  simpl. destruct (Ascii.eqb c BACKSLASH) eqn:E.
  - apply Ascii.eqb_eq in E. exfalso. apply (Hplain c); [left; reflexivity | exact E].
  - f_equal. apply IH. intros c' Hin. apply Hplain. right. exact Hin.
Qed.

Lemma double_backslashes_injective (s1 s2 : string) :
  double_backslashes s1 = double_backslashes s2 -> s1 = s2.
Proof.
  revert s2. induction s1 as [|c1 rest1 IH]; intros [|c2 rest2] Heq;
    simpl in Heq.
  - reflexivity.
  - destruct (Ascii.eqb c2 BACKSLASH); discriminate Heq.
  - destruct (Ascii.eqb c1 BACKSLASH); discriminate Heq.
  - destruct (Ascii.eqb c1 BACKSLASH) eqn:E1;
      destruct (Ascii.eqb c2 BACKSLASH) eqn:E2.
    + injection Heq as -> _ Hrest. f_equal. apply IH. exact Hrest.
    + injection Heq as -> _. congruence.
    + injection Heq as -> _. congruence.
    + injection Heq as -> Hrest. f_equal. apply IH. exact Hrest.
Qed.

Section WhisperMore.
Context `{Platform}.
Import Whisper.

(** X11. In Docker [init] does nothing but build the instance: no command is
    run, nothing is logged. *)
Theorem Whisper_init_in_docker (config : Config) (w : world) :
  runningInDocker config = true ->
  init config w = (Ok (new config), w).
Proof.
  intros Hdocker. unfold init. rewrite Hdocker. run_monad.
  destruct w; reflexivity.
Qed.

(** X12. Outside Docker [init] returns only after [pip install] returned and the
    torch check printed [True] (white space aside); any other output of the
    check makes it throw that CUDA is not available. *)
Theorem Whisper_init_needs_cuda (config : Config) (w : world) :
  runningInDocker config = false ->
  (forall this,
     fst (init config w) = Ok this ->
     this = new config
     /\ exists e1 e2 installed out,
          execSync "pip install faster-whisper torch torchaudio --upgrade" (ext w)
            = (Ok installed, e1)
          /\ execSync ("python -c " +:+
                       quoted "import torch; print(torch.cuda.is_available())") e1
             = (Ok out, e2)
          /\ trim out = "True")
  /\ (forall e1 e2 installed out,
        execSync "pip install faster-whisper torch torchaudio --upgrade" (ext w)
          = (Ok installed, e1) ->
        execSync ("python -c " +:+
                  quoted "import torch; print(torch.cuda.is_available())") e1
          = (Ok out, e2) ->
        trim out <> "True" ->
        fst (init config w)
        = Throw (Error "CUDA is not available. Please ensure you are using a GPU runtime in Colab.")).
Proof.
  intros Hdocker. split.
  - intros this. unfold init, exec. rewrite Hdocker. run_monad.
    destruct (execSync _ (ext w)) as [[installed|err] e1] eqn:Hpip; simpl;
      [|discriminate].
    destruct (execSync _ e1) as [[out|err] e2] eqn:Hcheck; simpl;
      [|discriminate].
    destruct (String.eqb (trim out) "True") eqn:Htrue; simpl; [|discriminate].
    intros Hok. injection Hok as <-. split; [reflexivity|].
    exists e1, e2, installed, out.
    split; [reflexivity|]. split; [exact Hcheck|].
    apply String.eqb_eq. exact Htrue.
  - intros e1 e2 installed out Hpip Hcheck Hout.
    unfold init, exec. rewrite Hdocker. run_monad.
    rewrite Hpip. simpl. rewrite Hcheck. simpl.
    destruct (String.eqb (trim out) "True") eqn:Htrue; simpl; [|reflexivity].
    apply String.eqb_eq in Htrue. contradiction.
Qed.

(** X13. The transcription script is run only once it is on disk: when writing
    it fails, [CreateCaption] rethrows the error without running python;
    when the second copy finds no script after writing it, it throws
    "Failed to create transcription script at <path>" without running
    python either. *)
Theorem CreateCaption_runs_only_written_script (this : Whisper)
    (audioPath : string) (w : world) :
  let scriptPath :=
    path_join [whisperInstallPath (config this); "transcribe_gpu.py"] in
  (forall err e1,
     writeFile scriptPath (pythonScript this audioPath) (ext w) = (Throw err, e1) ->
     fst (CreateCaption this audioPath w) = Throw err
     /\ execSync_calls (trace (snd (CreateCaption this audioPath w)))
        = execSync_calls (trace w))
  /\ (forall e0 e1 e2,
        ensureDir (whisperInstallPath (config this)) (ext w) = (Ok tt, e0) ->
        writeFile scriptPath (pythonScript_2 this audioPath) e0 = (Ok tt, e1) ->
        existsSync scriptPath e1 = (false, e2) ->
        fst (CreateCaption_2 this audioPath w)
        = Throw (Error ("Failed to create transcription script at " +:+ scriptPath))
        /\ execSync_calls (trace (snd (CreateCaption_2 this audioPath w)))
           = execSync_calls (trace w)).
Proof.
  intros scriptPath. split.
  - intros err e1 Hwrite. unfold CreateCaption, fs_writeFile, exec. run_monad.
    fold scriptPath. rewrite Hwrite. simpl. split; [reflexivity|].
    unfold execSync_calls. rewrite flat_map_app. simpl. apply app_nil_r.
  - intros e0 e1 e2 Hdir Hwrite Hexists.
    unfold CreateCaption_2, fs_ensureDir, fs_writeFile, fs_existsSync, exec.
    run_monad. rewrite Hdir. simpl. fold scriptPath. rewrite Hwrite. simpl.
    rewrite Hexists. simpl. split; [reflexivity|].
    unfold execSync_calls. rewrite !flat_map_app. simpl.
    rewrite !app_nil_r. reflexivity.
Qed.

(** X14. Captions keep the order of time: a word that starts no later than it
    ends gives a caption whose [startMs] is no later than its [endMs], both
    whole numbers, and a start that is not negative stays so. *)
Theorem caption_times_ordered (word : Word) (s e : Q) :
  word_start word = Fin s ->
  word_end word = Fin e ->
  (s <= e)%Q ->
  exists zs ze : Z,
    startMs (caption_of_word word) = of_Z zs
    /\ endMs (caption_of_word word) = of_Z ze
    /\ zs <= ze
    /\ ((0 <= s)%Q -> 0 <= zs).
Proof.
  intros Hs He Hse. unfold caption_of_word. simpl. rewrite Hs, He. simpl.
  exists (Qfloor (s + (1 # 2))), (Qfloor (e + (1 # 2))).
  split; [reflexivity|]. split; [reflexivity|]. split.
  - apply Qfloor_monotone_round. exact Hse.
  - intros Hpos.
    assert (Hz : Qfloor 0 <= Qfloor (s + (1 # 2))) by (apply Qfloor_resp_le; lra).
    exact Hz.
Qed.

(** X15. The path escaping of the second copy loses nothing: two audio paths
    that differ are written differently into the script, and a path without
    backslash is written as it is. *)
Theorem escaped_paths_distinct (p1 p2 : string) :
  (double_backslashes p1 = double_backslashes p2 -> p1 = p2)
  /\ ((forall c, In c (list_ascii_of_string p1) -> c <> BACKSLASH) ->
      double_backslashes p1 = p1).
Proof.
  split.
  - apply double_backslashes_injective.
  - apply double_backslashes_plain.
Qed.

End WhisperMore.

(** ** Kokoro, further *)

Lemma char_codes_length (t : string) :
  Z.of_nat (length (char_codes t)) = js_length t.
Proof.
  unfold char_codes, js_length. rewrite length_map. f_equal.
  induction t as [|c rest IH]; simpl; [reflexivity | f_equal; exact IH].
Qed.

Lemma js_length_zero (t : string) : js_length t = 0 <-> t = EmptyString.
Proof.
  unfold js_length. destruct t; simpl; split; intros Ht;
    try reflexivity; try discriminate; lia.
Qed.

Lemma Qtruncate_monotone (x y : Q) :
  (x <= y)%Q -> Qtruncate x <= Qtruncate y.
Proof.
  intros Hxy.
  destruct (Qlt_le_dec x 0) as [Hx|Hx]; destruct (Qlt_le_dec y 0) as [Hy|Hy].
  - rewrite !Qtruncate_nonpos by lra. apply Qceiling_resp_le. exact Hxy.
  - rewrite (Qtruncate_nonpos x) by lra. rewrite (Qtruncate_nonneg y) by exact Hy.
    assert (H1 : Qceiling x <= Qceiling 0) by (apply Qceiling_resp_le; lra).
    assert (H2 : Qfloor 0 <= Qfloor y) by (apply Qfloor_resp_le; exact Hy).
    change (Qceiling 0) with 0 in H1. change (Qfloor 0) with 0 in H2. lia.
  - lra.
  - rewrite !Qtruncate_nonneg by lra. apply Qfloor_resp_le. exact Hxy.
Qed.

Section MonadRuns.
Context `{Carriers}.

Lemma bind_ok {A B : Type} (m : M A) (k : A -> M B) (w w1 : world) (a : A) :
  m w = (Ok a, w1) -> bind m k w = k a w1.
Proof. intros Hm. unfold bind. rewrite Hm. reflexivity. Qed.

Lemma bind_throw {A B : Type} (m : M A) (k : A -> M B) (w w1 : world)
    (e : error) :
  m w = (Throw e, w1) -> bind m k w = (Throw e, w1).
Proof. intros Hm. unfold bind. rewrite Hm. reflexivity. Qed.

Lemma try_catch_ok {A : Type} (body : M A) (h : error -> M A) (w w1 : world)
    (a : A) :
  body w = (Ok a, w1) -> try_catch body h w = (Ok a, w1).
Proof. intros Hb. unfold try_catch. rewrite Hb. reflexivity. Qed.

Lemma try_catch_throw {A : Type} (body : M A) (h : error -> M A)
    (w w1 : world) (e : error) :
  body w = (Throw e, w1) -> try_catch body h w = h e w1.
Proof. intros Hb. unfold try_catch. rewrite Hb. reflexivity. Qed.

End MonadRuns.

Section KokoroMore.
Context `{Platform}.
Import Kokoro.

Lemma postprocessAudio_ok (outputs : option Outputs) (buffer : bytes)
    (w : world) :
  postprocess outputs = Ok buffer ->
  postprocessAudio outputs w = (Ok buffer, w).
Proof.
  intros Hpost. unfold postprocessAudio, try_catch, lift_result.
  rewrite Hpost. reflexivity.
Qed.

(** The tensor [generate] feeds the session with. *)
Lemma input_tensor_shape (t : string) :
  {| tensor_type := "int64";
     tensor_data := char_codes t;
     tensor_dims := [1; Z.of_nat (length (char_codes t))] |}
  = {| tensor_type := "int64";
       tensor_data := char_codes t;
       tensor_dims := [1; js_length t] |}.
Proof. rewrite char_codes_length. reflexivity. Qed.

(** X16. A run of [generate] makes at most one external call: [session.run] on
    the CUDA provider, fed with one int64 tensor of shape [1, n] holding the
    n character codes of the text; it makes none when the session is missing
    or the text is empty. *)
Theorem generate_runs_session_once (this : Kokoro) (text : option string)
    (voice : string) :
  traced (generate this text voice)
    (fun _ evs =>
       evs = []
       \/ exists s t outcome,
            session this = Some s /\ text = Some t /\ t <> EmptyString
            /\ evs = [Called
                        (SessionRun s
                           {| tensor_type := "int64";
                              tensor_data := char_codes t;
                              tensor_dims := [1; js_length t] |}
                           ["cuda"])
                        outcome]).
Proof.
  intros w. unfold generate, call_run, postprocessAudio, validate_outputs.
  run_monad.
  destruct (session this) as [s|] eqn:Hs; simpl.
  2: { destruct text; simpl; exists []; rewrite app_nil_r; auto. }
  destruct text as [t|]; simpl.
  2: { exists []. rewrite app_nil_r. auto. }
  destruct (js_length t =? 0)%Z eqn:Hlen; simpl.
  { exists []. rewrite app_nil_r. auto. }
  apply Z.eqb_neq in Hlen. rewrite input_tensor_shape.
  assert (Ht : t <> EmptyString).
  { intros Ht. apply Hlen. apply js_length_zero. exact Ht. }
  destruct (sessionRun s _ ["cuda"] (ext w)) as [r e1]. simpl.
  assert (Hone : forall outcome evs,
            evs = [Called
                     (SessionRun s
                        {| tensor_type := "int64";
                           tensor_data := char_codes t;
                           tensor_dims := [1; js_length t] |}
                        ["cuda"])
                     outcome] ->
            evs = []
            \/ exists s' t' outcome',
                 Some s = Some s' /\ Some t = Some t' /\ t' <> EmptyString
                 /\ evs = [Called
                             (SessionRun s'
                                {| tensor_type := "int64";
                                   tensor_data := char_codes t';
                                   tensor_dims := [1; js_length t'] |}
                                ["cuda"])
                             outcome']).
  { intros outcome evs ->. right. exists s, t, outcome. auto. }
  destruct r as [[[[[[[|first rest]|]]|]]|]|err]; simpl;
    try (eexists; split; [reflexivity | eapply Hone; reflexivity]).
  destruct (write_samples _ _ _); simpl;
    [destruct (get_property "sample_rate" (config this)); simpl|];
    eexists; (split; [reflexivity | eapply Hone; reflexivity]).
Qed.

Lemma generate_run_ok (this : Kokoro) (t voice : string) (w : world)
    (s : Session) (samples : list number) (e1 : Ext)
    (sample_rate : option json) :
  session this = Some s ->
  t <> EmptyString ->
  sessionRun s
    {| tensor_type := "int64";
       tensor_data := char_codes t;
       tensor_dims := [1; js_length t] |}
    ["cuda"] (ext w)
    = (Ok (Some {| audio := Some {| data := Some samples |} |}), e1) ->
  samples <> [] ->
  get_property "sample_rate" (config this) = Ok sample_rate ->
  exists audioData,
    fst (generate this (Some t) voice w)
    = Ok (audioData, audio_length audioData sample_rate)
    /\ length audioData = (2 * length samples)%nat
    /\ ext (snd (generate this (Some t) voice w)) = e1.
Proof.
  intros Hs Ht Hrun Hsamples Hrate.
  destruct (postprocess_ok samples Hsamples) as (audioData & Hpost & Hlen & _).
  exists audioData.
  assert (Hzero : (js_length t =? 0)%Z = false).
  { apply Z.eqb_neq. intros Hz. apply js_length_zero in Hz. contradiction. }
  assert (Hgen : exists w',
            generate this (Some t) voice w
            = (Ok (audioData, audio_length audioData sample_rate), w')
            /\ ext w' = e1).
  { eexists. split.
    - unfold generate.
      erewrite bind_ok by reflexivity.
      apply try_catch_ok.
      rewrite Hs. erewrite bind_ok by reflexivity.
      unfold preprocessText. rewrite Hzero.
      erewrite bind_ok by reflexivity.
      rewrite input_tensor_shape.
      erewrite bind_ok
        by (unfold call_run, invoke; simpl; rewrite Hrun; reflexivity).
      erewrite bind_ok by reflexivity.
      erewrite bind_ok by (apply postprocessAudio_ok; exact Hpost).
      erewrite bind_ok by reflexivity.
      erewrite bind_ok by reflexivity.
      unfold lift_result at 1. unfold bind at 1. rewrite Hrate.
      reflexivity.
    - reflexivity. }
  destruct Hgen as (w' & Hgen & Hext). rewrite Hgen. simpl.
  split; [reflexivity|]. split; [exact Hlen | exact Hext].
Qed.

(** X17. With a session, a non-empty text, samples from the model and a
    configuration one can read the sample rate of, [generate] returns: the
    audio has two bytes per sample and the length is computed from it. *)
Theorem generate_returns_audio (this : Kokoro) (t voice : string) (w : world)
    (s : Session) (samples : list number) (e1 : Ext)
    (sample_rate : option json) :
  session this = Some s ->
  t <> EmptyString ->
  sessionRun s
    {| tensor_type := "int64";
       tensor_data := char_codes t;
       tensor_dims := [1; js_length t] |}
    ["cuda"] (ext w)
    = (Ok (Some {| audio := Some {| data := Some samples |} |}), e1) ->
  samples <> [] ->
  get_property "sample_rate" (config this) = Ok sample_rate ->
  exists audioData,
    fst (generate this (Some t) voice w)
    = Ok (audioData, audio_length audioData sample_rate)
    /\ length audioData = (2 * length samples)%nat
    /\ ext (snd (generate this (Some t) voice w)) = e1.
Proof. exact (generate_run_ok this t voice w s samples e1 sample_rate). Qed.

(** X18. The guards of [generate]. Without a session it throws "Inference
    session not initialized" before looking at the text.  When the session
    returns no outputs or no [audio] output it throws "Invalid model
    outputs"; when the audio has no data or no sample it throws "Empty
    audio data received", logged by [postprocessAudio] and by [generate]. *)
Theorem generate_guards (this : Kokoro) (t voice : string) (w : world) :
  (session this = None ->
   fst (generate this (Some t) voice w)
   = Throw (Error "Inference session not initialized")
   /\ trace (snd (generate this (Some t) voice w)) = trace w)
  /\ (forall s outputs e1,
        session this = Some s -> t <> EmptyString ->
        sessionRun s
          {| tensor_type := "int64";
             tensor_data := char_codes t;
             tensor_dims := [1; js_length t] |}
          ["cuda"] (ext w) = (Ok outputs, e1) ->
        (outputs = None \/ outputs = Some {| audio := None |} ->
         fst (generate this (Some t) voice w)
         = Throw (Error "Invalid model outputs"))
        /\ (outputs = Some {| audio := Some {| data := None |} |}
            \/ outputs = Some {| audio := Some {| data := Some [] |} |} ->
            fst (generate this (Some t) voice w)
            = Throw (Error "Empty audio data received")
            /\ In (LogEntry Err (Some (Error "Empty audio data received"))
                            "Audio postprocessing failed")
                  (log (snd (generate this (Some t) voice w)))
            /\ In (LogEntry Err (Some (Error "Empty audio data received"))
                            "Failed to generate audio")
                  (log (snd (generate this (Some t) voice w))))).
Proof.
  split.
  - intros Hs. unfold generate. run_monad. rewrite Hs. simpl.
    split; reflexivity.
  - intros s outputs e1 Hs Ht Hrun.
    assert (Hzero : (js_length t =? 0)%Z = false).
    { apply Z.eqb_neq. intros Hz. apply js_length_zero in Hz. contradiction. }
    split.
    + intros Hout.
      unfold generate, call_run, postprocessAudio, validate_outputs. run_monad.
      rewrite Hs. simpl. rewrite Hzero. simpl.
      rewrite input_tensor_shape, Hrun. simpl.
      destruct Hout as [-> | ->]; reflexivity.
    + intros Hout.
      unfold generate, call_run, postprocessAudio, validate_outputs. run_monad.
      rewrite Hs. simpl. rewrite Hzero. simpl.
      rewrite input_tensor_shape, Hrun. simpl.
      destruct Hout as [-> | ->]; simpl;
        (split; [reflexivity|]);
        (split; apply in_or_app; [left; apply in_or_app|]; right; left; reflexivity).
Qed.

Lemma write_samples_bytes (audioData : list number) (index : nat)
    (buffer buffer' : bytes) :
  Forall (fun b => 0 <= b < 256) buffer ->
  write_samples audioData index buffer = Ok buffer' ->
  Forall (fun b => 0 <= b < 256) buffer'.
Proof.
  revert index buffer. induction audioData as [|value rest IH];
    intros index buffer Hbytes Hwrite; simpl in Hwrite.
  - injection Hwrite as <-. exact Hbytes.
  - unfold setInt16_le in Hwrite.
    destruct (index * 2 + 2 <=? length buffer)%nat; [|discriminate Hwrite].
    apply IH in Hwrite; [exact Hwrite|].
    pose proof (ToUint16_range (scale_and_clamp value)) as Hu.
    apply Forall_insert; [apply Forall_insert; [exact Hbytes|]|].
    + split; [apply Z.div_pos; lia | apply Z.div_lt_upper_bound; lia].
    + apply Z.mod_pos_bound. lia.
Qed.

(** X19. The buffer [postprocessAudio] returns is made of bytes, as many as
    twice a positive number of samples. *)
Theorem postprocessAudio_returns_bytes (outputs : option Outputs) (w : world)
    (buffer : bytes) :
  fst (postprocessAudio outputs w) = Ok buffer ->
  Forall (fun b => 0 <= b < 256) buffer
  /\ exists n : nat, (0 < n)%nat /\ length buffer = (2 * n)%nat.
Proof.
  rewrite postprocessAudio_run. intros Hpost. split.
  - unfold postprocess in Hpost.
    destruct outputs as [[audio]|]; [|discriminate Hpost].
    destruct audio as [[data]|]; [|discriminate Hpost].
    destruct data as [[|first rest]|]; try discriminate Hpost.
    apply write_samples_bytes in Hpost; [exact Hpost|].
    unfold ArrayBuffer. apply Forall_replicate. lia.
  - destruct (postprocess_ok_inv outputs buffer Hpost) as (samples & -> & Hlen).
    unfold byteLength in Hlen.
    destruct samples as [|first rest]; [discriminate Hpost|].
    exists (length (first :: rest)). split; [simpl; lia | lia].
Qed.

(** X20. The conversion to 16-bit PCM keeps the order of the samples and stays
    in range: a sample that is not above another is stored as a value that
    is not above the other's, and every stored value lies in
    [-32768, 32767]. *)
Theorem stored_samples_monotone (q1 q2 : Q) :
  (q1 <= q2)%Q ->
  ToInt16 (scale_and_clamp (Fin q1)) <= ToInt16 (scale_and_clamp (Fin q2))
  /\ -32768 <= ToInt16 (scale_and_clamp (Fin q1)) <= 32767.
Proof.
  intros Hq.
  assert (Hrange : forall q, -32768 <= ToInt16 (scale_and_clamp (Fin q)) <= 32767).
  { intros q. destruct (stored_sample_Fin q) as (Hlo & Hhi & Hmid).
    destruct (Qlt_le_dec (-32768) (q * 32767)) as [H1|H1];
      [|rewrite (Hlo H1); lia].
    destruct (Qlt_le_dec (q * 32767) 32767) as [H2|H2];
      [|rewrite (Hhi H2); lia].
    rewrite (Hmid H1 H2).
    apply Qtruncate_bounds; [lia| |].
    - change (inject_Z (-32768)) with (-32768)%Q. lra.
    - change (inject_Z 32767) with 32767%Q. lra. }
  split; [|apply Hrange].
  destruct (stored_sample_Fin q1) as (Hlo1 & Hhi1 & Hmid1).
  destruct (stored_sample_Fin q2) as (Hlo2 & Hhi2 & Hmid2).
  destruct (Qlt_le_dec (-32768) (q1 * 32767)) as [L1|L1].
  2: { rewrite (Hlo1 L1). apply Hrange. }
  destruct (Qlt_le_dec (q2 * 32767) 32767) as [U2|U2].
  2: { rewrite (Hhi2 U2). apply Hrange. }
  rewrite Hmid1 by lra. rewrite Hmid2 by lra.
  apply Qtruncate_monotone. lra.
Qed.

End KokoroMore.

(** ** Kokoro [init], further *)

Section TracedRules.
Context `{Carriers}.

Lemma traced_bind {A B : Type} (m : M A) (k : A -> M B)
    (R1 : result A -> list event -> Prop)
    (R2 : A -> result B -> list event -> Prop) :
  traced m R1 -> (forall a, traced (k a) (R2 a)) ->
  traced (bind m k)
    (fun r evs =>
       (exists e, r = Throw e /\ R1 (Throw e) evs)
       \/ (exists a evs1 evs2,
             evs = evs1 ++ evs2 /\ R1 (Ok a) evs1 /\ R2 a r evs2)).
Proof.
  intros Hm Hk w. unfold bind.
  destruct (Hm w) as (evs1 & Ht1 & Hr1).
  destruct (m w) as [[a|e] w1]; simpl in *.
  - destruct (Hk a w1) as (evs2 & Ht2 & Hr2).
    exists (evs1 ++ evs2). rewrite Ht2, Ht1, app_assoc.
    split; [reflexivity|]. right. exists a, evs1, evs2. auto.
  - exists evs1. split; [exact Ht1|]. left. exists e. auto.
Qed.

Lemma traced_try_catch {A : Type} (body : M A) (h : error -> M A)
    (R1 : result A -> list event -> Prop)
    (R2 : error -> result A -> list event -> Prop) :
  traced body R1 -> (forall e, traced (h e) (R2 e)) ->
  traced (try_catch body h)
    (fun r evs =>
       (exists a, r = Ok a /\ R1 (Ok a) evs)
       \/ (exists e evs1 evs2,
             evs = evs1 ++ evs2 /\ R1 (Throw e) evs1 /\ R2 e r evs2)).
Proof.
  intros Hb Hh w. unfold try_catch.
  destruct (Hb w) as (evs1 & Ht1 & Hr1).
  destruct (body w) as [[a|e] w1]; simpl in *.
  - exists evs1. split; [exact Ht1|]. left. exists a. auto.
  - destruct (Hh e w1) as (evs2 & Ht2 & Hr2).
    exists (evs1 ++ evs2). rewrite Ht2, Ht1, app_assoc.
    split; [reflexivity|]. right. exists e, evs1, evs2. auto.
Qed.

Lemma calls_only_no_exec {A : Type} (m : M A) (w : world) :
  calls_only (fun c => forall cmd, c <> ExecSync cmd) m ->
  execSync_calls (trace (snd (m w))) = execSync_calls (trace w).
Proof.
  intros Hm. destruct (Hm w) as (evs & -> & Hevs).
  unfold execSync_calls. rewrite flat_map_app.
  rewrite <- (app_nil_r (flat_map _ (trace w))) at 2. f_equal.
  induction Hevs as [|ev rest Hev _ IH]; [reflexivity|].
  simpl. rewrite IH. destruct (ev_call ev); try reflexivity.
  exfalso. exact (Hev cmd eq_refl).
Qed.

Lemma log_grows_silent {A : Type} (m : M A) :
  (forall w, log (snd (m w)) = log w) -> log_grows m.
Proof. intros Hm w. exists []. rewrite app_nil_r. apply Hm. Qed.

Lemma log_grows_logger (l : level) (err : option error) (msg : string) :
  log_grows (logger l err msg).
Proof. intros w. eexists. reflexivity. Qed.

Lemma log_grows_invoke {A : Type} (c : call) (inj : A -> value)
    (oracle : Ext -> result A * Ext) : log_grows (invoke c inj oracle).
Proof.
  apply log_grows_silent. intros w. unfold invoke.
  destruct (oracle (ext w)). reflexivity.
Qed.

Lemma log_grows_bind {A B : Type} (m : M A) (k : A -> M B) :
  log_grows m -> (forall a, log_grows (k a)) -> log_grows (bind m k).
Proof.
  intros Hm Hk w. unfold bind. destruct (Hm w) as (l1 & Hl1).
  destruct (m w) as [[a|e] w1]; simpl in *.
  - destruct (Hk a w1) as (l2 & Hl2). exists (l1 ++ l2).
    rewrite Hl2, Hl1, app_assoc. reflexivity.
  - exists l1. exact Hl1.
Qed.

Lemma log_grows_try_catch {A : Type} (body : M A) (h : error -> M A) :
  log_grows body -> (forall e, log_grows (h e)) -> log_grows (try_catch body h).
Proof.
  intros Hb Hh w. unfold try_catch. destruct (Hb w) as (l1 & Hl1).
  destruct (body w) as [[a|e] w1]; simpl in *.
  - exists l1. exact Hl1.
  - destruct (Hh e w1) as (l2 & Hl2). exists (l1 ++ l2).
    rewrite Hl2, Hl1, app_assoc. reflexivity.
Qed.

Lemma log_grows_keeps {A : Type} (m : M A) (w : world) (line : log_entry) :
  log_grows m -> In line (log w) -> In line (log (snd (m w))).
Proof.
  intros Hm Hin. destruct (Hm w) as (lines & ->).
  apply in_or_app. left. exact Hin.
Qed.

End TracedRules.

Ltac log_grows_steps :=
  repeat lazymatch goal with
  | |- log_grows (ret _) => apply log_grows_silent; reflexivity
  | |- log_grows (throw _) => apply log_grows_silent; reflexivity
  | |- log_grows (lift_result _) => apply log_grows_silent; reflexivity
  | |- log_grows (set_gpuAccelerated _) => apply log_grows_silent; reflexivity
  | |- log_grows (logger _ _ _) => apply log_grows_logger
  | |- log_grows (when ?c _) => destruct c; simpl
  | |- log_grows (try_catch _ _) => apply log_grows_try_catch; [|intros ?]
  | |- log_grows (bind _ _) => apply log_grows_bind; [|intros ?]
  | |- log_grows (let _ := _ in _) => cbv zeta
  | |- log_grows (match ?x with _ => _ end) => destruct x
  | |- log_grows (invoke_total _ _ _) => apply log_grows_invoke
  | |- log_grows (invoke _ _ _) => apply log_grows_invoke
  end.

Ltac find_line := rewrite ?in_app_iff; simpl; tauto.

Section KokoroInitMore.
Context `{Platform}.
Import Kokoro.

Lemma try_catch_bind_ok {A B : Type} (m : M A) (k : A -> M B)
    (h : error -> M B) (w w1 : world) (a : A) :
  m w = (Ok a, w1) -> try_catch (bind m k) h w = try_catch (k a) h w1.
Proof. intros Hm. unfold try_catch, bind. rewrite Hm. reflexivity. Qed.

Lemma try_catch_bind_throw {A B : Type} (m : M A) (k : A -> M B)
    (h : error -> M B) (w w1 : world) (e : error) :
  m w = (Throw e, w1) -> try_catch (bind m k) h w = h e w1.
Proof. intros Hm. unfold try_catch, bind. rewrite Hm. reflexivity. Qed.

(** Step 1 of [init], run. *)
Lemma install_runtime_local (w : world) (out : string) (e1 : Ext) :
  execSync "npm install onnxruntime-node@latest --save" (ext w) = (Ok out, e1) ->
  exists w1,
    install_runtime w = (Ok tt, w1)
    /\ trace w1
       = trace w
         ++ [Called (ExecSync "npm install onnxruntime-node@latest --save")
                    (Ok (VString out))].
Proof.
  intros Hlocal. unfold install_runtime, exec. run_monad. rewrite Hlocal.
  simpl. eexists. split; reflexivity.
Qed.

Lemma install_runtime_global (w : world) (err : error) (e1 : Ext) :
  execSync "npm install onnxruntime-node@latest --save" (ext w)
    = (Throw err, e1) ->
  exists w1,
    fst (install_runtime w)
    = map_result (fun _ => tt)
        (fst (execSync "npm install -g onnxruntime-node@latest" e1))
    /\ snd (install_runtime w) = w1
    /\ execSync_calls (trace w1)
       = execSync_calls (trace w)
         ++ ["npm install onnxruntime-node@latest --save";
             "npm install -g onnxruntime-node@latest"]
    /\ In (LogEntry Warn (Some err) "Fallback to global installation") (log w1).
Proof.
  intros Hlocal. unfold install_runtime, exec. run_monad. rewrite Hlocal.
  simpl.
  destruct (execSync "npm install -g onnxruntime-node@latest" e1)
    as [[out|err'] e2]; simpl; eexists;
    (split; [reflexivity|]); (split; [reflexivity|]); simpl;
    unfold execSync_calls; rewrite !flat_map_app; simpl;
    rewrite <- ?app_assoc; (split; [reflexivity|]).
  - find_line.
  - find_line.
Qed.

Lemma after_install_log_grows (h : error -> M Kokoro) :
  (forall e, log_grows (h e)) ->
  log_grows
    (try_catch
       (let* config := load_config in
        let* s := open_session in
        logger Debug None "Kokoro TTS successfully initialized with GPU support" >>
        ret (new (Some s) config))
       h).
Proof.
  intros Hh. apply log_grows_try_catch; [|exact Hh].
  unfold load_config, open_session, verifyFile, fs_existsSync, fs_mkdirSync,
         fs_readFileSync.
  log_grows_steps.
Qed.

Lemma after_install_no_exec (h : error -> M Kokoro) :
  (forall e, calls_only (fun c => forall cmd, c <> ExecSync cmd) (h e)) ->
  calls_only (fun c => forall cmd, c <> ExecSync cmd)
    (try_catch
       (let* config := load_config in
        let* s := open_session in
        logger Debug None "Kokoro TTS successfully initialized with GPU support" >>
        ret (new (Some s) config))
       h).
Proof.
  intros Hh. apply calls_only_try_catch; [|exact Hh].
  unfold load_config, open_session, verifyFile, fs_existsSync, fs_mkdirSync,
         fs_readFileSync.
  calls_only_steps; intros cmd; discriminate.
Qed.

Lemma init_handler_no_exec (e : error) :
  calls_only (fun c => forall cmd, c <> ExecSync cmd)
    (logger Err (Some e) "Kokoro initialization failed" >>
     @throw _ Kokoro (Error (INIT_FAILED +:+ message e))).
Proof. apply calls_only_silent. reflexivity. Qed.

(** X21. The two installs of [init]: the global one is run only after the local
    one failed, the failure being logged as a warning; when both fail, it is
    the error of the global one that [init] wraps. *)
Theorem Kokoro_init_installs (w : world) :
  (forall out e1,
     execSync "npm install onnxruntime-node@latest --save" (ext w)
       = (Ok out, e1) ->
     execSync_calls (trace (snd (init w)))
     = execSync_calls (trace w)
       ++ ["npm install onnxruntime-node@latest --save"])
  /\ (forall err e1,
        execSync "npm install onnxruntime-node@latest --save" (ext w)
          = (Throw err, e1) ->
        execSync_calls (trace (snd (init w)))
        = execSync_calls (trace w)
          ++ ["npm install onnxruntime-node@latest --save";
              "npm install -g onnxruntime-node@latest"]
        /\ In (LogEntry Warn (Some err) "Fallback to global installation")
              (log (snd (init w)))
        /\ forall err' e2,
             execSync "npm install -g onnxruntime-node@latest" e1
               = (Throw err', e2) ->
             fst (init w) = Throw (Error (INIT_FAILED +:+ message err'))).
Proof.
  split.
  - intros out e1 Hlocal.
    destruct (install_runtime_local w out e1 Hlocal) as (w1 & Hrun & Htrace).
    unfold init. rewrite (try_catch_bind_ok _ _ _ w w1 tt Hrun).
    rewrite calls_only_no_exec
      by (apply after_install_no_exec; exact init_handler_no_exec).
    rewrite Htrace. unfold execSync_calls. rewrite flat_map_app. reflexivity.
  - intros err e1 Hlocal.
    destruct (install_runtime_global w err e1 Hlocal)
      as (w1 & Hres & Hsnd & Hcalls & Hlog).
    destruct (install_runtime w) as [r w1'] eqn:Hrun. simpl in Hres, Hsnd.
    subst w1'.
    destruct (execSync "npm install -g onnxruntime-node@latest" e1)
      as [[out|err'] e2] eqn:Hglobal; simpl in Hres; subst r.
    + unfold init. rewrite (try_catch_bind_ok _ _ _ w w1 tt Hrun).
      split; [|split].
      * rewrite calls_only_no_exec
          by (apply after_install_no_exec; exact init_handler_no_exec).
        exact Hcalls.
      * apply log_grows_keeps; [|exact Hlog].
        apply after_install_log_grows. intros e. log_grows_steps.
      * intros err' e2' Habs. discriminate Habs.
    + unfold init. rewrite (try_catch_bind_throw _ _ _ w w1 err' Hrun).
      simpl. split; [exact Hcalls|]. split.
      * apply in_or_app. left. exact Hlog.
      * intros err'' e2' Heq. injection Heq as <- _. reflexivity.
Qed.


(** X22. The second copy of [init]: the install is run only when
    [require.resolve] returns an empty path.  When [require.resolve] throws
    (the module is not there) [init] throws the wrapped error with nothing
    installed and the rest not run; when it returns a path nothing is
    installed either, and [init] ends as the rest ends. *)
Theorem init_2_installs_only_on_empty_path (rest : M Kokoro) (w : world) :
  (forall err e1,
     requireResolve "onnxruntime-node" (ext w) = (Throw err, e1) ->
     fst (init_2 rest w) = Throw (Error (INIT_FAILED +:+ message err))
     /\ trace (snd (init_2 rest w))
        = trace w ++ [Called (RequireResolve "onnxruntime-node") (Throw err)])
  /\ (forall path e1 k w2,
        requireResolve "onnxruntime-node" (ext w) = (Ok path, e1) ->
        path <> EmptyString ->
        rest {| ext := e1;
                log := log w;
                trace := trace w
                         ++ [Called (RequireResolve "onnxruntime-node")
                                    (Ok (VString path))];
                gpuAccelerated := gpuAccelerated w |} = (Ok k, w2) ->
        init_2 rest w = (Ok k, w2))
  /\ (forall err e1 e2,
        requireResolve "onnxruntime-node" (ext w) = (Ok EmptyString, e1) ->
        execSync "npm install onnxruntime-node@1.15.1" e1 = (Throw err, e2) ->
        fst (init_2 rest w) = Throw (Error (INIT_FAILED +:+ message err))
        /\ trace (snd (init_2 rest w))
           = trace w
             ++ [Called (RequireResolve "onnxruntime-node")
                        (Ok (VString EmptyString));
                 Called (ExecSync "npm install onnxruntime-node@1.15.1")
                        (Throw err)]).
Proof.
  split; [|split].
  - intros err e1 Hresolve. unfold init_2. run_monad. rewrite Hresolve.
    split; reflexivity.
  - intros path e1 k w2 Hresolve Hpath Hrest. unfold init_2. run_monad.
    rewrite Hresolve. simpl.
    destruct (String.eqb path EmptyString) eqn:E.
    { apply String.eqb_eq in E. contradiction. }
    simpl. rewrite Hrest. reflexivity.
  - intros err e1 e2 Hresolve Hinstall. unfold init_2, exec. run_monad.
    rewrite Hresolve. simpl. rewrite Hinstall. simpl.
    rewrite <- app_assoc. split; reflexivity.
Qed.

(** X23. [init] creates a session only on CUDA: every [InferenceSession.create]
    of a run is on the model file with the CUDA options, and the providers
    listed in that run included ['cuda']. *)
Theorem Kokoro_init_creates_session_on_cuda :
  traced init
    (fun _ evs =>
       forall path options outcome,
         In (Called (SessionCreate path options) outcome) evs ->
         path = MODEL_FILE /\ options = session_options
         /\ exists providers,
              In (Called GetAvailableProviders (Ok (VStrings providers))) evs
              /\ In "cuda" providers).
Proof.
  set (quiet := fun c : call => forall p o, c <> SessionCreate p o).
  set (Q := fun evs : list event =>
       forall path options outcome,
         In (Called (SessionCreate path options) outcome) evs ->
         path = MODEL_FILE /\ options = session_options
         /\ exists providers,
              In (Called GetAvailableProviders (Ok (VStrings providers))) evs
              /\ In "cuda" providers).
  assert (Hquiet : forall evs, Forall (fun ev => quiet (ev_call ev)) evs ->
                               forall p o r, ~ In (Called (SessionCreate p o) r) evs).
  { intros evs Hevs p o r Hin. rewrite List.Forall_forall in Hevs.
    exact (Hevs _ Hin p o eq_refl). }
  assert (Hleft : forall evs1 evs2,
            Forall (fun ev => quiet (ev_call ev)) evs1 -> Q evs2 -> Q (evs1 ++ evs2)).
  { intros evs1 evs2 H1 H2 path options outcome Hin.
    apply in_app_or in Hin as [Hin|Hin]; [destruct (Hquiet _ H1 _ _ _ Hin)|].
    destruct (H2 _ _ _ Hin) as (-> & -> & ps & Hps & Hcuda).
    repeat split. exists ps. split; [apply in_or_app; right; exact Hps | exact Hcuda]. }
  assert (Hright : forall evs1 evs2,
            Q evs1 -> Forall (fun ev => quiet (ev_call ev)) evs2 -> Q (evs1 ++ evs2)).
  { intros evs1 evs2 H1 H2 path options outcome Hin.
    apply in_app_or in Hin as [Hin|Hin]; [|destruct (Hquiet _ H2 _ _ _ Hin)].
    destruct (H1 _ _ _ Hin) as (-> & -> & ps & Hps & Hcuda).
    repeat split. exists ps. split; [apply in_or_app; left; exact Hps | exact Hcuda]. }
  assert (Hnone : forall evs, Forall (fun ev => quiet (ev_call ev)) evs -> Q evs).
  { intros evs Hevs path options outcome Hin. destruct (Hquiet _ Hevs _ _ _ Hin). }
  assert (Hopen : traced open_session (fun _ evs => Q evs)).
  { intros w. unfold open_session. run_monad.
    destruct (getAvailableProviders (ext w)) as [[ps|x] e1]; simpl.
    - destruct (includes_item "cuda" ps) eqn:Hcuda; simpl.
      + destruct (sessionCreate MODEL_FILE session_options e1) as [r e2]; simpl.
        rewrite <- app_assoc. eexists. split; [reflexivity|].
        intros path options outcome [Hin|[Hin|[]]]; [discriminate Hin|].
        injection Hin as <- <- _. repeat split.
        exists ps. split; [left; reflexivity|].
        apply includes_item_In. exact Hcuda.
      + eexists. split; [reflexivity|].
        intros path options outcome [Hin|[]]. discriminate Hin.
    - eexists. split; [reflexivity|].
      intros path options outcome [Hin|[]]. discriminate Hin. }
  unfold init.
  eapply traced_weaken.
  - apply traced_try_catch.
    + apply traced_bind.
      * instantiate (1 := fun _ evs => Forall (fun ev => quiet (ev_call ev)) evs).
        change (calls_only quiet install_runtime).
        unfold install_runtime, exec. calls_only_steps; intros p o; discriminate.
      * intros ?. apply traced_bind.
        -- instantiate (1 := fun _ evs => Forall (fun ev => quiet (ev_call ev)) evs).
           change (calls_only quiet load_config).
           unfold load_config, verifyFile, fs_existsSync, fs_mkdirSync,
                  fs_readFileSync.
           calls_only_steps; intros p o; discriminate.
        -- intros config. apply traced_bind; [exact Hopen|].
           intros s.
           instantiate (1 := fun _ _ evs => Forall (fun ev => quiet (ev_call ev)) evs).
           change (calls_only quiet
                     (logger Debug None "Kokoro TTS successfully initialized with GPU support" >>
                      ret (new (Some s) config))).
           calls_only_steps.
    + intros e.
      instantiate (1 := fun _ _ evs => Forall (fun ev => quiet (ev_call ev)) evs).
      apply calls_only_silent. reflexivity.
  - simpl. intros r evs Hcases. fold Q.
    assert (Hbody : forall (r' : result Kokoro) evs',
      ((exists e, r' = Throw e /\ Forall (fun ev => quiet (ev_call ev)) evs')
       \/ (exists (a : unit) evs1 evs2,
             evs' = evs1 ++ evs2
             /\ Forall (fun ev => quiet (ev_call ev)) evs1
             /\ ((exists e, r' = Throw e /\ Forall (fun ev => quiet (ev_call ev)) evs2)
                 \/ (exists (config : json) evs3 evs4,
                       evs2 = evs3 ++ evs4
                       /\ Forall (fun ev => quiet (ev_call ev)) evs3
                       /\ ((exists e, r' = Throw e /\ Q evs4)
                           \/ (exists (s : Session) evs5 evs6,
                                 evs4 = evs5 ++ evs6 /\ Q evs5
                                 /\ Forall (fun ev => quiet (ev_call ev)) evs6)))))) ->
      Q evs').
    { intros r' evs' [(e & _ & Hq) | (a & evs1 & evs2 & -> & H1 & Hrest)];
        [apply Hnone; exact Hq|].
      apply Hleft; [exact H1|].
      destruct Hrest as [(e & _ & Hq) | (config & evs3 & evs4 & -> & H3 & Hrest)];
        [apply Hnone; exact Hq|].
      apply Hleft; [exact H3|].
      destruct Hrest as [(e & _ & Hq) | (s & evs5 & evs6 & -> & H5 & H6)];
        [exact Hq|].
      apply Hright; assumption. }
    destruct Hcases as [(k & _ & Hb) | (e & evs1 & evs2 & -> & Hb & Hh)].
    + exact (Hbody _ _ Hb).
    + apply Hright; [exact (Hbody _ _ Hb) | exact Hh].
Qed.


Lemma init_builds_instance (w : world) (k : Kokoro) :
  fst (init w) = Ok k -> exists s, session k = Some s.
Proof.
  unfold init. intros Hinit.
  apply try_catch_ok_inv in Hinit.
  2: { intros e w'. eexists. reflexivity. }
  apply bind_ok_inv in Hinit as (_ & w1 & _ & Hinit).
  apply bind_ok_inv in Hinit as (config & w2 & _ & Hinit).
  apply bind_ok_inv in Hinit as (s & w3 & _ & Hinit).
  apply bind_ok_inv in Hinit as (_ & w4 & _ & Hinit).
  unfold ret in Hinit. simpl in Hinit. injection Hinit as <-.
  exists s. reflexivity.
Qed.

(** X24. An instance built by [init] can generate: it has a session and a
    sample rate that reads as true, so that for a non-empty text and samples
    from the model [generate] returns the audio, two bytes per sample, with
    the length computed from that sample rate. *)
Theorem init_then_generate (w : world) (k : Kokoro) :
  fst (init w) = Ok k ->
  exists s sample_rate,
    session k = Some s
    /\ get_property "sample_rate" (config k) = Ok (Some sample_rate)
    /\ truthy (Some sample_rate) = true
    /\ forall t voice w' samples e1,
         t <> EmptyString ->
         sessionRun s
           {| tensor_type := "int64";
              tensor_data := char_codes t;
              tensor_dims := [1; js_length t] |}
           ["cuda"] (ext w')
           = (Ok (Some {| audio := Some {| data := Some samples |} |}), e1) ->
         samples <> [] ->
         exists audioData,
           fst (generate k (Some t) voice w')
           = Ok (audioData, audio_length audioData (Some sample_rate))
           /\ length audioData = (2 * length samples)%nat.
Proof.
  intros Hinit.
  destruct (init_builds_instance w k Hinit) as (s & Hs).
  pose proof (init_body_step w) as (evs & _ & Hres).
  unfold init, try_catch in Hinit.
  match type of Hres with
  | context [fst (?b w)] => destruct (b w) as [[k0|cause] w1]
  end; simpl in *; [|discriminate Hinit].
  injection Hinit as ->.
  destruct Hres as (_ & _ & (sample_rate & Hrate & Htruthy) & _).
  exists s, sample_rate. split; [exact Hs|]. split; [exact Hrate|].
  split; [exact Htruthy|].
  intros t voice w' samples e1 Ht Hrun Hsamples.
  destruct (generate_run_ok k t voice w' s samples e1 (Some sample_rate)
              Hs Ht Hrun Hsamples Hrate) as (audioData & Hgen & Hlen & _).
  exists audioData. split; [exact Hgen | exact Hlen].
Qed.

End KokoroInitMore.

(** ** FFMpeg, the engine call *)

Section FFMpegCalls.
Context `{Platform}.
Import FFMpeg.

Lemma normalize_keeps_trace (outputPath : string) (evs : list ffmpeg_event)
    (s : settling string) :
  trace (snd (fold_left (on_event_normalize outputPath) evs s)) = trace (snd s).
Proof.
  revert s. induction evs as [|ev rest IH]; intros s; [reflexivity|].
  simpl. rewrite IH. destruct ev; reflexivity.
Qed.

Lemma mp3_keeps_trace (filePath : string) (evs : list ffmpeg_event)
    (s : settling string) :
  trace (snd (fold_left (on_event_mp3 filePath) evs s)) = trace (snd s).
Proof.
  revert s. induction evs as [|ev rest IH]; intros s; [reflexivity|].
  simpl. rewrite IH. destruct ev; reflexivity.
Qed.

Lemma datauri_keeps_trace (evs : list ffmpeg_event)
    (s : settling string * list bytes) :
  trace (snd (fst (fold_left on_event_datauri evs s))) = trace (snd (fst s)).
Proof.
  revert s. induction evs as [|ev rest IH]; intros s; [reflexivity|].
  simpl. rewrite IH. destruct s as [[p w] chunks]. destruct ev; reflexivity.
Qed.

(** X25. Each of the three operations calls the engine exactly once, on a
    command that reads the audio it was given and carries the CUDA options
    exactly when the flag is set: a 16 kHz mono [pcm_s16le] wav for
    [saveNormalizedAudio], a 128k stereo mp3 for the two others. *)
Theorem operations_call_engine_once (this : FFMpeg) (audio : bytes)
    (path : string) (w : world) :
  (exists command emitted,
     trace (snd (saveNormalizedAudio this audio path w))
     = trace w ++ [Called (FfmpegSave command path) (Ok (VEvents emitted))]
     /\ cmd_input command = audio
     /\ (cmd_audioCodec command, cmd_audioChannels command,
         cmd_audioFrequency command, cmd_format command)
        = (Some "pcm_s16le", Some 1, Some 16000, Some "wav")
     /\ (cmd_outputOptions command = [] <-> gpuAccelerated w = false))
  /\ (exists command emitted,
        trace (snd (saveToMp3 this audio path w))
        = trace w ++ [Called (FfmpegSave command path) (Ok (VEvents emitted))]
        /\ cmd_input command = audio
        /\ (cmd_audioCodec command, cmd_audioBitrate command,
            cmd_audioChannels command, cmd_format command)
           = (Some "libmp3lame", Some 128, Some 2, Some "mp3")
        /\ (cmd_outputOptions command = [] <-> gpuAccelerated w = false))
  /\ (exists command emitted,
        trace (snd (createMp3DataUri this audio w))
        = trace w ++ [Called (FfmpegPipe command) (Ok (VEvents emitted))]
        /\ cmd_input command = audio
        /\ (cmd_audioCodec command, cmd_audioBitrate command,
            cmd_audioChannels command, cmd_format command)
           = (Some "libmp3lame", Some 128, Some 2, Some "mp3")
        /\ (cmd_outputOptions command = [] <-> gpuAccelerated w = false)).
Proof.
  split; [|split].
  - unfold saveNormalizedAudio, run_save, log_line. simpl.
    destruct (ffmpegSave _ _ _) as [evs e'].
    rewrite normalize_keeps_trace. simpl.
    eexists. eexists. split; [reflexivity|].
    destruct (gpuAccelerated w); simpl; repeat split; intros; discriminate.
  - unfold saveToMp3, run_save.
    destruct (ffmpegSave _ _ _) as [evs e'].
    rewrite mp3_keeps_trace. simpl.
    eexists. eexists. split; [reflexivity|].
    destruct (gpuAccelerated w); simpl; repeat split; intros; discriminate.
  - unfold createMp3DataUri, run_pipe.
    destruct (ffmpegPipe _ _) as [evs e'].
    rewrite datauri_keeps_trace. simpl.
    eexists. eexists. split; [reflexivity|].
    destruct (gpuAccelerated w); simpl; repeat split; intros; discriminate.
Qed.

End FFMpegCalls.

(** ** FFMpeg, the flag *)

Section FFMpegFlag.
Context `{Platform}.

(** X6. Started with the flag cleared, and with both probes returning, [init]
    leaves the flag set exactly when the GPU name contains [T4] and the
    codec list contains [nvenc]. *)
Theorem init_flag_follows_probes (w : world) (installer : Installer)
    (e1 e2 e3 : Ext) (out codecs : string) :
  gpuAccelerated w = false ->
  importFfmpegInstaller (ext w) = (Ok installer, e1) ->
  execSync "nvidia-smi --query-gpu=name --format=csv,noheader" e1
    = (Ok out, e2) ->
  execSync (installer_path installer +:+ " -codecs") e2 = (Ok codecs, e3) ->
  gpuAccelerated (snd (FFMpeg.init w)) = true
  <-> includes "T4" (trim out) = true /\ includes "nvenc" codecs = true.
Proof.
  intros Hflag Himp Hsmi Hcodecs.
  rewrite (init_flag_when_probes_return w installer e1 e2 e3 out codecs
             Hflag Himp Hsmi Hcodecs).
  apply andb_true_iff.
Qed.

(** X8. No operation on audio changes the flag: it is after
    [saveNormalizedAudio], [createMp3DataUri] and [saveToMp3] what it was
    before, whatever the engine emits. *)
Theorem operations_leave_flag (this : FFMpeg.FFMpeg) (audio : bytes)
    (path : string) (w : world) :
  gpuAccelerated (snd (FFMpeg.saveNormalizedAudio this audio path w))
  = gpuAccelerated w
  /\ gpuAccelerated (snd (FFMpeg.createMp3DataUri this audio w))
     = gpuAccelerated w
  /\ gpuAccelerated (snd (FFMpeg.saveToMp3 this audio path w))
     = gpuAccelerated w.
Proof. exact (operations_keep_flag this audio path w). Qed.

End FFMpegFlag.

(** ** Which errors come out of the wrappers: every place that raises *)

Section StrictBut.
Context `{Platform}.

Lemma strict_but_of_strict {A : Type} (P : call -> Prop) (m : M A) :
  strict m -> strict_but P m.
Proof.
  intros Hm w. destruct (Hm w) as (evs & Ht & Hr).
  exists evs. split; [exact Ht|].
  destruct (fst (m w)) as [a|e].
  - intros c e Hin. destruct (Hr c e Hin).
  - intros c e' Hin. right. exact (Hr c e' Hin).
Qed.

Lemma strict_but_bind {A B : Type} (P : call -> Prop) (m : M A)
    (k : A -> M B) :
  strict_but P m -> (forall a, strict_but P (k a)) -> strict_but P (bind m k).
Proof.
  intros Hm Hk w. unfold bind.
  destruct (Hm w) as [evs1 [Ht1 Hr1]].
  destruct (m w) as [[a|e] w1]; simpl in *.
  - destruct (Hk a w1) as [evs2 [Ht2 Hr2]].
    exists (evs1 ++ evs2). rewrite Ht2, Ht1, app_assoc.
    split; [reflexivity|].
    destruct (fst (k a w1)).
    + intros c e Hin. apply in_app_or in Hin as [Hin|Hin]; eauto.
    + intros c e' Hin. apply in_app_or in Hin as [Hin|Hin];
        [left; eauto | eauto].
  - exists evs1. split; assumption.
Qed.

Lemma strict_but_when (P : call -> Prop) (c : bool) (m : M unit) :
  strict_but P m -> strict_but P (when c m).
Proof.
  intros Hm. destruct c; [exact Hm|].
  apply strict_but_of_strict, strict_ret.
Qed.

(** A [try] block all of whose calls are in [caught], with a handler that
    goes on. *)
Lemma strict_but_fallback {A : Type} (P : call -> Prop) (body : M A)
    (h : error -> M A) :
  calls_only P body -> (forall e, strict_but P (h e)) ->
  strict_but P (try_catch body h).
Proof.
  intros Hb Hh w. unfold try_catch.
  destruct (Hb w) as (evs1 & Ht1 & Hall).
  assert (Hcaught : forall c e, In (Called c (Throw e)) evs1 -> P c).
  { intros c e Hin. rewrite List.Forall_forall in Hall. exact (Hall _ Hin). }
  destruct (body w) as [[a|e] w1]; simpl in *.
  - exists evs1. split; [exact Ht1 | exact Hcaught].
  - destruct (Hh e w1) as (evs2 & Ht2 & Hr2).
    exists (evs1 ++ evs2). rewrite Ht2, Ht1, app_assoc.
    split; [reflexivity|].
    destruct (fst (h e w1)) as [a|thrown].
    + intros c e' Hin. apply in_app_or in Hin as [Hin|Hin]; eauto.
    + intros c e' Hin. apply in_app_or in Hin as [Hin|Hin];
        [left; eauto | eauto].
Qed.

Lemma strict_but_propagates {A : Type} (P : call -> Prop) (m : M A) :
  strict_but P m -> propagates_but P m.
Proof.
  intros Hm w c e (evs & Ht & Hin). destruct (Hm w) as (evs' & Ht' & Hr).
  rewrite Ht in Ht'. apply app_inv_head in Ht'. subst evs'.
  destruct (fst (m w)) as [a|e0].
  - left. exact (Hr c e Hin).
  - destruct (Hr c e Hin) as [Hc| ->]; [left; exact Hc | right; reflexivity].
Qed.

(** The GPU probe of [FFMpeg.init] is the one place of [init] that keeps
    an error to itself. *)
Lemma FFMpeg_init_strict_but :
  strict_but (fun c => exists cmd, c = ExecSync cmd) FFMpeg.init.
Proof.
  unfold FFMpeg.init.
  apply strict_but_bind; [apply strict_but_of_strict, strict_invoke|intros installer].
  apply strict_but_bind;
    [apply strict_but_of_strict, strict_invoke_total|intros ?].
  apply strict_but_bind.
  - apply strict_but_fallback.
    + unfold FFMpeg.detect_gpu, exec. calls_only_steps; eexists; reflexivity.
    + intros e. apply strict_but_of_strict, strict_logger.
  - intros ?. apply strict_but_of_strict. strictness.
Qed.

Lemma Remotion_init_strict_but (config : Config) :
  strict_but (fun c => exists cmd, c = ExecSync cmd) (Remotion.init config).
Proof.
  unfold Remotion.init.
  apply strict_but_bind; [apply strict_but_of_strict, strict_invoke|intros ?].
  apply strict_but_bind.
  - apply strict_but_when, strict_but_fallback.
    + unfold exec. calls_only_steps; eexists; reflexivity.
    + intros e. apply strict_but_of_strict, strict_logger.
  - intros ?. apply strict_but_of_strict. strictness.
Qed.

Lemma render_strict_but (this : Remotion.Remotion) (data : Props)
    (id : string) :
  strict_but
    (fun c => exists options,
                c = RenderMedia options
                /\ ro_pixelFormat options = Some "yuv420p")
    (Remotion.render this data id).
Proof.
  unfold Remotion.render.
  apply strict_but_bind;
    [apply strict_but_of_strict, strict_invoke|intros composition].
  apply strict_but_bind; [apply strict_but_of_strict, strict_logger|intros ?].
  cbv zeta. apply strict_but_fallback.
  - unfold Remotion.call_renderMedia. calls_only_steps.
    eexists. split; reflexivity.
  - intros e. apply strict_but_of_strict.
    unfold Remotion.fallbackCPURender, Remotion.call_renderMedia. strictness.
Qed.

Lemma Kokoro_init_body_strict_but :
  strict_but
    (fun c => c = ExecSync "npm install onnxruntime-node@latest --save")
    (Kokoro.install_runtime >>
     let* config := Kokoro.load_config in
     let* s := Kokoro.open_session in
     logger Debug None "Kokoro TTS successfully initialized with GPU support" >>
     ret (Kokoro.new (Some s) config)).
Proof.
  apply strict_but_bind.
  - unfold Kokoro.install_runtime.
    apply strict_but_bind; [apply strict_but_of_strict, strict_logger|intros ?].
    apply strict_but_bind.
    + apply strict_but_fallback.
      * unfold exec. calls_only_steps. reflexivity.
      * intros e. apply strict_but_of_strict. unfold exec. strictness.
    + intros ?. apply strict_but_of_strict, strict_logger.
  - intros ?. apply strict_but_of_strict.
    unfold Kokoro.load_config, Kokoro.open_session, Kokoro.verifyFile,
           fs_existsSync, fs_mkdirSync, fs_readFileSync.
    strictness.
Qed.

(** Of the errors the external calls of [Kokoro.init] throw, all but that
    of the local install come out, wrapped and logged. *)
Lemma Kokoro_init_propagates (w : world) (c : call) (e : error) :
  thrown_by Kokoro.init w c e ->
  c = ExecSync "npm install onnxruntime-node@latest --save"
  \/ (fst (Kokoro.init w) = Throw (Error (Kokoro.INIT_FAILED +:+ message e))
      /\ logged_last e "Kokoro initialization failed" (snd (Kokoro.init w))).
Proof.
  intros (evs & Ht & Hin).
  destruct (Kokoro_init_body_strict_but w) as (evs' & Ht' & Hr).
  unfold Kokoro.init, try_catch in *.
  match type of Ht' with
  | context [snd (?b w)] => destruct (b w) as [[k|e0] w1]
  end; simpl in *.
  - rewrite Ht in Ht'. apply app_inv_head in Ht'. subst evs'.
    left. exact (Hr c e Hin).
  - rewrite Ht in Ht'. apply app_inv_head in Ht'. subst evs'.
    destruct (Hr c e Hin) as [Hc| ->]; [left; exact Hc|].
    right. split; [reflexivity|]. eexists. reflexivity.
Qed.

End StrictBut.

Section KokoroInitFailures.
Context `{Platform}.
Import Kokoro.

Lemma failing_step_bind {A B : Type} (m : M A) (k : A -> M B)
    (P : A -> list event -> Prop) (Q : A -> B -> list event -> Prop) :
  failing_step m P -> (forall a, failing_step (k a) (Q a)) ->
  failing_step (bind m k)
    (fun b evs => exists a evs1 evs2, evs = evs1 ++ evs2 /\ P a evs1 /\ Q a b evs2).
Proof.
  intros Hm Hk w. unfold bind.
  destruct (Hm w) as [evs1 [Ht1 Hr1]].
  destruct (m w) as [[a|e] w1]; simpl in *.
  - destruct (Hk a w1) as [evs2 [Ht2 Hr2]].
    exists (evs1 ++ evs2). rewrite Ht2, Ht1, app_assoc. split; [reflexivity|].
    destruct (fst (k a w1)) as [b|e].
    + exists a, evs1, evs2. auto.
    + destruct Hr2 as (before & last_call & -> & Hfail).
      exists (evs1 ++ before), last_call. rewrite app_assoc. auto.
  - exists evs1. split; assumption.
Qed.

Lemma failing_step_weaken {A : Type} (m : M A) (P Q : A -> list event -> Prop) :
  failing_step m P -> (forall a evs, P a evs -> Q a evs) -> failing_step m Q.
Proof.
  intros Hm HPQ w. destruct (Hm w) as [evs [Ht Hr]].
  exists evs. split; [exact Ht|].
  destruct (fst (m w)); [apply HPQ|]; exact Hr.
Qed.

Ltac step_done :=
  rewrite <- ?app_assoc; simpl; eexists; (split; [reflexivity|]).

Ltac call_failed before :=
  exists before; eexists; split; [reflexivity|]; left; eexists; reflexivity.

Lemma install_runtime_fails : failing_step install_runtime (fun _ _ => True).
Proof.
  intros w. unfold install_runtime, exec. run_monad.
  destruct (execSync "npm install onnxruntime-node@latest --save" (ext w))
    as [[o1|x1] e1]; simpl.
  - step_done. exact I.
  - destruct (execSync "npm install -g onnxruntime-node@latest" e1)
      as [[o2|x2] e2]; simpl; step_done; [exact I|].
    call_failed
      [Called (ExecSync "npm install onnxruntime-node@latest --save") (Throw x1)].
Qed.

Lemma existsSync_fails (p : string) :
  failing_step (fs_existsSync p) (fun _ _ => True).
Proof.
  intros w. unfold fs_existsSync. run_monad.
  destruct (existsSync p (ext w)) as [found e1]; simpl. step_done. exact I.
Qed.

Lemma create_model_dir_fails (dir : bool) :
  failing_step
    (when (negb dir)
       (logger Debug None ("Creating models directory at " +:+ MODEL_DIR) >>
        fs_mkdirSync MODEL_DIR))
    (fun _ _ => True).
Proof.
  intros w. unfold fs_mkdirSync. run_monad. destruct dir; simpl.
  - exists []. rewrite app_nil_r. split; [reflexivity | exact I].
  - destruct (mkdirSync MODEL_DIR (ext w)) as [[[]|x] e2]; simpl; step_done;
      [exact I|].
    call_failed (@nil event).
Qed.

Lemma verifyFile_fails (p : string) :
  failing_step (verifyFile p) (fun _ _ => True).
Proof.
  intros w. unfold verifyFile, fs_existsSync. run_monad.
  destruct (existsSync p (ext w)) as [[|] e1]; simpl; step_done; [exact I|].
  exists []. eexists. split; [reflexivity|].
  right. left. exists p. split; reflexivity.
Qed.

Lemma read_config_fails :
  failing_step
    (let* content := fs_readFileSync CONFIG_FILE in
     let* config := lift_result (JSON_parse content) in
     let* sample_rate := lift_result (get_property "sample_rate" config) in
     when (negb (truthy sample_rate))
       (throw (Error "Invalid config file: missing sample_rate")) >>
     ret config)
    (fun _ _ => True).
Proof.
  intros w. unfold fs_readFileSync. run_monad.
  destruct (readFileSync CONFIG_FILE (ext w)) as [[content|x] e1]; simpl.
  2: { step_done. call_failed (@nil event). }
  destruct (JSON_parse content) as [cfg|x] eqn:Hparse; simpl.
  2: { step_done. exists []. eexists. split; [reflexivity|].
       right. right. left. exists CONFIG_FILE, content.
       split; [reflexivity|]. rewrite Hparse. reflexivity. }
  destruct (get_property "sample_rate" cfg) as [sr|x] eqn:Hsr; simpl.
  2: { step_done. exists []. eexists. split; [reflexivity|].
       right. right. left. exists CONFIG_FILE, content.
       split; [reflexivity|]. rewrite Hparse, Hsr. reflexivity. }
  destruct (truthy sr) eqn:Htr; simpl; step_done; [exact I|].
  exists []. eexists. split; [reflexivity|].
  right. right. left. exists CONFIG_FILE, content.
  split; [reflexivity|]. rewrite Hparse, Hsr. split; [exact Htr | reflexivity].
Qed.

Lemma load_config_fails : failing_step load_config (fun _ _ => True).
Proof.
  unfold load_config.
  eapply failing_step_weaken.
  - apply failing_step_bind; [apply existsSync_fails|intros dir].
    apply failing_step_bind; [apply create_model_dir_fails|intros ?].
    apply failing_step_bind; [apply verifyFile_fails|intros ?].
    apply failing_step_bind; [apply verifyFile_fails|intros ?].
    apply read_config_fails.
  - intros; exact I.
Qed.

Lemma open_session_fails :
  failing_step open_session
    (fun s evs =>
       exists before,
         evs = before
               ++ [Called (SessionCreate MODEL_FILE session_options)
                          (Ok (VSession s))]).
Proof.
  intros w. unfold open_session. run_monad.
  destruct (getAvailableProviders (ext w)) as [[ps|x] e1]; simpl.
  2: { step_done. call_failed (@nil event). }
  destruct (includes_item "cuda" ps) eqn:Hcuda; simpl.
  - destruct (sessionCreate MODEL_FILE session_options e1) as [[s|x] e2]; simpl;
      step_done.
    + exists [Called GetAvailableProviders (Ok (VStrings ps))]. reflexivity.
    + call_failed [Called GetAvailableProviders (Ok (VStrings ps))].
  - step_done. exists []. eexists. split; [reflexivity|].
    right. right. right. exists ps. split; [reflexivity|].
    split; [|reflexivity].
    intros Hin. apply includes_item_In in Hin. congruence.
Qed.

Lemma init_body_fails :
  failing_step
    (install_runtime >>
     let* config := load_config in
     let* s := open_session in
     logger Debug None "Kokoro TTS successfully initialized with GPU support" >>
     ret (new (Some s) config))
    (fun _ evs =>
       exists before s,
         evs = before
               ++ [Called (SessionCreate MODEL_FILE session_options)
                          (Ok (VSession s))]).
Proof.
  eapply failing_step_weaken.
  - apply failing_step_bind; [apply install_runtime_fails|intros ?].
    apply failing_step_bind; [apply load_config_fails|intros config].
    apply failing_step_bind; [apply open_session_fails|intros s].
    instantiate (1 := fun s k evs => evs = []).
    intros w. exists []. simpl. rewrite app_nil_r. auto.
  - simpl. intros k evs (? & evs1 & evs2 & -> & _ & config & evs3 & evs4 & ->
                         & _ & s & evs5 & evs6 & -> & (before & ->) & ->).
    exists (evs1 ++ evs3 ++ before), s.
    rewrite app_nil_r, <- !app_assoc. reflexivity.
Qed.

(** The failure a last call leads to is one error. *)
Lemma init_failure_unique (last_call : event) (cause cause' : error) :
  init_raises last_call cause -> init_failure last_call cause' ->
  cause' = cause.
Proof.
  intros Hraises [(c & Hcall)|Hraises'].
  - destruct Hraises as [(p & -> & _)|[(p & content & -> & _)|(ps & -> & _)]];
      discriminate Hcall.
  - destruct Hraises as [(p & -> & ->)|[(p & content & -> & Hc)|(ps & -> & _ & ->)]];
      destruct Hraises' as [(p' & Heq & ->)|[(p' & content' & Heq & Hc')
                                            |(ps' & Heq & _ & ->)]];
      try discriminate Heq.
    + injection Heq as <-. reflexivity.
    + injection Heq as <- <-.
      destruct (JSON_parse content) as [cfg|x]; [|congruence].
      destruct (get_property "sample_rate" cfg) as [sr|x]; [|congruence].
      destruct Hc as [_ ->]. destruct Hc' as [_ ->]. reflexivity.
    + reflexivity.
Qed.

(** What [init] throws is the wrapped failure of the last call of the run. *)
Lemma Kokoro_init_failure (w : world) (e : error) :
  fst (init w) = Throw e ->
  exists cause last_call,
    e = Error (INIT_FAILED +:+ message cause)
    /\ logged_last cause "Kokoro initialization failed" (snd (init w))
    /\ ends_on init w last_call
    /\ init_failure last_call cause.
Proof.
  pose proof (init_body_fails w) as (evs & Htrace & Hres).
  unfold ends_on, init, try_catch.
  match type of Htrace with
  | context [snd (?b w)] => destruct (b w) as [[k0|cause] w1]
  end; simpl in *; [discriminate|].
  intros He. injection He as <-.
  destruct Hres as (before & last_call & -> & Hfail).
  exists cause, last_call. split; [reflexivity|].
  split; [eexists; reflexivity|]. split; [|exact Hfail].
  exists before. exact Htrace.
Qed.

(** An error [init] raises by itself comes out, wrapped and logged. *)
Lemma Kokoro_init_raises_come_out (w : world) (last_call : event)
    (cause : error) :
  ends_on init w last_call -> init_raises last_call cause ->
  fst (init w) = Throw (Error (INIT_FAILED +:+ message cause))
  /\ logged_last cause "Kokoro initialization failed" (snd (init w)).
Proof.
  intros (before & Hends) Hraises.
  pose proof (init_body_fails w) as (evs & Htrace & Hres).
  unfold init, try_catch in *.
  match type of Htrace with
  | context [snd (?b w)] => destruct (b w) as [[k0|cause'] w1]
  end; simpl in *; rewrite Htrace in Hends; apply app_inv_head in Hends.
  - exfalso. destruct Hres as (before' & s & ->).
    apply app_inj_tail in Hends as [_ <-].
    destruct Hraises as [(p & Heq & _)|[(p & content & Heq & _)|(ps & Heq & _)]];
      discriminate Heq.
  - destruct Hres as (before' & last' & -> & Hfail).
    apply app_inj_tail in Hends as [_ <-].
    rewrite (init_failure_unique _ _ _ Hraises Hfail).
    split; [reflexivity|]. eexists. reflexivity.
Qed.

End KokoroInitFailures.

Section RaisedByTheWrapper.
Context `{Platform}.

(** The CUDA check of [Whisper.init]. *)
Lemma Whisper_init_check_comes_out (config : Config) (w : world)
    (installed out : string) (e1 e2 : Ext) :
  runningInDocker config = false ->
  execSync "pip install faster-whisper torch torchaudio --upgrade" (ext w)
    = (Ok installed, e1) ->
  execSync ("python -c " +:+
            Whisper.quoted "import torch; print(torch.cuda.is_available())") e1
    = (Ok out, e2) ->
  trim out <> "True" ->
  fst (Whisper.init config w)
  = Throw (Error "CUDA is not available. Please ensure you are using a GPU runtime in Colab.").
Proof.
  intros Hdocker Hpip Hcheck Hout.
  unfold Whisper.init, exec. rewrite Hdocker. run_monad.
  rewrite Hpip. simpl. rewrite Hcheck. simpl.
  destruct (String.eqb (trim out) "True") eqn:Htrue; simpl; [|reflexivity].
  apply String.eqb_eq in Htrue. contradiction.
Qed.

(** The error of [JSON.parse] in [CreateCaption]. *)
Lemma CreateCaption_parse_error_comes_out (this : Whisper.Whisper)
    (audioPath : string) (w : world) (output : string) (err : error)
    (e1 e2 : Ext) :
  let scriptPath :=
    path_join [whisperInstallPath (Whisper.config this); "transcribe_gpu.py"] in
  writeFile scriptPath (Whisper.pythonScript this audioPath) (ext w)
    = (Ok tt, e1) ->
  execSync ("python " +:+ scriptPath) e1 = (Ok output, e2) ->
  JSON_parse_words output = Throw err ->
  fst (Whisper.CreateCaption this audioPath w) = Throw err.
Proof.
  intros scriptPath Hwrite Hpython Hparse.
  unfold Whisper.CreateCaption, exec, fs_writeFile. run_monad.
  fold scriptPath. rewrite Hwrite. simpl. rewrite Hpython. simpl.
  rewrite Hparse. reflexivity.
Qed.

(** The errors the second copy of [CreateCaption] raises by itself. *)
Lemma CreateCaption_2_raises_come_out (this : Whisper.Whisper)
    (audioPath : string) (w : world) (e0 e1 e2 : Ext) :
  let scriptPath :=
    path_join [whisperInstallPath (Whisper.config this); "transcribe_gpu.py"] in
  ensureDir (whisperInstallPath (Whisper.config this)) (ext w) = (Ok tt, e0) ->
  writeFile scriptPath (Whisper.pythonScript_2 this audioPath) e0
    = (Ok tt, e1) ->
  (existsSync scriptPath e1 = (false, e2) ->
   fst (Whisper.CreateCaption_2 this audioPath w)
   = Throw (Error ("Failed to create transcription script at " +:+ scriptPath)))
  /\ (forall output err e3,
        existsSync scriptPath e1 = (true, e2) ->
        execSync ("python " +:+ scriptPath) e2 = (Ok output, e3) ->
        JSON_parse_words output = Throw err ->
        fst (Whisper.CreateCaption_2 this audioPath w) = Throw err).
Proof.
  intros scriptPath Hdir Hwrite. split.
  - intros Hexists.
    unfold Whisper.CreateCaption_2, exec, fs_writeFile, fs_ensureDir,
           fs_existsSync.
    run_monad. rewrite Hdir. simpl. fold scriptPath. rewrite Hwrite. simpl.
    rewrite Hexists. reflexivity.
  - intros output err e3 Hexists Hpython Hparse.
    unfold Whisper.CreateCaption_2, exec, fs_writeFile, fs_ensureDir,
           fs_existsSync.
    run_monad. rewrite Hdir. simpl. fold scriptPath. rewrite Hwrite. simpl.
    rewrite Hexists. simpl. rewrite Hpython. simpl. rewrite Hparse.
    reflexivity.
Qed.

Lemma bind_throws {A B : Type} (m : M A) (k : A -> M B) (w : world)
    (e : error) :
  fst (m w) = Throw e -> fst (bind m k w) = Throw e.
Proof.
  unfold bind. destruct (m w) as [[a|e'] w1]; simpl; [discriminate|].
  intros Heq. injection Heq as ->. reflexivity.
Qed.

(** The errors [generate] raises by itself before [session.run]. *)
Lemma generate_early_raises_come_out (this : Kokoro.Kokoro) (t voice : string)
    (w : world) :
  (Kokoro.session this = None ->
   fst (Kokoro.generate this (Some t) voice w)
   = Throw (Error "Inference session not initialized"))
  /\ (forall s err,
        Kokoro.session this = Some s ->
        Kokoro.preprocessText (Some t) voice = Throw err ->
        fst (Kokoro.generate this (Some t) voice w) = Throw err).
Proof.
  split.
  - intros Hs. unfold Kokoro.generate. run_monad. rewrite Hs. reflexivity.
  - intros s err Hs Hpre. unfold Kokoro.preprocessText in Hpre.
    unfold Kokoro.generate. run_monad. rewrite Hs. simpl.
    destruct (js_length t =? 0)%Z; [|discriminate Hpre].
    injection Hpre as <-. reflexivity.
Qed.

(** The errors [generate] raises by itself after [session.run] returned. *)
Lemma generate_late_raises_come_out (this : Kokoro.Kokoro) (t voice : string)
    (w : world) (s : Session) (outputs : option Outputs) (e1 : Ext) :
  Kokoro.session this = Some s ->
  t <> EmptyString ->
  sessionRun s
    {| tensor_type := "int64";
       tensor_data := char_codes t;
       tensor_dims := [1; js_length t] |}
    ["cuda"] (ext w) = (Ok outputs, e1) ->
  (outputs = None \/ (exists o, outputs = Some o /\ audio o = None) ->
   fst (Kokoro.generate this (Some t) voice w)
   = Throw (Error "Invalid model outputs"))
  /\ (forall o a err,
        outputs = Some o -> audio o = Some a ->
        Kokoro.postprocess outputs = Throw err ->
        fst (Kokoro.generate this (Some t) voice w) = Throw err)
  /\ (forall o a audioData err,
        outputs = Some o -> audio o = Some a ->
        Kokoro.postprocess outputs = Ok audioData ->
        Kokoro.get_property "sample_rate" (Kokoro.config this) = Throw err ->
        fst (Kokoro.generate this (Some t) voice w) = Throw err).
Proof.
  intros Hs Ht Hrun.
  assert (Hzero : (js_length t =? 0)%Z = false).
  { apply Z.eqb_neq. intros Hz. apply js_length_zero in Hz. contradiction. }
  assert (Hstart :
    forall r,
      (forall w', fst ((Kokoro.validate_outputs outputs >>
                        let* audioData := Kokoro.postprocessAudio outputs in
                        Kokoro.text_length (Some t) >>
                        logger Debug None "Audio generated successfully" >>
                        let* sample_rate :=
                          lift_result (Kokoro.get_property "sample_rate"
                                         (Kokoro.config this)) in
                        ret (audioData,
                             Kokoro.audio_length audioData sample_rate)) w')
                  = Throw r) ->
      fst (Kokoro.generate this (Some t) voice w) = Throw r).
  { intros r Hrest. unfold Kokoro.generate.
    erewrite bind_ok by reflexivity.
    unfold try_catch.
    rewrite Hs. erewrite bind_ok by reflexivity.
    unfold Kokoro.preprocessText. rewrite Hzero.
    erewrite bind_ok by reflexivity.
    rewrite input_tensor_shape.
    erewrite bind_ok
      by (unfold Kokoro.call_run, invoke; simpl; rewrite Hrun; reflexivity).
    match goal with
    | |- fst (let (_, _) := ?run in _) = _ =>
        assert (Hthrown : fst run = Throw r) by apply Hrest;
        destruct run as [[a|x] w2]
    end; cbn [fst] in Hthrown; [discriminate Hthrown|].
    injection Hthrown as ->. reflexivity. }
  split; [|split].
  - intros Hinvalid. apply Hstart. intros w'. apply bind_throws.
    unfold Kokoro.validate_outputs.
    destruct Hinvalid as [->|(o & -> & Ho)]; [reflexivity|].
    rewrite Ho. reflexivity.
  - intros o a err Ho Ha Hpost. apply Hstart. intros w'.
    erewrite bind_ok
      by (unfold Kokoro.validate_outputs; rewrite Ho, Ha; reflexivity).
    apply bind_throws. rewrite postprocessAudio_run. exact Hpost.
  - intros o a audioData err Ho Ha Hpost Hrate. apply Hstart. intros w'.
    erewrite bind_ok
      by (unfold Kokoro.validate_outputs; rewrite Ho, Ha; reflexivity).
    erewrite bind_ok by (apply postprocessAudio_ok; exact Hpost).
    erewrite bind_ok by reflexivity.
    erewrite bind_ok by reflexivity.
    apply bind_throws. unfold lift_result. simpl. exact Hrate.
Qed.

(** Without a text [generate] fails in its [catch] block, on [text.length]:
    a [TypeError] comes out in place of the error raised, which is not
    logged. *)
Lemma generate_without_text (this : Kokoro.Kokoro) (voice : string)
    (w : world) :
  fst (Kokoro.generate this None voice w)
  = Throw (TypeError "Cannot read properties of undefined (reading 'length')")
  /\ log (snd (Kokoro.generate this None voice w))
     = log w ++ [LogEntry Debug None "Generating audio with Kokoro on GPU"].
Proof.
  unfold Kokoro.generate. run_monad.
  destruct (Kokoro.session this) as [s|]; simpl; split; reflexivity.
Qed.

(** The local install of [Kokoro.init] failing: the calls that follow. *)
Lemma Kokoro_init_local_install_logged (w : world) (err : error) (e1 : Ext) :
  execSync "npm install onnxruntime-node@latest --save" (ext w)
    = (Throw err, e1) ->
  In (LogEntry Warn (Some err) "Fallback to global installation")
     (log (snd (Kokoro.init w)))
  /\ exists rest,
       trace (snd (Kokoro.init w))
       = trace w
         ++ Called (ExecSync "npm install onnxruntime-node@latest --save")
                   (Throw err)
         :: Called (ExecSync "npm install -g onnxruntime-node@latest")
                   (map_result VString
                      (fst (execSync "npm install -g onnxruntime-node@latest" e1)))
         :: rest.
Proof.
  intros Hlocal.
  assert (Hrun : exists w1,
            snd (Kokoro.install_runtime w) = w1
            /\ fst (Kokoro.install_runtime w)
               = map_result (fun _ => tt)
                   (fst (execSync "npm install -g onnxruntime-node@latest" e1))
            /\ In (LogEntry Warn (Some err) "Fallback to global installation")
                  (log w1)
            /\ trace w1
               = trace w
                 ++ [Called (ExecSync "npm install onnxruntime-node@latest --save")
                            (Throw err);
                     Called (ExecSync "npm install -g onnxruntime-node@latest")
                            (map_result VString
                               (fst (execSync
                                       "npm install -g onnxruntime-node@latest"
                                       e1)))]).
  { unfold Kokoro.install_runtime, exec. run_monad. rewrite Hlocal. simpl.
    destruct (execSync "npm install -g onnxruntime-node@latest" e1)
      as [[out|err'] e2]; simpl; eexists; (split; [reflexivity|]);
      (split; [reflexivity|]); simpl; rewrite <- ?app_assoc;
      (split; [|reflexivity]); find_line. }
  destruct Hrun as (w1 & Hsnd & Hfst & Hlog & Htrace).
  destruct (Kokoro.install_runtime w) as [r w1'] eqn:Hinstall.
  simpl in Hsnd, Hfst. subst w1'.
  destruct r as [[]|err'].
  - unfold Kokoro.init. rewrite (try_catch_bind_ok _ _ _ w w1 tt Hinstall).
    split.
    + apply log_grows_keeps; [|exact Hlog].
      apply after_install_log_grows. intros e. log_grows_steps.
    + destruct (after_install_no_exec
                  (fun error =>
                     logger Err (Some error) "Kokoro initialization failed" >>
                     throw (Error (Kokoro.INIT_FAILED +:+ message error)))
                  init_handler_no_exec w1) as (rest & Hrest & _).
      exists rest. rewrite Hrest, Htrace, <- app_assoc. reflexivity.
  - unfold Kokoro.init. rewrite (try_catch_bind_throw _ _ _ w w1 err' Hinstall).
    simpl. split.
    + apply in_or_app. left. exact Hlog.
    + exists []. rewrite Htrace. reflexivity.
Qed.

(** The failure of the local install of [Kokoro.init] is caught: it is
    logged as a warning, the global install is run, and what [init] throws
    afterwards, if anything, is the failure of a later call. *)
Lemma Kokoro_init_local_install_caught (w : world) (err : error) (e1 : Ext) :
  execSync "npm install onnxruntime-node@latest --save" (ext w)
    = (Throw err, e1) ->
  In (LogEntry Warn (Some err) "Fallback to global installation")
     (log (snd (Kokoro.init w)))
  /\ (exists rest,
        trace (snd (Kokoro.init w))
        = trace w
          ++ Called (ExecSync "npm install onnxruntime-node@latest --save")
                    (Throw err)
          :: Called (ExecSync "npm install -g onnxruntime-node@latest")
                    (map_result VString
                       (fst (execSync "npm install -g onnxruntime-node@latest"
                               e1)))
          :: rest)
  /\ (forall e,
        fst (Kokoro.init w) = Throw e ->
        exists cause before last_call,
          e = Error (Kokoro.INIT_FAILED +:+ message cause)
          /\ trace (snd (Kokoro.init w))
             = trace w
               ++ Called (ExecSync "npm install onnxruntime-node@latest --save")
                         (Throw err)
               :: before ++ [last_call]
          /\ init_failure last_call cause).
Proof.
  intros Hlocal.
  destruct (Kokoro_init_local_install_logged w err e1 Hlocal)
    as (Hlog & rest & Htrace).
  split; [exact Hlog|]. split; [exists rest; exact Htrace|].
  intros e He.
  destruct (Kokoro_init_failure w e He)
    as (cause & last_call & Hwrap & _ & (before & Hends) & Hfail).
  exists cause. rewrite Htrace in Hends. apply app_inv_head in Hends.
  destruct before as [|first before].
  - discriminate Hends.
  - injection Hends as <- Hrest.
    exists before, last_call. split; [exact Hwrap|].
    split; [|exact Hfail]. rewrite Htrace, Hrest. reflexivity.
Qed.

End RaisedByTheWrapper.

Section ErrorsComeOut.
Context `{Platform}.

(** C2, as the code has it. [Whisper.init], [Whisper.CreateCaption] (both
    copies) and [Kokoro.generate] on a text log every error raised inside
    and rethrow it unchanged, be it thrown by an external call, by
    [JSON.parse] or a property read, or by a [throw] of the wrapper.
    [Kokoro.init] logs such an error and throws it wrapped, that of the
    local install apart.  In four places the error is caught, logged and
    the method goes on, so that it does not come out: the GPU probe of
    [FFMpeg.init], the GPU set-up of [Remotion.init], the GPU render of
    [Remotion.render] and the local install of [Kokoro.init]; the errors of
    the other external calls of these methods come out.  Without a text,
    [Kokoro.generate] throws a [TypeError] from its [catch] block in place
    of the error raised. *)
Theorem errors_rethrown_or_caught_for_fallback :
  (forall config,
     logs_and_rethrows "Failed to setup Whisper with GPU support"
       (Whisper.init config)
     /\ forall w installed out e1 e2,
          runningInDocker config = false ->
          execSync "pip install faster-whisper torch torchaudio --upgrade" (ext w)
            = (Ok installed, e1) ->
          execSync ("python -c " +:+
                    Whisper.quoted "import torch; print(torch.cuda.is_available())")
                   e1
            = (Ok out, e2) ->
          trim out <> "True" ->
          fst (Whisper.init config w)
          = Throw (Error "CUDA is not available. Please ensure you are using a GPU runtime in Colab."))
  /\ (forall this audioPath,
        let scriptPath :=
          path_join [whisperInstallPath (Whisper.config this);
                     "transcribe_gpu.py"] in
        logs_and_rethrows "Failed to transcribe audio"
          (Whisper.CreateCaption this audioPath)
        /\ logs_and_rethrows "Failed to transcribe audio"
             (Whisper.CreateCaption_2 this audioPath)
        /\ (forall w output err e1 e2,
              writeFile scriptPath (Whisper.pythonScript this audioPath) (ext w)
                = (Ok tt, e1) ->
              execSync ("python " +:+ scriptPath) e1 = (Ok output, e2) ->
              JSON_parse_words output = Throw err ->
              fst (Whisper.CreateCaption this audioPath w) = Throw err)
        /\ (forall w e0 e1 e2,
              ensureDir (whisperInstallPath (Whisper.config this)) (ext w)
                = (Ok tt, e0) ->
              writeFile scriptPath (Whisper.pythonScript_2 this audioPath) e0
                = (Ok tt, e1) ->
              (existsSync scriptPath e1 = (false, e2) ->
               fst (Whisper.CreateCaption_2 this audioPath w)
               = Throw (Error ("Failed to create transcription script at "
                               +:+ scriptPath)))
              /\ (forall output err e3,
                    existsSync scriptPath e1 = (true, e2) ->
                    execSync ("python " +:+ scriptPath) e2 = (Ok output, e3) ->
                    JSON_parse_words output = Throw err ->
                    fst (Whisper.CreateCaption_2 this audioPath w) = Throw err)))
  /\ (forall this t voice,
        logs_and_rethrows "Failed to generate audio"
          (Kokoro.generate this (Some t) voice)
        /\ (forall w,
              (Kokoro.session this = None ->
               fst (Kokoro.generate this (Some t) voice w)
               = Throw (Error "Inference session not initialized"))
              /\ (forall s err,
                    Kokoro.session this = Some s ->
                    Kokoro.preprocessText (Some t) voice = Throw err ->
                    fst (Kokoro.generate this (Some t) voice w) = Throw err))
        /\ (forall w s outputs e1,
              Kokoro.session this = Some s ->
              t <> EmptyString ->
              sessionRun s
                {| tensor_type := "int64";
                   tensor_data := char_codes t;
                   tensor_dims := [1; js_length t] |}
                ["cuda"] (ext w) = (Ok outputs, e1) ->
              (outputs = None \/ (exists o, outputs = Some o /\ audio o = None) ->
               fst (Kokoro.generate this (Some t) voice w)
               = Throw (Error "Invalid model outputs"))
              /\ (forall o a err,
                    outputs = Some o -> audio o = Some a ->
                    Kokoro.postprocess outputs = Throw err ->
                    fst (Kokoro.generate this (Some t) voice w) = Throw err)
              /\ (forall o a audioData err,
                    outputs = Some o -> audio o = Some a ->
                    Kokoro.postprocess outputs = Ok audioData ->
                    Kokoro.get_property "sample_rate" (Kokoro.config this)
                      = Throw err ->
                    fst (Kokoro.generate this (Some t) voice w) = Throw err)))
  /\ (forall this voice w,
        fst (Kokoro.generate this None voice w)
        = Throw (TypeError "Cannot read properties of undefined (reading 'length')")
        /\ log (snd (Kokoro.generate this None voice w))
           = log w ++ [LogEntry Debug None "Generating audio with Kokoro on GPU"])
  /\ (forall w,
        (forall e,
           fst (Kokoro.init w) = Throw e ->
           exists cause last_call,
             e = Error (Kokoro.INIT_FAILED +:+ message cause)
             /\ logged_last cause "Kokoro initialization failed"
                  (snd (Kokoro.init w))
             /\ ends_on Kokoro.init w last_call
             /\ init_failure last_call cause)
        /\ (forall c e,
              thrown_by Kokoro.init w c e ->
              c = ExecSync "npm install onnxruntime-node@latest --save"
              \/ (fst (Kokoro.init w)
                  = Throw (Error (Kokoro.INIT_FAILED +:+ message e))
                  /\ logged_last e "Kokoro initialization failed"
                       (snd (Kokoro.init w))))
        /\ (forall last_call cause,
              ends_on Kokoro.init w last_call ->
              init_raises last_call cause ->
              fst (Kokoro.init w)
              = Throw (Error (Kokoro.INIT_FAILED +:+ message cause))
              /\ logged_last cause "Kokoro initialization failed"
                   (snd (Kokoro.init w)))
        /\ (forall err e1,
              execSync "npm install onnxruntime-node@latest --save" (ext w)
                = (Throw err, e1) ->
              In (LogEntry Warn (Some err) "Fallback to global installation")
                 (log (snd (Kokoro.init w)))
              /\ (exists rest,
                    trace (snd (Kokoro.init w))
                    = trace w
                      ++ Called
                           (ExecSync "npm install onnxruntime-node@latest --save")
                           (Throw err)
                      :: Called
                           (ExecSync "npm install -g onnxruntime-node@latest")
                           (map_result VString
                              (fst (execSync
                                      "npm install -g onnxruntime-node@latest"
                                      e1)))
                      :: rest)
              /\ (forall e,
                    fst (Kokoro.init w) = Throw e ->
                    exists cause before last_call,
                      e = Error (Kokoro.INIT_FAILED +:+ message cause)
                      /\ trace (snd (Kokoro.init w))
                         = trace w
                           ++ Called
                                (ExecSync
                                   "npm install onnxruntime-node@latest --save")
                                (Throw err)
                           :: before ++ [last_call]
                      /\ init_failure last_call cause)))
  /\ (propagates_but (fun c => exists cmd, c = ExecSync cmd) FFMpeg.init
      /\ forall w installer e1,
           importFfmpegInstaller (ext w) = (Ok installer, e1) ->
           fst (FFMpeg.init w) = Ok FFMpeg.new
           /\ forall err e2,
                execSync "nvidia-smi --query-gpu=name --format=csv,noheader" e1
                  = (Throw err, e2) ->
                In (LogEntry Warn (Some err) "GPU detection failed, using CPU")
                   (log (snd (FFMpeg.init w))))
  /\ (forall config,
        propagates_but (fun c => exists cmd, c = ExecSync cmd)
          (Remotion.init config)
        /\ forall w e1,
             ensureBrowser (ext w) = (Ok tt, e1) ->
             (exists e2,
                fst (Remotion.init config w)
                = map_result (fun b => Remotion.new b config)
                    (fst (bundle (musicDirPath config)
                            (Remotion.entryPoint config) e2)))
             /\ forall err e2,
                  runningInDocker config = false ->
                  execSync "npm install @ffmpeg-installer/ffmpeg@1.1.0 --no-save" e1
                    = (Throw err, e2) ->
                  In (LogEntry Warn (Some err)
                               "GPU setup failed, falling back to CPU")
                     (log (snd (Remotion.init config w))))
  /\ (forall this data id,
        propagates_but
          (fun c => exists options,
                      c = RenderMedia options
                      /\ ro_pixelFormat options = Some "yuv420p")
          (Remotion.render this data id)
        /\ forall w composition e1 e2 err,
             selectComposition (Remotion.bundled this)
                 Remotion.COMPONENT_TO_RENDER data (ext w)
               = (Ok composition, e1) ->
             renderMedia
               (Remotion.gpu_options this composition data
                  (path_join [videosDirPath (Remotion.config this);
                              id +:+ ".mp4"])) e1
               = (Throw err, e2) ->
             fst (Remotion.render this data id w)
             = fst (renderMedia
                      (Remotion.cpu_options this composition data
                         (path_join [videosDirPath (Remotion.config this);
                                     id +:+ ".mp4"]))
                      e2)
             /\ ro_pixelFormat
                  (Remotion.cpu_options this composition data
                     (path_join [videosDirPath (Remotion.config this);
                                 id +:+ ".mp4"])) = None
             /\ In (LogEntry Err (Some err)
                             "GPU rendering failed, attempting CPU fallback")
                   (log (snd (Remotion.render this data id w)))).
Proof.
  split.
  { intros config. split; [apply Whisper_init_logs_and_rethrows|].
    intros w installed out e1 e2.
    exact (Whisper_init_check_comes_out config w installed out e1 e2). }
  split.
  { intros this audioPath scriptPath.
    split; [apply CreateCaption_logs_and_rethrows|].
    split; [apply CreateCaption_2_logs_and_rethrows|].
    split.
    - intros w output err e1 e2.
      exact (CreateCaption_parse_error_comes_out this audioPath w output err
               e1 e2).
    - intros w e0 e1 e2.
      exact (CreateCaption_2_raises_come_out this audioPath w e0 e1 e2). }
  split.
  { intros this t voice. split; [apply generate_logs_and_rethrows|].
    split.
    - intros w. exact (generate_early_raises_come_out this t voice w).
    - intros w s outputs e1.
      exact (generate_late_raises_come_out this t voice w s outputs e1). }
  split; [exact generate_without_text|].
  split.
  { intros w.
    split; [exact (Kokoro_init_failure w)|].
    split; [exact (Kokoro_init_propagates w)|].
    split; [exact (Kokoro_init_raises_come_out w)|].
    exact (Kokoro_init_local_install_caught w). }
  split.
  { split; [apply strict_but_propagates, FFMpeg_init_strict_but|].
    intros w installer e1 Himp. split.
    - exact (FFMpeg_init_survives_probe w installer e1 Himp).
    - intros err e2.
      exact (FFMpeg_init_probe_failure_logged w installer e1 e2 err Himp). }
  split.
  { intros config.
    split; [apply strict_but_propagates, Remotion_init_strict_but|].
    intros w e1 Hbrowser. split.
    - exact (Remotion_init_survives_setup config w e1 Hbrowser).
    - intros err e2 Hdocker.
      exact (Remotion_init_setup_failure_logged config w e1 e2 err Hdocker
               Hbrowser). }
  intros this data id.
  split; [apply strict_but_propagates, render_strict_but|].
  intros w composition e1 e2 err Hsel Hgpu.
  destruct (render_gpu_failure_caught this data id w composition e1 e2 err
              Hsel Hgpu) as [Hres Hlog].
  split; [exact Hres|]. split; [reflexivity | exact Hlog].
Qed.

End ErrorsComeOut.

Lemma errors_rethrown_or_caught_for_fallback_witness :
  (raised_inside
     (@Whisper.CreateCaption _ (Scripted.platform Scripted.python_fails)
        (Whisper.new Scripted.a_config) "/tmp/speech.wav")
     Scripted.start (Error "Command failed: python")
   /\ fst (@Whisper.CreateCaption _ (Scripted.platform Scripted.python_fails)
             (Whisper.new Scripted.a_config) "/tmp/speech.wav" Scripted.start)
      = Throw (Error "Command failed: python"))
  /\ (@JSON_parse_words _ (Scripted.platform Scenarios.unparsable_output) "ok"
      = Throw (Error "Unexpected token o in JSON at position 0")
      /\ fst (@Whisper.CreateCaption _
                (Scripted.platform Scenarios.unparsable_output)
                (Whisper.new Scripted.a_config) "/tmp/speech.wav" Scripted.start)
         = Throw (Error "Unexpected token o in JSON at position 0"))
  /\ (@importFfmpegInstaller _ (Scripted.platform Scripted.no_gpu) (ext Scripted.start)
      = (Ok Scripted.an_installer, 1%nat)
      /\ @execSync _ (Scripted.platform Scripted.no_gpu)
           "nvidia-smi --query-gpu=name --format=csv,noheader" 1%nat
         = (Throw (Error "nvidia-smi: not found"), 2%nat)
      /\ fst (@FFMpeg.init _ (Scripted.platform Scripted.no_gpu) Scripted.start)
         = Ok FFMpeg.new
      /\ In (LogEntry Warn (Some (Error "nvidia-smi: not found"))
               "GPU detection failed, using CPU")
            (log (snd (@FFMpeg.init _ (Scripted.platform Scripted.no_gpu)
                         Scripted.start))))
  /\ (@execSync _ (Scripted.platform Scenarios.local_install_fails)
        "npm install onnxruntime-node@latest --save" (ext Scripted.start)
      = (Throw (Error "EACCES: permission denied"), 1%nat)
      /\ fst (@Kokoro.init _ (Scripted.platform Scenarios.local_install_fails)
                Scripted.start)
         = Ok Scripted.a_kokoro
      /\ In (LogEntry Warn (Some (Error "EACCES: permission denied"))
               "Fallback to global installation")
            (log (snd (@Kokoro.init _
                         (Scripted.platform Scenarios.local_install_fails)
                         Scripted.start)))).
Proof.
  assert (Hraised :
    raised_inside
      (@Whisper.CreateCaption _ (Scripted.platform Scripted.python_fails)
         (Whisper.new Scripted.a_config) "/tmp/speech.wav")
      Scripted.start (Error "Command failed: python")).
  { eexists. eexists. split; [vm_compute; reflexivity|].
    right. left. reflexivity. }
  split; [|split; [|split]].
  - split; [exact Hraised|].
    destruct (@errors_rethrown_or_caught_for_fallback _
                (Scripted.platform Scripted.python_fails))
      as (_ & Hcaption & _).
    destruct (Hcaption (Whisper.new Scripted.a_config) "/tmp/speech.wav")
      as [[Hrethrow _] _].
    exact (Hrethrow Scripted.start (Error "Command failed: python") Hraised).
  - split; [reflexivity|].
    destruct (@errors_rethrown_or_caught_for_fallback _
                (Scripted.platform Scenarios.unparsable_output))
      as (_ & Hcaption & _).
    destruct (Hcaption (Whisper.new Scripted.a_config) "/tmp/speech.wav")
      as (_ & _ & Hparse & _).
    exact (Hparse Scripted.start "ok"
             (Error "Unexpected token o in JSON at position 0")
             1%nat 2%nat eq_refl eq_refl eq_refl).
  - destruct (@errors_rethrown_or_caught_for_fallback _
                (Scripted.platform Scripted.no_gpu))
      as (_ & _ & _ & _ & _ & (_ & Hprobe) & _).
    destruct (Hprobe Scripted.start Scripted.an_installer 1%nat eq_refl)
      as [Hok Hlog].
    split; [reflexivity|]. split; [reflexivity|]. split; [exact Hok|].
    exact (Hlog (Error "nvidia-smi: not found") 2%nat eq_refl).
  - destruct (@errors_rethrown_or_caught_for_fallback _
                (Scripted.platform Scenarios.local_install_fails))
      as (_ & _ & _ & _ & Hinit & _).
    destruct (Hinit Scripted.start) as (_ & _ & _ & Hlocal).
    destruct (Hlocal (Error "EACCES: permission denied") 1%nat eq_refl)
      as (Hlog & _ & _).
    split; [reflexivity|]. split; [reflexivity | exact Hlog].
Defined.

(** ** The further properties on the scripted platforms *)

Lemma Remotion_init_version_mismatch_witness :
  runningInDocker Scripted.a_config = false
  /\ includes "4.0.286" "@remotion/renderer@4.0.100" = false
  /\ fst (@Remotion.init _ (Scripted.platform Scenarios.wrong_remotion)
            Scripted.a_config Scripted.start)
     = Ok (Remotion.new "/tmp/bundle" Scripted.a_config)
  /\ execSync_calls
       (trace (snd (@Remotion.init _ (Scripted.platform Scenarios.wrong_remotion)
                      Scripted.a_config Scripted.start)))
     = ["npm install @ffmpeg-installer/ffmpeg@1.1.0 --no-save";
        "npm list @remotion/renderer"].
Proof.
  split; [reflexivity|]. split; [reflexivity|].
  destruct (@Remotion_init_version_mismatch _
              (Scripted.platform Scenarios.wrong_remotion)
              Scripted.a_config Scripted.start 1%nat 2%nat 3%nat
              "ok" "@remotion/renderer@4.0.100"
              eq_refl eq_refl eq_refl eq_refl eq_refl)
    as (Hcalls & _ & Hres).
  split; [exact Hres | exact Hcalls].
Defined.

Lemma render_without_composition_witness :
  @selectComposition _ (Scripted.platform Scenarios.no_composition)
      "/tmp/bundle" Remotion.COMPONENT_TO_RENDER "props" (ext Scripted.start)
    = (Throw (Error "No composition with the ID ShortVideo found"), 1%nat)
  /\ fst (@Remotion.render _ (Scripted.platform Scenarios.no_composition)
            (Remotion.new "/tmp/bundle" Scripted.a_config)
            "props" "vid1" Scripted.start)
     = Throw (Error "No composition with the ID ShortVideo found")
  /\ Remotion.renderMedia_calls
       (trace (snd (@Remotion.render _ (Scripted.platform Scenarios.no_composition)
                      (Remotion.new "/tmp/bundle" Scripted.a_config)
                      "props" "vid1" Scripted.start)))
     = [].
Proof.
  split; [reflexivity|].
  destruct (@render_without_composition _
              (Scripted.platform Scenarios.no_composition)
              (Remotion.new "/tmp/bundle" Scripted.a_config)
              "props" "vid1" Scripted.start
              (Error "No composition with the ID ShortVideo found") 1%nat eq_refl)
    as (Hres & Hcalls & _).
  split; [exact Hres | exact Hcalls].
Defined.

Lemma init_flag_follows_probes_witness :
  (gpuAccelerated
     (snd (@FFMpeg.init _ (Scripted.platform Scripted.all_good) Scripted.start))
   = true
   <-> includes "T4" (trim ("Tesla T4" +:+ LF)) = true
       /\ includes "nvenc" " V..... h264_nvenc  NVIDIA NVENC H.264 encoder" = true)
  /\ (gpuAccelerated
        (snd (@FFMpeg.init _ (Scripted.platform Scenarios.no_nvenc) Scripted.start))
      = true
      <-> includes "T4" (trim ("Tesla T4" +:+ LF)) = true
          /\ includes "nvenc" " DEV.LS h264  H.264 / AVC" = true).
Proof.
  split.
  - exact (@init_flag_follows_probes _ (Scripted.platform Scripted.all_good)
             Scripted.start Scripted.an_installer 1%nat 2%nat 3%nat
             ("Tesla T4" +:+ LF)
             " V..... h264_nvenc  NVIDIA NVENC H.264 encoder"
             eq_refl eq_refl eq_refl eq_refl).
  - exact (@init_flag_follows_probes _ (Scripted.platform Scenarios.no_nvenc)
             Scripted.start Scripted.an_installer 1%nat 2%nat 3%nat
             ("Tesla T4" +:+ LF) " DEV.LS h264  H.264 / AVC"
             eq_refl eq_refl eq_refl eq_refl).
Defined.

Lemma init_leaves_flag_without_T4_witness :
  @importFfmpegInstaller _ (Scripted.platform Scenarios.other_gpu)
     (ext Scripted.start) = (Ok Scripted.an_installer, 1%nat)
  /\ includes "T4" (trim ("NVIDIA A100" +:+ LF)) = false
  /\ gpuAccelerated
       (snd (@FFMpeg.init _ (Scripted.platform Scenarios.other_gpu)
               (@World Scripted.carriers 0%nat [] [] true))) = true
  /\ gpuAccelerated
       (snd (@FFMpeg.init _ (Scripted.platform Scripted.no_gpu)
               (@World Scripted.carriers 0%nat [] [] true))) = true.
Proof.
  split; [reflexivity|]. split; [reflexivity|]. split.
  - exact (proj1 (proj2 (@init_leaves_flag_without_T4 _
                           (Scripted.platform Scenarios.other_gpu)
                           (@World Scripted.carriers 0%nat [] [] true) Scripted.an_installer 1%nat
                           eq_refl)
                        ("NVIDIA A100" +:+ LF) 2%nat eq_refl eq_refl)).
  - exact (proj1 (@init_leaves_flag_without_T4 _
                    (Scripted.platform Scripted.no_gpu)
                    (@World Scripted.carriers 0%nat [] [] true) Scripted.an_installer 1%nat eq_refl)
                 (Error "nvidia-smi: not found") 2%nat eq_refl).
Defined.

Lemma init_without_installer_witness :
  @importFfmpegInstaller _ (Scripted.platform Scenarios.no_installer)
     (ext Scripted.start)
  = (Throw (Error "Cannot find package '@ffmpeg-installer/ffmpeg'"), 1%nat)
  /\ fst (@FFMpeg.init _ (Scripted.platform Scenarios.no_installer) Scripted.start)
     = Throw (Error "Cannot find package '@ffmpeg-installer/ffmpeg'").
Proof.
  split; [reflexivity|].
  exact (f_equal fst
           (@init_without_installer _ (Scripted.platform Scenarios.no_installer)
              Scripted.start
              (Error "Cannot find package '@ffmpeg-installer/ffmpeg'") 1%nat
              eq_refl)).
Defined.

Lemma createMp3DataUri_settles_witness :
  fst (@ffmpegPipe _ (Scripted.platform Scenarios.two_chunks)
         (FFMpeg.mp3_command false [82; 73; 70; 70]) (ext Scripted.start))
  = stream_chunks [[73; 68]; [51]] ++ OnStreamEnd :: [OnEnd]
  /\ fst (@FFMpeg.createMp3DataUri _ (Scripted.platform Scenarios.two_chunks)
            FFMpeg.new [82; 73; 70; 70] Scripted.start)
     = Resolved ("data:audio/mp3;base64," +:+
                 @base64 _ (Scripted.platform Scenarios.two_chunks) [73; 68; 51]).
Proof.
  split; [reflexivity|].
  exact (proj1 (@createMp3DataUri_settles _
                  (Scripted.platform Scenarios.two_chunks)
                  FFMpeg.new [82; 73; 70; 70] Scripted.start
                  [[73; 68]; [51]] [OnEnd])
               eq_refl).
Defined.

Lemma Whisper_init_in_docker_witness :
  runningInDocker Scenarios.docker_config = true
  /\ @Whisper.init _ (Scripted.platform Scripted.no_gpu)
       Scenarios.docker_config Scripted.start
     = (Ok (Whisper.new Scenarios.docker_config), Scripted.start).
Proof.
  split; [reflexivity|].
  exact (@Whisper_init_in_docker _ (Scripted.platform Scripted.no_gpu)
           Scenarios.docker_config Scripted.start eq_refl).
Defined.

Lemma Whisper_init_needs_cuda_witness :
  runningInDocker Scripted.a_config = false
  /\ trim ("False" +:+ LF) <> "True"
  /\ fst (@Whisper.init _ (Scripted.platform Scenarios.no_cuda_torch)
            Scripted.a_config Scripted.start)
     = Throw (Error "CUDA is not available. Please ensure you are using a GPU runtime in Colab.")
  /\ fst (@Whisper.init _ (Scripted.platform Scripted.all_good)
            Scripted.a_config Scripted.start)
     = Ok (Whisper.new Scripted.a_config)
  /\ exists out,
       fst (@execSync _ (Scripted.platform Scripted.all_good)
              ("python -c " +:+
               Whisper.quoted "import torch; print(torch.cuda.is_available())")
              1%nat) = Ok out
       /\ trim out = "True".
Proof.
  assert (Hfalse : trim ("False" +:+ LF) <> "True")
    by (intros Heq; discriminate Heq).
  split; [reflexivity|]. split; [exact Hfalse|]. split.
  - exact (proj2 (@Whisper_init_needs_cuda _
                    (Scripted.platform Scenarios.no_cuda_torch)
                    Scripted.a_config Scripted.start eq_refl)
                 1%nat 2%nat "ok" ("False" +:+ LF) eq_refl eq_refl Hfalse).
  - split; [reflexivity|].
    destruct (proj1 (@Whisper_init_needs_cuda _
                       (Scripted.platform Scripted.all_good)
                       Scripted.a_config Scripted.start eq_refl)
                    (Whisper.new Scripted.a_config) eq_refl)
      as (_ & e1 & e2 & installed & out & Hpip & Hcheck & Htrue).
    injection Hpip as _ <-.
    exists out. split; [rewrite Hcheck; reflexivity | exact Htrue].
Defined.

Lemma CreateCaption_runs_only_written_script_witness :
  @writeFile _ Scenarios.disk_full "/data/whisper/transcribe_gpu.py"
     (@Whisper.pythonScript (Whisper.new Scripted.a_config) "/tmp/speech.wav")
     (ext Scripted.start)
  = (Throw (Error "ENOSPC: no space left on device"), 1%nat)
  /\ fst (@Whisper.CreateCaption _ Scenarios.disk_full
            (Whisper.new Scripted.a_config) "/tmp/speech.wav" Scripted.start)
     = Throw (Error "ENOSPC: no space left on device")
  /\ execSync_calls
       (trace (snd (@Whisper.CreateCaption _ Scenarios.disk_full
                      (Whisper.new Scripted.a_config) "/tmp/speech.wav"
                      Scripted.start)))
     = [].
Proof.
  split; [reflexivity|].
  exact (proj1 (@CreateCaption_runs_only_written_script _ Scenarios.disk_full
                  (Whisper.new Scripted.a_config) "/tmp/speech.wav" Scripted.start)
               (Error "ENOSPC: no space left on device") 1%nat eq_refl).
Defined.

Lemma caption_times_ordered_witness :
  (5 # 2 <= 1234 # 10)%Q
  /\ exists zs ze : Z,
       startMs (Whisper.caption_of_word Scripted.one_word) = of_Z zs
       /\ endMs (Whisper.caption_of_word Scripted.one_word) = of_Z ze
       /\ zs <= ze
       /\ ((0 <= 5 # 2)%Q -> 0 <= zs).
Proof.
  assert (Hle : (5 # 2 <= 1234 # 10)%Q) by (intros Hgt; discriminate Hgt).
  split; [exact Hle|].
  exact (caption_times_ordered Scripted.one_word (5 # 2) (1234 # 10)
           eq_refl eq_refl Hle).
Defined.

Lemma escaped_paths_distinct_witness :
  (forall c, In c (list_ascii_of_string "/tmp/speech.wav") -> c <> BACKSLASH)
  /\ double_backslashes "/tmp/speech.wav" = "/tmp/speech.wav".
Proof.
  assert (Hplain : forall c,
             In c (list_ascii_of_string "/tmp/speech.wav") -> c <> BACKSLASH).
  { intros c Hin Heq. subst c. simpl in Hin.
    repeat (destruct Hin as [Hin | Hin]; [discriminate Hin|]).
    exact Hin. }
  split; [exact Hplain|].
  exact (proj2 (escaped_paths_distinct "/tmp/speech.wav" "/tmp/speech.wav")
               Hplain).
Defined.

Lemma generate_returns_audio_witness :
  @sessionRun _ (Scripted.platform Scripted.all_good) 1%nat Scenarios.tensor_hi
     ["cuda"] (ext Scripted.start) = (Ok Scripted.two_samples, 1%nat)
  /\ exists audioData,
       fst (@Kokoro.generate _ (Scripted.platform Scripted.all_good)
              Scripted.a_kokoro (Some "hi") "af_heart" Scripted.start)
       = Ok (audioData,
             @Kokoro.audio_length _ (Scripted.platform Scripted.all_good)
               audioData (Some (JNum 24000)))
       /\ length audioData = 4%nat
       /\ @Kokoro.audio_length _ (Scripted.platform Scripted.all_good)
            [255; 63; 0; 128] (Some (JNum 24000))
          = Fin (6148914691236517 # 73786976294838206464).
Proof.
  split; [reflexivity|].
  assert (Hhi : "hi" <> EmptyString) by (intros Heq; discriminate Heq).
  assert (Hsamples : [Fin (1 # 2); Fin (-2)] <> [])
    by (intros Heq; discriminate Heq).
  destruct (@generate_returns_audio _ (Scripted.platform Scripted.all_good)
              Scripted.a_kokoro "hi" "af_heart" Scripted.start 1%nat
              [Fin (1 # 2); Fin (-2)] 1%nat (Some (JNum 24000))
              eq_refl Hhi eq_refl Hsamples eq_refl)
    as (audioData & Hgen & Hlen & _).
  exists audioData. split; [exact Hgen|]. split; [exact Hlen|].
  vm_compute. reflexivity.
Defined.

Lemma generate_guards_witness :
  fst (@Kokoro.generate _ (Scripted.platform Scripted.all_good)
         Scenarios.a_kokoro_without_session (Some "hi") "af_heart" Scripted.start)
  = Throw (Error "Inference session not initialized")
  /\ fst (@Kokoro.generate _ (Scripted.platform Scenarios.no_audio)
            Scripted.a_kokoro (Some "hi") "af_heart" Scripted.start)
     = Throw (Error "Invalid model outputs").
Proof.
  assert (Hhi : "hi" <> EmptyString) by (intros Heq; discriminate Heq).
  split.
  - exact (proj1 (proj1 (@generate_guards _ (Scripted.platform Scripted.all_good)
                           Scenarios.a_kokoro_without_session "hi" "af_heart"
                           Scripted.start)
                        eq_refl)).
  - exact (proj1 (proj2 (@generate_guards _ (Scripted.platform Scenarios.no_audio)
                           Scripted.a_kokoro "hi" "af_heart" Scripted.start)
                        1%nat (Some {| audio := None |}) 1%nat
                        eq_refl Hhi eq_refl)
                 (or_intror eq_refl)).
Defined.

Lemma postprocessAudio_returns_bytes_witness :
  fst (@Kokoro.postprocessAudio Scripted.carriers Scripted.two_samples
         Scripted.start) = Ok [255; 63; 0; 128]
  /\ Forall (fun b => 0 <= b < 256) [255; 63; 0; 128].
Proof.
  split; [reflexivity|].
  exact (proj1 (@postprocessAudio_returns_bytes Scripted.carriers
                  Scripted.two_samples Scripted.start [255; 63; 0; 128] eq_refl)).
Defined.

Lemma stored_samples_monotone_witness :
  (-2 <= 1 # 2)%Q
  /\ ToInt16 (Kokoro.scale_and_clamp (Fin (-2)))
     <= ToInt16 (Kokoro.scale_and_clamp (Fin (1 # 2))).
Proof.
  assert (Hle : (-2 <= 1 # 2)%Q) by (intros Hgt; discriminate Hgt).
  split; [exact Hle|].
  exact (proj1 (stored_samples_monotone (-2) (1 # 2) Hle)).
Defined.

Lemma Kokoro_init_installs_witness :
  @execSync _ (Scripted.platform Scenarios.local_install_fails)
     "npm install onnxruntime-node@latest --save" (ext Scripted.start)
  = (Throw (Error "EACCES: permission denied"), 1%nat)
  /\ execSync_calls
       (trace (snd (@Kokoro.init _ (Scripted.platform Scenarios.local_install_fails)
                      Scripted.start)))
     = ["npm install onnxruntime-node@latest --save";
        "npm install -g onnxruntime-node@latest"]
  /\ execSync_calls
       (trace (snd (@Kokoro.init _ (Scripted.platform Scripted.all_good)
                      Scripted.start)))
     = ["npm install onnxruntime-node@latest --save"].
Proof.
  split; [reflexivity|]. split.
  - exact (proj1 (proj2 (@Kokoro_init_installs _
                           (Scripted.platform Scenarios.local_install_fails)
                           Scripted.start)
                        (Error "EACCES: permission denied") 1%nat eq_refl)).
  - exact (proj1 (@Kokoro_init_installs _ (Scripted.platform Scripted.all_good)
                    Scripted.start)
                 "ok" 1%nat eq_refl).
Defined.

Lemma init_2_installs_only_on_empty_path_witness :
  @requireResolve _ Scenarios.module_missing "onnxruntime-node" (ext Scripted.start)
  = (Throw (Error "Cannot find module 'onnxruntime-node'"), 1%nat)
  /\ fst (@Kokoro.init_2 _ Scenarios.module_missing
            (ret Scripted.a_kokoro) Scripted.start)
     = Throw (Error "Failed to initialize Kokoro: Cannot find module 'onnxruntime-node'")
  /\ @Kokoro.init_2 _ (Scripted.platform Scripted.all_good)
       (ret Scripted.a_kokoro) Scripted.start
     = (Ok Scripted.a_kokoro,
        @World Scripted.carriers 1%nat [] [Called (RequireResolve "onnxruntime-node")
                               (Ok (VString "node_modules/onnxruntime-node"))]
              false).
Proof.
  split; [reflexivity|]. split.
  - exact (proj1 (proj1 (@init_2_installs_only_on_empty_path _
                           Scenarios.module_missing
                           (ret Scripted.a_kokoro) Scripted.start)
                        (Error "Cannot find module 'onnxruntime-node'") 1%nat
                        eq_refl)).
  - assert (Hpath : "node_modules/onnxruntime-node" <> EmptyString)
      by (intros Heq; discriminate Heq).
    exact (proj1 (proj2 (@init_2_installs_only_on_empty_path _
                           (Scripted.platform Scripted.all_good)
                           (ret Scripted.a_kokoro) Scripted.start))
                 "node_modules/onnxruntime-node" 1%nat Scripted.a_kokoro _
                 eq_refl Hpath eq_refl).
Defined.

Lemma init_then_generate_witness :
  fst (@Kokoro.init _ (Scripted.platform Scripted.all_good) Scripted.start)
  = Ok Scripted.a_kokoro
  /\ exists audioData,
       fst (@Kokoro.generate _ (Scripted.platform Scripted.all_good)
              Scripted.a_kokoro (Some "hi") "af_heart" Scripted.start)
       = Ok (audioData,
             @Kokoro.audio_length _ (Scripted.platform Scripted.all_good)
               audioData (Some (JNum 24000)))
       /\ length audioData = 4%nat.
Proof.
  split; [reflexivity|].
  assert (Hhi : "hi" <> EmptyString) by (intros Heq; discriminate Heq).
  assert (Hsamples : [Fin (1 # 2); Fin (-2)] <> [])
    by (intros Heq; discriminate Heq).
  destruct (@init_then_generate _ (Scripted.platform Scripted.all_good)
              Scripted.start Scripted.a_kokoro eq_refl)
    as (s & sample_rate & Hs & Hrate & _ & Hgen).
  cbv in Hs. injection Hs as <-.
  cbv in Hrate. injection Hrate as <-.
  exact (Hgen "hi" "af_heart" Scripted.start [Fin (1 # 2); Fin (-2)] 1%nat
              Hhi eq_refl Hsamples).
Defined.
